(** * Copilot team metrics: a shallow embedding of the two collector scripts

    [fetch_ent_copilot_billingseat.py] joins enterprise teams, SCIM directory
    records and Copilot seats into one report; [fetch_ent_team_copilot_metrics.py]
    flattens the per-team usage metrics.  Both are embedded below, function by
    function, and the properties of the specification are stated over the
    embedding.

    Conventions of the embedding.
    - A Python [str] is a [string]; the text handled by the scripts (logins,
      e-mail addresses, header values, slugs) is ASCII, and the string
      primitives below ([lower], [strip], [isdigit], ...) are Python's
      restricted to ASCII code points.
    - A Python [set] of strings is a [gset string], a [dict] with string keys
      built by the code is a [gmap]; a decoded JSON object is an association
      list read with [dict_get].
    - Exceptions are values of [exn]; a computation returns an [outcome].
      Code that talks to the network or sleeps runs in [Run World]: the world
      records the GETs issued, the sleeps and the log lines, and the remote
      side is a [Server], the sequence of answers it gives to the successive
      GETs of a run.  A [while True] loop takes fuel; [OutOfFuel] is not a
      behaviour of the script but the mark of a loop still running.
    - [datetime.fromisoformat] and the system clock are parameters ([Clock]);
      network failures below HTTP (time-outs, refused connections) are not
      modelled, and [print] output is left out.
    - [int] and [time.sleep] are CPython's: [int] refuses a literal of more
      than 4300 digits, [time.sleep] a negative length and one beyond
      9223372036 seconds, the range of its 64-bit nanosecond clock.  A sleep
      the interpreter accepts is taken to return; that an operating system
      may still refuse the longest of them is left out, like every other
      failure of the platform. *)

From Stdlib Require Import Ascii ZArith Lia.
From stdpp Require Import base option list gmap strings pretty.

#[local] Set Warnings "-register-all,-clear-no-such-hyp".

Local Open Scope Z_scope.

(** ** Python string primitives (ASCII) *)

Module PyStr.

Definition code (c : ascii) : N := N_of_ascii c.

Definition in_range (lo hi : N) (c : ascii) : bool :=
  ((lo <=? code c) && (code c <=? hi))%N.

Definition is_upper (c : ascii) : bool := in_range 65 90 c.
Definition is_lower (c : ascii) : bool := in_range 97 122 c.
Definition is_digit (c : ascii) : bool := in_range 48 57 c.

(** [str.isspace] on one ASCII character: TAB, LF, VT, FF, CR, the four
    separators 0x1c-0x1f and the blank. *)
Definition is_space (c : ascii) : bool :=
  in_range 9 13 c || in_range 28 31 c || (code c =? 32)%N.

Definition lower_char (c : ascii) : ascii :=
  if is_upper c then ascii_of_N (code c + 32) else c.

(** [s.lower()] *)
Fixpoint lower (s : string) : string :=
  match s with
  | EmptyString => EmptyString
  | String c s' => String (lower_char c) (lower s')
  end.

Fixpoint lstrip_by (p : ascii → bool) (s : string) : string :=
  match s with
  | EmptyString => EmptyString
  | String c s' => if p c then lstrip_by p s' else s
  end.

Fixpoint rstrip_by (p : ascii → bool) (s : string) : string :=
  match s with
  | EmptyString => EmptyString
  | String c s' =>
      match rstrip_by p s' with
      | EmptyString => if p c then EmptyString else String c EmptyString
      | r => String c r
      end
  end.

Definition strip_by (p : ascii → bool) (s : string) : string :=
  rstrip_by p (lstrip_by p s).

(** [s.strip()] *)
Definition strip (s : string) : string := strip_by is_space s.

(** [s.strip(chars)] for a one-character [chars] *)
Definition strip_char (c : ascii) (s : string) : string :=
  strip_by (λ x, bool_decide (x = c)) s.

(** [s.replace(old, new)] for a one-character [old] *)
Fixpoint replace (old : ascii) (new : string) (s : string) : string :=
  match s with
  | EmptyString => EmptyString
  | String c s' =>
      if bool_decide (c = old) then new +:+ replace old new s'
      else String c (replace old new s')
  end.

(** [old in s] for a one-character [old] *)
Fixpoint contains (c : ascii) (s : string) : bool :=
  match s with
  | EmptyString => false
  | String x s' => bool_decide (x = c) || contains c s'
  end.

(** [s.split(sep, 1)[0]] for a one-character [sep]: the text before the
    first [sep], the whole of [s] when it has none. *)
Fixpoint split1_head (sep : ascii) (s : string) : string :=
  match s with
  | EmptyString => EmptyString
  | String x s' =>
      if bool_decide (x = sep) then EmptyString
      else String x (split1_head sep s')
  end.

(** [re.sub("[^...]", "", s)]: the characters of the class are kept. *)
Fixpoint keep (p : ascii → bool) (s : string) : string :=
  match s with
  | EmptyString => EmptyString
  | String c s' => if p c then String c (keep p s') else keep p s'
  end.

(** truthiness of a [str] *)
Definition nonempty (s : string) : bool :=
  match s with EmptyString => false | _ => true end.

(** [s.isdigit()] *)
Fixpoint all_digits (s : string) : bool :=
  match s with
  | EmptyString => true
  | String c s' => is_digit c && all_digits s'
  end.

Definition isdigit (s : string) : bool := nonempty s && all_digits s.

Definition digit_val (c : ascii) : Z := Z.of_N (code c) - 48.

Fixpoint digits_val (acc : Z) (s : string) : Z :=
  match s with
  | EmptyString => acc
  | String c s' => digits_val (10 * acc + digit_val c) s'
  end.

End PyStr.

(** ** Decoded JSON values and the Python operations used on them *)

(** JSON numbers are integers: none of the fields read by the scripts
    (counters, page sizes, totals) is fractional. *)
Inductive json :=
  | JNull
  | JBool (b : bool)
  | JNum (z : Z)
  | JStr (s : string)
  | JList (l : list json)
  | JDict (d : list (string * json)).

Module Py.

(** [bool(v)] *)
Definition truthy (v : json) : bool :=
  match v with
  | JNull => false
  | JBool b => b
  | JNum z => negb (z =? 0)
  | JStr s => PyStr.nonempty s
  | JList l => match l with [] => false | _ => true end
  | JDict d => match d with [] => false | _ => true end
  end.

(** [a or b] *)
Definition or (a b : json) : json := if truthy a then a else b.

(** Look-up in a decoded object; the first binding of a key is the one a
    reader sees (decoded objects have no duplicate keys). *)
Fixpoint dict_get (d : list (string * json)) (k : string) : option json :=
  match d with
  | [] => None
  | (k', v) :: d' => if bool_decide (k' = k) then Some v else dict_get d' k
  end.

(** [d[k] = v] on a dict kept as its items in insertion order: the value of
    a key already present is replaced where it stands, a new key goes last. *)
Fixpoint dict_set {V : Type} (k : string) (v : V) (d : list (string * V))
  : list (string * V) :=
  match d with
  | [] => [(k, v)]
  | (k', v') :: d' =>
      if bool_decide (k' = k) then (k, v) :: d' else (k', v') :: dict_set k v d'
  end.

(** [dict(items)] *)
Definition dict_of {V : Type} (items : list (string * V)) : list (string * V) :=
  foldl (λ d kv, dict_set kv.1 kv.2 d) [] items.

(** [d.get(k)] on such a dict *)
Fixpoint dict_lookup {V : Type} (d : list (string * V)) (k : string) : option V :=
  match d with
  | [] => None
  | (k', v) :: d' => if bool_decide (k' = k) then Some v else dict_lookup d' k
  end.

Definition is_list (v : json) : bool :=
  match v with JList _ => true | _ => false end.
Definition is_dict (v : json) : bool :=
  match v with JDict _ => true | _ => false end.

(** [type(v)] as printed in an f-string *)
Definition type_name (v : json) : string :=
  match v with
  | JNull => "<class 'NoneType'>"
  | JBool _ => "<class 'bool'>"
  | JNum _ => "<class 'int'>"
  | JStr _ => "<class 'str'>"
  | JList _ => "<class 'list'>"
  | JDict _ => "<class 'dict'>"
  end.

Definition backslash : ascii := ascii_of_N 92.
Definition dquote : ascii := ascii_of_N 34.

Definition hex_digit (n : N) : ascii :=
  if (n <? 10)%N then ascii_of_N (48 + n) else ascii_of_N (87 + n).

Definition repr_char (q c : ascii) : string :=
  if bool_decide (c = backslash) then String backslash (String backslash "")
  else if bool_decide (c = q) then String backslash (String q "")
  else if (PyStr.code c =? 9)%N then String backslash "t"
  else if (PyStr.code c =? 10)%N then String backslash "n"
  else if (PyStr.code c =? 13)%N then String backslash "r"
  else if ((PyStr.code c <? 32) || (PyStr.code c =? 127))%N
       then String backslash
              (String "x" (String (hex_digit (PyStr.code c / 16))
                             (String (hex_digit (PyStr.code c mod 16)) "")))
  else String c "".

Fixpoint repr_chars (q : ascii) (s : string) : string :=
  match s with
  | EmptyString => EmptyString
  | String c s' => repr_char q c +:+ repr_chars q s'
  end.

(** [repr(s)] of a [str]: single quotes unless the text has a single quote
    and no double quote. *)
Definition repr_str (s : string) : string :=
  let q := if PyStr.contains "'" s && negb (PyStr.contains dquote s)
           then dquote else "'"%char in
  String q (repr_chars q s) +:+ String q "".

Fixpoint join (sep : string) (l : list string) : string :=
  match l with
  | [] => ""
  | [x] => x
  | x :: l' => x +:+ sep +:+ join sep l'
  end.

(** [repr(v)] *)
Fixpoint repr (v : json) : string :=
  match v with
  | JNull => "None"
  | JBool true => "True"
  | JBool false => "False"
  | JNum z => pretty z
  | JStr s => repr_str s
  | JList l => "[" +:+ join ", " (map repr l) +:+ "]"
  | JDict d =>
      "{" +:+ join ", " (map (λ kv, let '(k, x) := kv in
                                    repr_str k +:+ ": " +:+ repr x) d) +:+ "}"
  end.

(** [str(v)] *)
Definition str (v : json) : string :=
  match v with JStr s => s | _ => repr v end.

(** The decimal literals [int(s)] accepts once blanks and sign are off:
    digits, single underscores only between digits. *)
Fixpoint int_body_ok (prev_digit : bool) (s : string) : bool :=
  match s with
  | EmptyString => prev_digit
  | String c s' =>
      if PyStr.is_digit c then int_body_ok true s'
      else if bool_decide (c = "_"%char) then prev_digit && int_body_ok false s'
      else false
  end.

(** [sys.int_info.default_max_str_digits]: [int] refuses a literal with more
    digits, underscores and sign not counted. *)
Definition MAX_STR_DIGITS : Z := 4300.

Definition int_body (s : string) : option Z :=
  let digits := PyStr.keep PyStr.is_digit s in
  if int_body_ok false s
     && (Z.of_nat (String.length digits) <=? MAX_STR_DIGITS)
  then Some (PyStr.digits_val 0 digits)
  else None.

(** The blanks [int] skips around an ASCII literal: TAB, LF, VT, FF, CR and
    the space.  Unlike [str.strip] it does not skip 0x1c-0x1f. *)
Definition int_space (c : ascii) : bool :=
  PyStr.in_range 9 13 c || (PyStr.code c =? 32)%N.

(** [int(s)] for a [str]; [None] stands for [ValueError]. *)
Definition int_of_string (s : string) : option Z :=
  match PyStr.strip_by int_space s with
  | EmptyString => None
  | String c s' =>
      if bool_decide (c = "+"%char) then int_body s'
      else if bool_decide (c = "-"%char) then Z.opp <$> int_body s'
      else int_body (String c s')
  end.

End Py.

(** ** Exceptions, outcomes and the state-and-error monad *)

(** What [requests] hands back for one GET. *)
Record Response := {
  status_code : Z;
  reason : string;
  resp_url : string;                      (* resp.url *)
  text : string;                          (* resp.text *)
  body : option json;                     (* resp.json(); None: not JSON *)
  retry_after : option string;            (* headers.get("Retry-After") *)
  ratelimit_remaining : option string;    (* X-RateLimit-Remaining *)
  ratelimit_reset : option string;        (* X-RateLimit-Reset *)
  links_next : bool;                      (* "next" in resp.links *)
}.

Inductive exn :=
  | AttributeError
  | TypeError
  | ValueError
  | OverflowError
  | JSONDecodeError
  | RuntimeError (msg : string)
  | HTTPError (msg : string) (resp : Response).

Inductive outcome (A : Type) :=
  | Ok (a : A)
  | Raise (e : exn)
  | OutOfFuel.
Arguments Ok {A} a.
Arguments Raise {A} e.
Arguments OutOfFuel {A}.

Definition outcome_bind {A B} (f : A → outcome B) (o : outcome A) : outcome B :=
  match o with
  | Ok a => f a
  | Raise e => Raise e
  | OutOfFuel => OutOfFuel
  end.

#[global] Instance outcome_ret : MRet outcome := @Ok.
#[global] Instance outcome_mbind : MBind outcome := @outcome_bind.

Definition Run (S A : Type) : Type := S → outcome A * S.

Definition run_ret {S A} (a : A) : Run S A := λ s, (Ok a, s).

Definition run_bind {S A B} (f : A → Run S B) (m : Run S A) : Run S B :=
  λ s, match m s with
       | (Ok a, s') => f a s'
       | (Raise e, s') => (Raise e, s')
       | (OutOfFuel, s') => (OutOfFuel, s')
       end.

#[global] Instance Run_ret {S} : MRet (Run S) := @run_ret S.
#[global] Instance Run_bind {S} : MBind (Run S) := @run_bind S.

Definition raise {S A} (e : exn) : Run S A := λ s, (Raise e, s).
Definition out_of_fuel {S A} : Run S A := λ s, (OutOfFuel, s).
Definition get_state {S} : Run S S := λ s, (Ok s, s).
Definition modify {S} (f : S → S) : Run S unit := λ s, (Ok (), f s).

(** A pure step that may raise. *)
Definition lift {S A} (o : outcome A) : Run S A := λ s, (o, s).

(** [for x in xs: body(x)] *)
Fixpoint for_ {S A} (xs : list A) (body : A → Run S unit) : Run S unit :=
  match xs with
  | [] => mret ()
  | x :: xs' => body x ≫= λ _, for_ xs' body
  end.

Module PyDyn.

(** [v.get(k)] : [AttributeError] unless [v] is a dict. *)
Definition get (v : json) (k : string) : outcome json :=
  match v with
  | JDict d => Ok (default JNull (Py.dict_get d k))
  | _ => Raise AttributeError
  end.

(** [v.get(k, dflt)] *)
Definition get_or (v : json) (k : string) (dflt : json) : outcome json :=
  match v with
  | JDict d => Ok (default dflt (Py.dict_get d k))
  | _ => Raise AttributeError
  end.

(** The items a [for] loop or [list.extend] draws from [v]. *)
Definition iter (v : json) : outcome (list json) :=
  match v with
  | JList l => Ok l
  | JDict d => Ok (map (λ kv, JStr kv.1) d)
  | JStr s => Ok (map (λ c, JStr (String c "")) (String.list_ascii_of_string s))
  | _ => Raise TypeError
  end.

(** [len(v)] *)
Definition len (v : json) : outcome Z :=
  match v with
  | JList l => Ok (Z.of_nat (length l))
  | JDict d => Ok (Z.of_nat (length d))
  | JStr s => Ok (Z.of_nat (String.length s))
  | _ => Raise TypeError
  end.

(** [int(v)] *)
Definition int (v : json) : outcome Z :=
  match v with
  | JNum z => Ok z
  | JBool b => Ok (if b then 1 else 0)
  | JStr s => match Py.int_of_string s with
              | Some z => Ok z
              | None => Raise ValueError
              end
  | _ => Raise TypeError
  end.

(** [v.strip()] : [AttributeError] unless [v] is a [str]. *)
Definition strip (v : json) : outcome string :=
  match v with
  | JStr s => Ok (PyStr.strip s)
  | _ => Raise AttributeError
  end.

End PyDyn.

(** ** The HTTP boundary *)

Record Request := {
  req_url : string;
  req_accept : string;               (* the Accept header *)
  req_params : list (string * Z);
}.

(** The remote side as a mock sees it: the n-th GET of a run (counting from
    0) is answered by [srv n]. *)
Definition Server : Type := nat → Response.

Record World := {
  sent : list Request;      (* GETs issued so far, oldest first *)
  slept : list Z;           (* arguments of time.sleep, oldest first *)
  clock : Z;                (* int(time.time()) *)
  logged : list string;     (* logging.error / logging.warning messages *)
}.

Definition world0 : World :=
  {| sent := []; slept := []; clock := 0; logged := [] |}.

Module Http.

(** [SESSION.get(url, ...)] and [requests.get(url, ...)] *)
Definition get (srv : Server) (url accept : string)
    (params : list (string * Z)) : Run World Response :=
  λ w, (Ok (srv (length (sent w))),
        {| sent := sent w ++ [{| req_url := url; req_accept := accept;
                                 req_params := params |}];
           slept := slept w; clock := clock w; logged := logged w |}).

(** The longest sleep CPython can express, in seconds: its clock type counts
    nanoseconds in 64 bits. *)
Definition SLEEP_MAX : Z := 9223372036.

(** [time.sleep(n)] for an [int]: ValueError on a negative length,
    OverflowError on one beyond [SLEEP_MAX]. *)
Definition sleep (n : Z) : Run World unit :=
  if n <? 0 then raise ValueError
  else if SLEEP_MAX <? n then raise OverflowError
  else modify (λ w, {| sent := sent w; slept := slept w ++ [n];
                       clock := clock w + n; logged := logged w |}).

(** [int(time.time())] *)
Definition time : Run World Z := λ w, (Ok (clock w), w).

Definition log (msg : string) : Run World unit :=
  modify (λ w, {| sent := sent w; slept := slept w; clock := clock w;
                  logged := logged w ++ [msg] |}).

(** [resp.raise_for_status()] of [requests] *)
Definition raise_for_status (resp : Response) : Run World unit :=
  let st := status_code resp in
  if (400 <=? st) && (st <? 500) then
    raise (HTTPError (pretty st +:+ " Client Error: " +:+ reason resp
                      +:+ " for url: " +:+ resp_url resp) resp)
  else if (500 <=? st) && (st <? 600) then
    raise (HTTPError (pretty st +:+ " Server Error: " +:+ reason resp
                      +:+ " for url: " +:+ resp_url resp) resp)
  else mret ().

(** [resp.json()] *)
Definition json_of (resp : Response) : Run World json :=
  match body resp with
  | Some v => mret v
  | None => raise JSONDecodeError
  end.

End Http.

(** ** fetch_ent_copilot_billingseat.py *)

Record Config := {
  API_BASE : string;
  ENTERPRISE_SLUG : string;
  LOGIN_SUFFIX_env : option string;   (* os.getenv("LOGIN_SUFFIX") *)
}.

(** [datetime]: the wall-clock reading in microseconds and the UTC offset of
    an aware value.  [datetime.fromisoformat] and the system clock belong to
    the Python runtime and are taken as given. *)
Record datetime := {
  wall : Z;
  tzinfo : option Z;
}.

Record Clock := {
  fromisoformat : string → option datetime;   (* None: ValueError *)
  datetime_now : option Z → datetime;         (* datetime.now(tz) *)
}.

Record ScimRec := {
  scim_name : string;          (* "name" *)
  scim_email : string;         (* "email" *)
  scim_userName : string;      (* "scim_userName" *)
}.

Record Row := {
  row_enterprise : string;
  row_team_name : string;
  row_team_slug : string;
  row_login : string;
  row_name : string;
  row_email : string;
  row_scim_userName : string;
  row_copilot_assigned : string;
  row_copilot_status : json;
  row_plan_type : json;
  row_last_activity_at : json;
  row_active_status : string;
  row_seat_created_at : json;
  row_seat_updated_at : json;
}.

Module BillingSeat.

Definition HEADERS_JSON : string := "application/vnd.github+json".
Definition HEADERS_SCIM : string := "application/scim+json".

(** [LOGIN_SUFFIX = (os.getenv("LOGIN_SUFFIX") or "").strip().lower()] *)
Definition LOGIN_SUFFIX (cfg : Config) : string :=
  PyStr.lower (PyStr.strip (default "" (LOGIN_SUFFIX_env cfg))).

(** *** gh_get *)

Definition retry_statuses : list Z := [403; 429; 500; 502; 503; 504].

Definition retryable (st : Z) : bool := bool_decide (st ∈ retry_statuses).

(** [int(retry_after) if retry_after and retry_after.isdigit()
     else min(30, 2 * attempt)] *)
Definition retry_wait (resp : Response) (attempt : Z) : outcome Z :=
  match retry_after resp with
  | Some ra =>
      if PyStr.nonempty ra && PyStr.isdigit ra then PyDyn.int (JStr ra)
      else Ok (Z.min 30 (2 * attempt))
  | None => Ok (Z.min 30 (2 * attempt))
  end.

Fixpoint gh_get_loop (srv : Server) (url headers : string)
    (params : list (string * Z)) (attempts : list Z) (last : option Response)
  : Run World (option Response) :=
  match attempts with
  | [] => mret last
  | attempt :: attempts' =>
      resp ← Http.get srv url headers params;
      let last := Some resp in
      if retryable (status_code resp) then
        wait ← lift (retry_wait resp attempt);
        Http.sleep wait;;
        gh_get_loop srv url headers params attempts' last
      else mret (Some resp)
  end.

Definition gh_get (srv : Server) (url headers : string)
    (params : list (string * Z)) : Run World (option Response) :=
  gh_get_loop srv url headers params (seqZ 1 6) None.

(** An attribute read on what [gh_get] returned. *)
Definition the_response (r : option Response) : Run World Response :=
  match r with
  | Some resp => mret resp
  | None => raise AttributeError
  end.

(** *** normalize_list_payload *)

Fixpoint first_list_under (d : list (string * json)) (keys : list string)
  : option (list json) :=
  match keys with
  | [] => None
  | k :: keys' =>
      match default JNull (Py.dict_get d k) with
      | JList v => Some v
      | _ => first_list_under d keys'
      end
  end.

Definition unsupported_shape (payload : json) : exn :=
  RuntimeError ("Unsupported list payload shape: " +:+ Py.type_name payload).

Definition normalize_list_payload (payload : json) (keys : list string)
  : outcome (list json) :=
  match payload with
  | JList l => Ok l
  | JDict d =>
      match first_list_under d keys with
      | Some v => Ok v
      | None => Raise (unsupported_shape payload)
      end
  | _ => Raise (unsupported_shape payload)
  end.

(** *** fetch_rest_list_paged *)

Definition access_error (url : string) (resp : Response) : exn :=
  HTTPError (pretty (status_code resp) +:+ " for " +:+ url +:+ ": "
             +:+ text resp) resp.

(** [params = dict(extra_params or {}); params["per_page"] = per_page;
     params["page"] = page] *)
Definition paged_params (extra_params : list (string * Z)) (per_page page : Z)
  : list (string * Z) :=
  Py.dict_set "page" page
    (Py.dict_set "per_page" per_page (Py.dict_of extra_params)).

Fixpoint fetch_rest_list_paged_loop (fuel : nat) (srv : Server)
    (url headers : string) (keys : list string) (per_page : Z)
    (extra_params : list (string * Z)) (out : list json) (page : Z)
  : Run World (list json) :=
  match fuel with
  | O => out_of_fuel
  | S fuel' =>
      let params := paged_params extra_params per_page page in
      r ← gh_get srv url headers params;
      resp ← the_response r;
      if bool_decide (status_code resp ∈ [403; 404]) then
        raise (access_error url resp)
      else
        Http.raise_for_status resp;;
        payload ← Http.json_of resp;
        items ← lift (normalize_list_payload payload keys);
        let out := out ++ items in
        if Z.of_nat (length items) <? per_page then mret out
        else fetch_rest_list_paged_loop fuel' srv url headers keys per_page
               extra_params out (page + 1)
  end.

Definition fetch_rest_list_paged (fuel : nat) (srv : Server)
    (url headers : string) (keys : list string) (per_page : Z)
    (extra_params : list (string * Z)) : Run World (list json) :=
  fetch_rest_list_paged_loop fuel srv url headers keys per_page extra_params [] 1.

(** *** SCIM *)

Definition scim_url (cfg : Config) : string :=
  API_BASE cfg +:+ "/scim/v2/enterprises/" +:+ ENTERPRISE_SLUG cfg +:+ "/Users".

(** [int(payload.get("totalResults") or 0)] *)
Definition reported_total (payload : json) : outcome Z :=
  tr ← PyDyn.get payload "totalResults";
  PyDyn.int (Py.or tr (JNum 0)).

(** [int(payload.get("itemsPerPage") or len(resources) or 0)] *)
Definition effective_items_per_page (payload resources : json) : outcome Z :=
  ipp ← PyDyn.get payload "itemsPerPage";
  v ← (if Py.truthy ipp then mret ipp
       else n ← PyDyn.len resources; mret (Py.or (JNum n) (JNum 0)));
  PyDyn.int v.

(** One turn of the [while True] loop once the page is decoded: the users
    accumulated, and the next [start_index] unless the loop breaks. *)
Definition scim_page (payload : json) (start_index : Z) (users : list json)
  : outcome (list json * option Z) :=
  let payload := Py.or payload (JDict []) in
  res ← PyDyn.get payload "Resources";
  let resources := Py.or res (JList []) in
  items ← PyDyn.iter resources;
  let users := users ++ items in
  total_results ← reported_total payload;
  items_per_page ← effective_items_per_page payload resources;
  if items_per_page <=? 0 then mret (users, None)
  else
    let start_index := start_index + items_per_page in
    if total_results <? start_index then mret (users, None)
    else mret (users, Some start_index).

Fixpoint fetch_all_scim_users_loop (fuel : nat) (cfg : Config) (srv : Server)
    (start_index count : Z) (users : list json) : Run World (list json) :=
  match fuel with
  | O => out_of_fuel
  | S fuel' =>
      r ← gh_get srv (scim_url cfg) HEADERS_SCIM
            [("startIndex", start_index); ("count", count)];
      resp ← the_response r;
      Http.raise_for_status resp;;
      payload ← Http.json_of resp;
      turn ← lift (scim_page payload start_index users);
      match turn with
      | (users, None) => mret users
      | (users, Some start_index) =>
          fetch_all_scim_users_loop fuel' cfg srv start_index count users
      end
  end.

Definition fetch_all_scim_users (fuel : nat) (cfg : Config) (srv : Server)
  : Run World (list json) :=
  fetch_all_scim_users_loop fuel cfg srv 1 100 [].

(** [next((e for e in emails if isinstance(e, dict) and cond(e)), None)] *)
Fixpoint first_email (primary_only : bool) (emails : list json)
  : option (list (string * json)) :=
  match emails with
  | [] => None
  | e :: emails' =>
      match e with
      | JDict d =>
          let is_primary :=
            match default JNull (Py.dict_get d "primary") with
            | JBool true => true
            | _ => false
            end in
          if (negb primary_only || is_primary)
             && Py.truthy (default JNull (Py.dict_get d "value"))
          then Some d
          else first_email primary_only emails'
      | _ => first_email primary_only emails'
      end
  end.

Definition str_or_empty_strip (v : json) : string :=
  PyStr.strip (Py.str (Py.or v (JStr ""))).

Definition field (u : list (string * json)) (k : string) : json :=
  default JNull (Py.dict_get u k).

Definition userName_fallback (u : list (string * json)) : string :=
  let user_name := str_or_empty_strip (field u "userName") in
  if PyStr.contains "@" user_name then user_name else "".

Definition pick_scim_email (u : list (string * json)) : string :=
  match Py.or (field u "emails") (JList []) with
  | JList ((_ :: _) as emails) =>
      let try_first :=
        match first_email false emails with
        | Some first =>
            if Py.truthy (JDict first)
            then str_or_empty_strip (field first "value")
            else userName_fallback u
        | None => userName_fallback u
        end in
      match first_email true emails with
      | Some primary =>
          if Py.truthy (JDict primary)
          then str_or_empty_strip (field primary "value")
          else try_first
      | None => try_first
      end
  | _ => userName_fallback u
  end.

Definition pick_scim_name (u : list (string * json)) : string :=
  let dn := str_or_empty_strip (field u "displayName") in
  if PyStr.nonempty dn then dn
  else
    match Py.or (field u "name") (JDict []) with
    | JDict name_obj =>
        let formatted := str_or_empty_strip (field name_obj "formatted") in
        if PyStr.nonempty formatted then formatted
        else
          let given := str_or_empty_strip (field name_obj "givenName") in
          let family := str_or_empty_strip (field name_obj "familyName") in
          let full := PyStr.strip
                        (Py.join " " (filter (λ p, PyStr.nonempty p = true)
                                             [given; family])) in
          if PyStr.nonempty full then full else ""
    | _ => ""
    end.

(** *** Login candidates *)

Definition derive_suffix_token (cfg : Config) : string :=
  if PyStr.nonempty (LOGIN_SUFFIX cfg) then LOGIN_SUFFIX cfg
  else PyStr.lower (PyStr.strip (PyStr.split1_head "-" (ENTERPRISE_SLUG cfg))).

Definition is_alnum_hyphen (c : ascii) : bool :=
  PyStr.is_lower c || PyStr.is_digit c || bool_decide (c = "-"%char).

Definition is_alnum (c : ascii) : bool :=
  PyStr.is_lower c || PyStr.is_digit c.

(** The six variants of the local part, in the order the code adds them. *)
Definition local_variants (local : string) : gset string :=
  {[ local ]} ∪ {[ PyStr.replace "." "" local ]}
              ∪ {[ PyStr.replace "." "-" local ]}
              ∪ {[ PyStr.replace "_" "-" local ]}
              ∪ {[ PyStr.keep is_alnum_hyphen local ]}
              ∪ {[ PyStr.keep is_alnum local ]}.

(** [v.strip("-").strip()] *)
Definition strip_variant (v : string) : string :=
  PyStr.strip (PyStr.strip_char "-" v).

(** One turn of the loop [for v in list(variants)]. *)
Definition add_candidate (suffix : string) (out : gset string) (v : string)
  : gset string :=
  let v := strip_variant v in
  if negb (PyStr.nonempty v) then out
  else
    let out := {[ v ]} ∪ out in
    if PyStr.nonempty suffix then {[ v +:+ "_" +:+ suffix ]} ∪ out else out.

Definition generate_login_candidates_from_email (cfg : Config) (email : string)
  : gset string :=
  let out : gset string := ∅ in
  let email := PyStr.lower (PyStr.strip email) in
  if negb (PyStr.contains "@" email) then out
  else
    let local := PyStr.strip (PyStr.split1_head "@" email) in
    if negb (PyStr.nonempty local) then out
    else
      let suffix := derive_suffix_token cfg in
      let variants := local_variants local in
      foldl (add_candidate suffix) out (elements variants).

(** *** build_scim_index *)

(** The set [keys] computed for one directory record. *)
Definition index_keys (cfg : Config) (email scim_user_name : string)
  : gset string :=
  let keys : gset string := ∅ in
  let keys :=
    if PyStr.nonempty email then
      let keys := {[ PyStr.lower email ]} ∪ keys in
      let keys := {[ PyStr.lower (PyStr.split1_head "@" email) ]} ∪ keys in
      keys ∪ generate_login_candidates_from_email cfg email
    else keys in
  if PyStr.nonempty scim_user_name then
    let keys := {[ PyStr.lower scim_user_name ]} ∪ keys in
    if PyStr.contains "@" scim_user_name then
      let keys := {[ PyStr.lower (PyStr.split1_head "@" scim_user_name) ]} ∪ keys in
      keys ∪ generate_login_candidates_from_email cfg scim_user_name
    else keys
  else keys.

(** [idx.setdefault(k, v)] *)
Definition setdefault (k : string) (v : ScimRec) (idx : gmap string ScimRec)
  : gmap string ScimRec :=
  match idx !! k with
  | Some _ => idx
  | None => <[k := v]> idx
  end.

(** One turn of [for k in keys]. *)
Definition index_key (v : ScimRec) (idx : gmap string ScimRec) (k : string)
  : gmap string ScimRec :=
  if negb (PyStr.nonempty k) then idx else setdefault k v idx.

Definition scim_record (u : list (string * json)) : ScimRec :=
  {| scim_name := pick_scim_name u;
     scim_email := pick_scim_email u;
     scim_userName := str_or_empty_strip (field u "userName") |}.

(** One turn of [for u in scim_users]. *)
Definition index_user (cfg : Config) (idx : gmap string ScimRec) (u : json)
  : gmap string ScimRec :=
  match u with
  | JDict d =>
      let r := scim_record d in
      let keys := index_keys cfg (scim_email r) (scim_userName r) in
      foldl (index_key r) idx (elements keys)
  | _ => idx
  end.

Definition build_scim_index (cfg : Config) (scim_users : list json)
  : gmap string ScimRec :=
  foldl (index_user cfg) ∅ scim_users.

(** *** Copilot seats *)

Definition seats_url (cfg : Config) : string :=
  API_BASE cfg +:+ "/enterprises/" +:+ ENTERPRISE_SLUG cfg
  +:+ "/copilot/billing/seats".

Fixpoint fetch_seat_pages (fuel : nat) (cfg : Config) (srv : Server)
    (per_page : Z) (all_seats : list json) (page : Z) : Run World (list json) :=
  match fuel with
  | O => out_of_fuel
  | S fuel' =>
      r ← gh_get srv (seats_url cfg) HEADERS_JSON
            [("per_page", per_page); ("page", page)];
      resp ← the_response r;
      Http.raise_for_status resp;;
      payload ← Http.json_of resp;
      let payload := Py.or payload (JDict []) in
      sv ← lift (PyDyn.get_or payload "seats" (JList []));
      let seats := Py.or sv (JList []) in
      items ← lift (PyDyn.iter seats);
      let all_seats := all_seats ++ items in
      n ← lift (PyDyn.len seats);
      if n <? per_page then mret all_seats
      else fetch_seat_pages fuel' cfg srv per_page all_seats (page + 1)
  end.

(** One turn of [for s in all_seats]; a seat is stored as the bindings of
    its object. *)
Definition index_seat (by_login : gmap string (list (string * json)))
    (s : json) : outcome (gmap string (list (string * json))) :=
  a ← PyDyn.get s "assignee";
  l ← PyDyn.get (Py.or a (JDict [])) "login";
  login ← PyDyn.strip (Py.or l (JStr ""));
  match s with
  | JDict d =>
      mret (if PyStr.nonempty login then <[login := d]> by_login
            else by_login)
  | _ => Raise AttributeError
  end.

Fixpoint index_seats (by_login : gmap string (list (string * json)))
    (all_seats : list json) : outcome (gmap string (list (string * json))) :=
  match all_seats with
  | [] => mret by_login
  | s :: rest => index_seat by_login s ≫= λ by_login', index_seats by_login' rest
  end.

Definition fetch_copilot_billing_seats_by_login (fuel : nat) (cfg : Config)
    (srv : Server) : Run World (gmap string (list (string * json))) :=
  all_seats ← fetch_seat_pages fuel cfg srv 100 [] 1;
  lift (index_seats ∅ all_seats).

(** *** is_active *)

Definition thirty_days : Z := 30 * 86400 * 1000000.

(** The body of the [try]. *)
Definition is_active_try (clk : Clock) (last_activity_at : json)
  : outcome string :=
  match last_activity_at with
  | JStr s =>
      match fromisoformat clk (PyStr.replace "Z" "+00:00" s) with
      | Some last_activity =>
          let now := datetime_now clk (tzinfo last_activity) in
          Ok (if wall now - wall last_activity <=? thirty_days
              then "active" else "inactive")
      | None => Raise ValueError
      end
  | _ => Raise AttributeError
  end.

Definition is_active (clk : Clock) (last_activity_at : json) : string :=
  if negb (Py.truthy last_activity_at) then "inactive"
  else match is_active_try clk last_activity_at with
       | Ok s => s
       | _ => "inactive"            (* except Exception *)
       end.

(** *** Enterprise teams and memberships *)

Definition fetch_enterprise_teams (fuel : nat) (cfg : Config) (srv : Server)
  : Run World (list json) :=
  let url := API_BASE cfg +:+ "/enterprises/" +:+ ENTERPRISE_SLUG cfg
             +:+ "/teams" in
  fetch_rest_list_paged fuel srv url HEADERS_JSON ["teams"; "items"; "data"]
    100 [].

Definition fetch_enterprise_team_memberships (fuel : nat) (cfg : Config)
    (srv : Server) (team_slug : string) : Run World (list json) :=
  let url := API_BASE cfg +:+ "/enterprises/" +:+ ENTERPRISE_SLUG cfg
             +:+ "/teams/" +:+ team_slug +:+ "/memberships" in
  fetch_rest_list_paged fuel srv url HEADERS_JSON
    ["memberships"; "items"; "data"] 100 [].

(** The inner loop [for p in path]: [None] when a step is missing. *)
Fixpoint follow_path (cur : json) (path : list string) : option json :=
  match path with
  | [] => Some cur
  | p :: path' =>
      match cur with
      | JDict d =>
          match Py.dict_get d p with
          | Some v => follow_path v path'
          | None => None
          end
      | _ => None
      end
  end.

Fixpoint first_login (m : json) (paths : list (list string)) : string :=
  match paths with
  | [] => ""
  | path :: paths' =>
      match follow_path m path with
      | Some (JStr cur) =>
          if PyStr.nonempty (PyStr.strip cur) then PyStr.strip cur
          else first_login m paths'
      | _ => first_login m paths'
      end
  end.

Definition parse_membership_login (m : json) : string :=
  if negb (Py.is_dict m) then ""
  else first_login m [["user"; "login"]; ["member"; "login"]; ["login"]].

(** *** main *)

(** [(seat or {}).get(k, "") if seat else ""] *)
Definition seat_field (seat : option (list (string * json))) (k : string)
  : json :=
  match seat with
  | Some d =>
      if Py.truthy (JDict d) then default (JStr "") (Py.dict_get d k)
      else JStr ""
  | None => JStr ""
  end.

Definition seat_truthy (seat : option (list (string * json))) : bool :=
  match seat with
  | Some d => Py.truthy (JDict d)
  | None => false
  end.

(** [scim.get(k, "")] with [scim = scim_index.get(key) or {}] *)
Definition scim_field (scim : option ScimRec) (f : ScimRec → string) : string :=
  match scim with
  | Some r => f r
  | None => ""
  end.

(** The dict appended to [rows] for one membership login. *)
Definition make_row (cfg : Config) (clk : Clock)
    (scim_index : gmap string ScimRec)
    (seats_by_login : gmap string (list (string * json)))
    (team_name team_slug login : string) : Row :=
  let key := PyStr.strip (PyStr.lower login) in
  let scim := scim_index !! key in
  let seat := seats_by_login !! login in
  {| row_enterprise := ENTERPRISE_SLUG cfg;
     row_team_name := team_name;
     row_team_slug := team_slug;
     row_login := login;
     row_name := scim_field scim scim_name;
     row_email := scim_field scim scim_email;
     row_scim_userName := scim_field scim scim_userName;
     row_copilot_assigned := if seat_truthy seat then "yes" else "no";
     row_copilot_status := seat_field seat "status";
     row_plan_type := seat_field seat "plan_type";
     row_last_activity_at := seat_field seat "last_activity_at";
     row_active_status :=
       if seat_truthy seat
       then is_active clk (default JNull (seat ≫= λ d, Py.dict_get d "last_activity_at"))
       else "inactive";
     row_seat_created_at := seat_field seat "created_at";
     row_seat_updated_at := seat_field seat "updated_at" |}.

(** One turn of [for m in memberships]. *)
Definition join_membership (cfg : Config) (clk : Clock)
    (scim_index : gmap string ScimRec)
    (seats_by_login : gmap string (list (string * json)))
    (team_name team_slug : string) (rows : list Row) (m : json) : list Row :=
  let login := parse_membership_login m in
  if negb (PyStr.nonempty login) then rows
  else rows ++ [make_row cfg clk scim_index seats_by_login
                  team_name team_slug login].

(** [(a or b or c or "").strip()] over fields of a team object *)
Fixpoint first_truthy_field (t : json) (ks : list string) : outcome json :=
  match ks with
  | [] => mret (JStr "")
  | k :: ks' =>
      v ← PyDyn.get t k;
      if Py.truthy v then mret v else first_truthy_field t ks'
  end.

Definition team_string (t : json) (ks : list string) : outcome string :=
  first_truthy_field t ks ≫= PyDyn.strip.

(** One turn of [for i, t in enumerate(teams, start=1)]. *)
Definition join_team (fuel : nat) (cfg : Config) (clk : Clock) (srv : Server)
    (scim_index : gmap string ScimRec)
    (seats_by_login : gmap string (list (string * json)))
    (rows : list Row) (t : json) : Run World (list Row) :=
  team_name ← lift (team_string t ["name"; "display_name"; "slug"]);
  team_slug ← lift (team_string t ["slug"; "team_slug"]);
  if negb (PyStr.nonempty team_slug) then mret rows
  else
    memberships ← fetch_enterprise_team_memberships fuel cfg srv team_slug;
    mret (foldl (join_membership cfg clk scim_index seats_by_login
                   team_name team_slug) rows memberships).

Fixpoint join_teams (fuel : nat) (cfg : Config) (clk : Clock) (srv : Server)
    (scim_index : gmap string ScimRec)
    (seats_by_login : gmap string (list (string * json)))
    (rows : list Row) (teams : list json) : Run World (list Row) :=
  match teams with
  | [] => mret rows
  | t :: teams' =>
      rows' ← join_team fuel cfg clk srv scim_index seats_by_login rows t;
      join_teams fuel cfg clk srv scim_index seats_by_login rows' teams'
  end.

(** The rows handed to the CSV writer. *)
Definition main (fuel : nat) (cfg : Config) (clk : Clock) (srv : Server)
  : Run World (list Row) :=
  scim_users ← fetch_all_scim_users fuel cfg srv;
  let scim_index := build_scim_index cfg scim_users in
  seats_by_login ← fetch_copilot_billing_seats_by_login fuel cfg srv;
  teams ← fetch_enterprise_teams fuel cfg srv;
  join_teams fuel cfg clk srv scim_index seats_by_login [] teams.

End BillingSeat.

(** ** fetch_ent_team_copilot_metrics.py *)

Module TeamMetrics.

Definition API_ROOT : string := "https://api.github.com".
Definition PER_PAGE : Z := 100.

(** [int(response.headers.get(name, dflt))] *)
Definition header_int (h : option string) (dflt : Z) : outcome Z :=
  match h with
  | Some s => PyDyn.int (JStr s)
  | None => Ok dflt
  end.

Definition handle_rate_limit (response : Response) : Run World unit :=
  remaining ← lift (header_int (ratelimit_remaining response) 1);
  reset_time ← lift (header_int (ratelimit_reset response) 0);
  if remaining =? 0 then
    current_time ← Http.time;
    let sleep_for := Z.max (reset_time - current_time) 1 in
    Http.log ("Rate limit reached. Sleeping for " +:+ pretty sleep_for
              +:+ " seconds until reset.");;
    Http.sleep (sleep_for + 2)
  else mret ().

Definition page_params (page : Z) : list (string * Z) :=
  [("per_page", PER_PAGE); ("page", page)].

Fixpoint fetch_enterprise_teams_loop (fuel : nat) (enterprise : string)
    (srv : Server) (teams : list json) (page : Z) : Run World (list json) :=
  match fuel with
  | O => out_of_fuel
  | S fuel' =>
      let url := API_ROOT +:+ "/enterprises/" +:+ enterprise +:+ "/teams" in
      response ← Http.get srv url "application/vnd.github+json" (page_params page);
      handle_rate_limit response;;
      if negb (status_code response =? 200) then
        Http.log ("Error fetching teams: " +:+ pretty (status_code response)
                  +:+ " - " +:+ text response);;
        mret teams
      else
        data ← Http.json_of response;
        if negb (Py.truthy data) then mret teams
        else
          items ← lift (PyDyn.iter data);
          let teams := teams ++ items in
          if links_next response then
            Http.sleep 1;;
            fetch_enterprise_teams_loop fuel' enterprise srv teams (page + 1)
          else mret teams
  end.

Definition fetch_enterprise_teams (fuel : nat) (enterprise : string)
    (srv : Server) : Run World (list json) :=
  fetch_enterprise_teams_loop fuel enterprise srv [] 1.

Definition metrics_url (enterprise team_slug : string) : string :=
  API_ROOT +:+ "/enterprises/" +:+ enterprise +:+ "/team/" +:+ team_slug
  +:+ "/copilot/metrics".

Fixpoint fetch_team_metrics_loop (fuel : nat) (enterprise : string)
    (srv : Server) (team_slug : string) (all_entries : list json) (page : Z)
  : Run World (list json) :=
  match fuel with
  | O => out_of_fuel
  | S fuel' =>
      response ← Http.get srv (metrics_url enterprise team_slug)
                   "application/vnd.github+json" (page_params page);
      handle_rate_limit response;;
      if status_code response =? 404 then
        Http.log ("Metrics endpoint not found for team " +:+ team_slug
                  +:+ " (404).");;
        mret all_entries
      else if negb (status_code response =? 200) then
        Http.log ("Error fetching metrics for team " +:+ team_slug +:+ ": "
                  +:+ pretty (status_code response) +:+ " - "
                  +:+ text response);;
        mret all_entries
      else
        data ← Http.json_of response;
        if negb (Py.truthy data) then mret all_entries
        else
          items ← lift (PyDyn.iter data);
          let all_entries := all_entries ++ items in
          if links_next response then
            Http.sleep 1;;
            fetch_team_metrics_loop fuel' enterprise srv team_slug
              all_entries (page + 1)
          else mret all_entries
  end.

Definition fetch_team_metrics (fuel : nat) (enterprise : string)
    (srv : Server) (team_slug : string) : Run World (list json) :=
  fetch_team_metrics_loop fuel enterprise srv team_slug [] 1.

(** *** write_to_csv *)

(** The CSV writer: the rows written so far, each a list of 19 cells. *)
Definition Writer : Type := list (list json).

Definition writerow (cells : list json) : Run Writer unit :=
  modify (λ rows, rows ++ [cells]).

(** The three date-level counters of an entry. *)
Record Aggregates := {
  total_active_users : json;
  total_chat_engaged_users : json;
  total_pull_request_engaged_users : json;
}.

Definition completion_row (enterprise_id team_name date : json)
    (agg : Aggregates) (editor_name model_name : json) (language : json)
  : Run Writer unit :=
  language_name ← lift (PyDyn.get_or language "name" (JStr "N/A"));
  total_engaged_users ← lift (PyDyn.get_or language "total_engaged_users" (JNum 0));
  total_code_acceptances ← lift (PyDyn.get_or language "total_code_acceptances" (JNum 0));
  total_code_suggestions ← lift (PyDyn.get_or language "total_code_suggestions" (JNum 0));
  total_code_lines_accepted ← lift (PyDyn.get_or language "total_code_lines_accepted" (JNum 0));
  total_code_lines_suggested ← lift (PyDyn.get_or language "total_code_lines_suggested" (JNum 0));
  writerow
    [enterprise_id; team_name; date; editor_name; model_name; language_name;
     total_engaged_users; total_code_acceptances; total_code_suggestions;
     total_code_lines_accepted; total_code_lines_suggested;
     total_active_users agg; total_chat_engaged_users agg;
     total_pull_request_engaged_users agg;
     JStr ""; JNum 0; JBool false; JNum 0; JNum 0].

Definition completion_model (enterprise_id team_name date : json)
    (agg : Aggregates) (editor_name : json) (model : json) : Run Writer unit :=
  model_name ← lift (PyDyn.get_or model "name" (JStr "N/A"));
  is_custom_model ← lift (PyDyn.get_or model "is_custom_model" (JBool false));
  total_chats ← lift (PyDyn.get_or model "total_chats" (JNum 0));
  languages ← lift (PyDyn.get_or model "languages" (JList []) ≫= PyDyn.iter);
  for_ languages
    (completion_row enterprise_id team_name date agg editor_name model_name).

Definition completion_editor (enterprise_id team_name date : json)
    (agg : Aggregates) (editor : json) : Run Writer unit :=
  editor_name ← lift (PyDyn.get_or editor "name" (JStr "N/A"));
  models ← lift (PyDyn.get_or editor "models" (JList []) ≫= PyDyn.iter);
  for_ models (completion_model enterprise_id team_name date agg editor_name).

Definition chat_row (enterprise_id team_name date : json) (agg : Aggregates)
    (chat_editor_name : json) (model : json) : Run Writer unit :=
  total_chats ← lift (PyDyn.get_or model "total_chats" (JNum 0));
  is_custom_model ← lift (PyDyn.get_or model "is_custom_model" (JBool false));
  total_chat_copy_events ← lift (PyDyn.get_or model "total_chat_copy_events" (JNum 0));
  total_chat_insertion_events ← lift (PyDyn.get_or model "total_chat_insertion_events" (JNum 0));
  writerow
    [enterprise_id; team_name; date; JStr ""; JStr ""; JStr "";
     JNum 0; JNum 0; JNum 0; JNum 0; JNum 0;
     total_active_users agg; total_chat_engaged_users agg;
     total_pull_request_engaged_users agg;
     chat_editor_name; total_chats; is_custom_model;
     total_chat_copy_events; total_chat_insertion_events].

Definition chat_editor_rows (enterprise_id team_name date : json)
    (agg : Aggregates) (chat_editor : json) : Run Writer unit :=
  chat_editor_name ← lift (PyDyn.get_or chat_editor "name" (JStr "N/A"));
  models ← lift (PyDyn.get_or chat_editor "models" (JList []) ≫= PyDyn.iter);
  for_ models (chat_row enterprise_id team_name date agg chat_editor_name).

(** The date-level reads at the head of the loop body. *)
Definition entry_aggregates (entry : json) : outcome Aggregates :=
  tau ← PyDyn.get_or entry "total_active_users" (JNum 0);
  chat ← PyDyn.get_or entry "copilot_dotcom_chat" (JDict []);
  tce ← PyDyn.get_or chat "total_engaged_users" (JNum 0);
  prs ← PyDyn.get_or entry "copilot_dotcom_pull_requests" (JDict []);
  tpe ← PyDyn.get_or prs "total_engaged_users" (JNum 0);
  mret {| total_active_users := tau;
          total_chat_engaged_users := tce;
          total_pull_request_engaged_users := tpe |}.

(** One turn of [for entry in entries]. *)
Definition write_entry (enterprise_id team_name : json) (entry : json)
  : Run Writer unit :=
  date ← lift (PyDyn.get_or entry "date" (JStr "N/A"));
  copilot_ide_code_completions ←
    lift (PyDyn.get_or entry "copilot_ide_code_completions" (JDict []));
  agg ← lift (entry_aggregates entry);
  editors ← lift (PyDyn.get_or copilot_ide_code_completions "editors" (JList [])
                  ≫= PyDyn.iter);
  for_ editors (completion_editor enterprise_id team_name date agg);;
  copilot_ide_chat ← lift (PyDyn.get_or entry "copilot_ide_chat" (JDict []));
  chat_editors ← lift (PyDyn.get_or copilot_ide_chat "editors" (JList [])
                       ≫= PyDyn.iter);
  for_ chat_editors (chat_editor_rows enterprise_id team_name date agg).

Definition write_to_csv (enterprise_id team_name : json) (entries : list json)
  : Run Writer unit :=
  for_ entries (write_entry enterprise_id team_name).

End TeamMetrics.

(** * Specification-level views and sample data *)

Import BillingSeat.
Import TeamMetrics.

(** The wait [gh_get] takes after the answer [resp] to attempt number
    [attempt]: the value computed for it, when [time.sleep] accepts it. *)
Definition taken_wait (resp : Response) (attempt : Z) : outcome Z :=
  match retry_wait resp attempt with
  | Ok t =>
      if t <? 0 then Raise ValueError
      else if Http.SLEEP_MAX <? t then Raise OverflowError
      else Ok t
  | o => o
  end.

Definition newgen_cfg : Config :=
  {| API_BASE := "https://api.github.com";
     ENTERPRISE_SLUG := "Newgen-EMU";
     LOGIN_SUFFIX_env := None |}.

(** [payload.get(k)] is the list [v]. *)
Definition list_under (d : list (string * json)) (k : string) (v : list json)
  : Prop :=
  default JNull (Py.dict_get d k) = JList v.

(** Time elapsed, in microseconds, between a parsed timestamp and the clock
    read in the timestamp's own zone. *)
Definition elapsed (clk : Clock) (last : datetime) : Z :=
  wall (datetime_now clk (tzinfo last)) - wall last.

Definition one_day : Z := 86400 * 1000000.

(** A clock for the examples: one timestamp parses, to the origin of the time
    line in UTC, and [now] reads [t] microseconds after it. *)
Definition fixed_clock (t : Z) : Clock :=
  {| fromisoformat := λ s,
       if bool_decide (s = "2024-01-01T00:00:00+00:00")
       then Some {| wall := 0; tzinfo := Some 0 |} else None;
     datetime_now := λ tz, {| wall := t; tzinfo := tz |} |}.

(** The key set and the identity fields of one directory record, as
    [build_scim_index] computes them; an entry that is not an object is
    skipped and has no key. *)
Definition keys_of (cfg : Config) (u : json) : gset string :=
  match u with
  | JDict d => let r := scim_record d in
               index_keys cfg (scim_email r) (scim_userName r)
  | _ => ∅
  end.

Definition record_of (u : json) : ScimRec :=
  match u with
  | JDict d => scim_record d
  | _ => {| scim_name := ""; scim_email := ""; scim_userName := "" |}
  end.

(** The first record of the input that claims [k]. *)
Fixpoint first_claimant (cfg : Config) (k : string) (users : list json)
  : option ScimRec :=
  match users with
  | [] => None
  | u :: users' =>
      if decide (k ∈ keys_of cfg u) then Some (record_of u)
      else first_claimant cfg k users'
  end.

(** A record whose e-mail has an empty local part. *)
Definition no_local_user : json :=
  JDict [("emails", JList [JDict [("value", JStr "@x.com")]])].

Definition chander : json :=
  JDict [("displayName", JStr "S Chander");
         ("emails", JList [JDict [("value", JStr "s.chander@co.com");
                                  ("primary", JBool true)]])].

Definition impostor : json :=
  JDict [("displayName", JStr "Someone Else");
         ("userName", JStr "schander@other.org")].

(** A directory page of the expected shape. *)
Definition scim_page_bindings (resources : list json) (total_results : option Z)
    (items_per_page : option Z) : list (string * json) :=
  ("Resources", JList resources)
  :: match total_results with
     | Some t => [("totalResults", JNum t)]
     | None => []
     end
  ++ match items_per_page with
     | Some p => [("itemsPerPage", JNum p)]
     | None => []
     end.

Definition scim_page_json (resources : list json) (total_results : option Z)
    (items_per_page : option Z) : json :=
  JDict (scim_page_bindings resources total_results items_per_page).

(** What the loop takes as page size: the reported value, or the number of
    resources on the page when it is zero or absent. *)
Definition page_size (resources : list json) (items_per_page : option Z) : Z :=
  match items_per_page with
  | Some p => if p =? 0 then Z.of_nat (length resources) else p
  | None => Z.of_nat (length resources)
  end.

Definition ok_response (payload : json) : Response :=
  {| status_code := 200; reason := "OK"; resp_url := ""; text := "";
     body := Some payload; retry_after := None; ratelimit_remaining := None;
     ratelimit_reset := None; links_next := false |}.

(** A directory whose first page reports [itemsPerPage = 0] and yet carries
    one resource out of two. *)
Definition zero_page_size_srv : Server := λ n,
  match n with
  | O => ok_response (scim_page_json [chander] (Some 2) (Some 0))
  | _ => ok_response (scim_page_json [impostor] (Some 2) None)
  end.

(** A directory whose reported total grows with every page. *)
Definition growing_srv : Server := λ n,
  ok_response (scim_page_json [JNum (Z.of_nat n)] (Some (Z.of_nat n + 5)) (Some 1)).

(** A directory of one page holding one record. *)
Definition one_page_srv : Server := λ _,
  ok_response (scim_page_json [chander] (Some 1) (Some 1)).

(** A directory whose first page is empty and reports a zero page size. *)
Definition empty_page_srv : Server := λ _,
  ok_response (scim_page_json [] (Some 7) (Some 0)).

Definition status_response (st : Z) (rsn url txt : string) : Response :=
  {| status_code := st; reason := rsn; resp_url := url; text := txt;
     body := None; retry_after := None; ratelimit_remaining := None;
     ratelimit_reset := None; links_next := false |}.

(** A team endpoint that refuses once and then answers an empty array. *)
Definition forbidden_once_srv : Server := λ n,
  match n with
  | O => status_response 403 "Forbidden" "" "secondary rate limit"
  | _ => ok_response (JList [])
  end.

(** A metrics endpoint that does not exist. *)
Definition not_found_srv : Server := λ _,
  status_response 404 "Not Found" "" "{}".

(** What [raise_for_status] raises on a 404. *)
Definition not_found_error (resp : Response) : exn :=
  HTTPError ("404 Client Error: " +:+ reason resp +:+ " for url: "
             +:+ resp_url resp) resp.

Definition seat_of (login : string) (last_activity : string) : json :=
  JDict [("assignee", JDict [("login", JStr login)]);
         ("status", JStr "active");
         ("plan_type", JStr "business");
         ("last_activity_at", JStr last_activity);
         ("created_at", JStr "2023-06-01T00:00:00Z");
         ("updated_at", JStr "2023-12-31T00:00:00Z")].

(** One directory page, a full first page of seats, then a 404 on the second
    page of the seat endpoint. *)
Definition seats_404_srv : Server := λ n,
  match n with
  | 0%nat => ok_response (scim_page_json [chander] (Some 1) (Some 1))
  | 1%nat => ok_response
               (JDict [("seats",
                        JList (replicate 100
                                 (seat_of "schander_newgen" "2024-01-01T00:00:00Z")))])
  | _ => status_response 404 "Not Found"
           "https://api.github.com/enterprises/Newgen-EMU/copilot/billing/seats?per_page=100&page=2"
           "{}"
  end.

(** The logins read off a list of membership records, those without one
    left out. *)
Definition logins_of (memberships : list json) : list string :=
  filter (λ l : string, l ≠ "") (map parse_membership_login memberships).

(** A team with one membership record that names no user. *)
Definition anonymous_member_srv : Server := λ _,
  ok_response (JList [JDict [("role", JStr "member")]]).

(** A team of two: one member known to the directory, one unknown. *)
Definition two_members_srv : Server := λ _,
  ok_response
    (JDict [("memberships",
             JList [JDict [("user", JDict [("login", JStr "schander_newgen")])];
                    JDict [("login", JStr "  ghost  ")];
                    JDict [("user", JNull)]])]).

(** Two logins that differ only in case, against a seat keyed "SChander_newgen". *)
Definition cased_seats : outcome (gmap string (list (string * json))) :=
  index_seats ∅ [seat_of "SChander_newgen" "2024-01-01T00:00:00Z"].

(** A metrics entry of the expected shape: editors hold models, models hold
    languages, chat editors hold models; every other field is free. *)
Record Model := {
  model_attrs : list (string * json);
  languages : list (list (string * json));
}.

Record Editor := {
  editor_attrs : list (string * json);
  models : list Model;
}.

Record ChatEditor := {
  chat_editor_attrs : list (string * json);
  chat_models : list (list (string * json));
}.

Record Entry := {
  date : option json;
  active_users : option json;
  dotcom_chat : option (list (string * json));
  dotcom_pull_requests : option (list (string * json));
  editors : list Editor;
  chat_editors : list ChatEditor;
}.

Definition model_json (m : Model) : json :=
  JDict (("languages", JList (map JDict (languages m))) :: model_attrs m).

Definition editor_json (e : Editor) : json :=
  JDict (("models", JList (map model_json (models e))) :: editor_attrs e).

Definition chat_editor_json (c : ChatEditor) : json :=
  JDict (("models", JList (map JDict (chat_models c))) :: chat_editor_attrs c).

Definition binding (k : string) (v : option json) : list (string * json) :=
  match v with Some x => [(k, x)] | None => [] end.

Definition entry_bindings (en : Entry) : list (string * json) :=
  ("copilot_ide_code_completions",
   JDict [("editors", JList (map editor_json (editors en)))])
  :: ("copilot_ide_chat",
      JDict [("editors", JList (map chat_editor_json (chat_editors en)))])
  :: binding "date" (date en)
  ++ binding "total_active_users" (active_users en)
  ++ binding "copilot_dotcom_chat" (JDict <$> dotcom_chat en)
  ++ binding "copilot_dotcom_pull_requests" (JDict <$> dotcom_pull_requests en).

Definition entry_json (en : Entry) : json := JDict (entry_bindings en).

(** [d.get(k, dflt)] on the bindings of an object *)
Definition attr (d : list (string * json)) (k : string) (dflt : json) : json :=
  default dflt (Py.dict_get d k).

Definition aggregates_of (en : Entry) : Aggregates :=
  {| total_active_users := default (JNum 0) (active_users en);
     total_chat_engaged_users :=
       attr (default [] (dotcom_chat en)) "total_engaged_users" (JNum 0);
     total_pull_request_engaged_users :=
       attr (default [] (dotcom_pull_requests en)) "total_engaged_users" (JNum 0) |}.

Definition date_of (en : Entry) : json := default (JStr "N/A") (date en).

(** The row of one (editor, model, language) triple. *)
Definition completion_cells (enterprise_id team_name : json) (en : Entry)
    (e : Editor) (m : Model) (l : list (string * json)) : list json :=
  [enterprise_id; team_name; date_of en;
   attr (editor_attrs e) "name" (JStr "N/A");
   attr (model_attrs m) "name" (JStr "N/A");
   attr l "name" (JStr "N/A");
   attr l "total_engaged_users" (JNum 0);
   attr l "total_code_acceptances" (JNum 0);
   attr l "total_code_suggestions" (JNum 0);
   attr l "total_code_lines_accepted" (JNum 0);
   attr l "total_code_lines_suggested" (JNum 0);
   total_active_users (aggregates_of en);
   total_chat_engaged_users (aggregates_of en);
   total_pull_request_engaged_users (aggregates_of en);
   JStr ""; JNum 0; JBool false; JNum 0; JNum 0].

(** The row of one (chat editor, model) pair. *)
Definition chat_cells (enterprise_id team_name : json) (en : Entry)
    (c : ChatEditor) (m : list (string * json)) : list json :=
  [enterprise_id; team_name; date_of en;
   JStr ""; JStr ""; JStr ""; JNum 0; JNum 0; JNum 0; JNum 0; JNum 0;
   total_active_users (aggregates_of en);
   total_chat_engaged_users (aggregates_of en);
   total_pull_request_engaged_users (aggregates_of en);
   attr (chat_editor_attrs c) "name" (JStr "N/A");
   attr m "total_chats" (JNum 0);
   attr m "is_custom_model" (JBool false);
   attr m "total_chat_copy_events" (JNum 0);
   attr m "total_chat_insertion_events" (JNum 0)].

Definition completion_rows (enterprise_id team_name : json) (en : Entry)
  : list (list json) :=
  flat_map (λ e,
    flat_map (λ m,
      map (completion_cells enterprise_id team_name en e m) (languages m))
      (models e))
    (editors en).

Definition chat_rows (enterprise_id team_name : json) (en : Entry)
  : list (list json) :=
  flat_map (λ c, map (chat_cells enterprise_id team_name en c) (chat_models c))
    (chat_editors en).

Definition two_languages_editor (editor_name : string) : Editor :=
  {| editor_attrs := [("name", JStr editor_name)];
     models := [{| model_attrs := [("name", JStr "default")];
                   languages := [[("name", JStr "python");
                                  ("total_engaged_users", JNum 4)];
                                 [("name", JStr "go")]] |}] |}.

(** Two editors, each with one model and two languages. *)
Definition two_by_two : Entry :=
  {| date := Some (JStr "2024-06-01");
     active_users := Some (JNum 7);
     dotcom_chat := Some [("total_engaged_users", JNum 3)];
     dotcom_pull_requests := None;
     editors := [two_languages_editor "vscode"; two_languages_editor "jetbrains"];
     chat_editors := [] |}.

(** An entry with one completion triple and one chat pair. *)
Definition mixed_entry : Entry :=
  {| date := Some (JStr "2024-06-02");
     active_users := Some (JNum 9);
     dotcom_chat := None;
     dotcom_pull_requests := Some [("total_engaged_users", JNum 1)];
     editors := [{| editor_attrs := [("name", JStr "vscode")];
                    models := [{| model_attrs := [];
                                  languages := [[("name", JStr "rust")]] |}] |}];
     chat_editors := [{| chat_editor_attrs := [("name", JStr "vscode")];
                         chat_models := [[("total_chats", JNum 5)]] |}] |}.

(** No character of [s] is an upper-case ASCII letter. *)
Fixpoint is_lowercase (s : string) : bool :=
  match s with
  | EmptyString => true
  | String c s' => negb (PyStr.is_upper c) && is_lowercase s'
  end.

(** An entry of [emails] that the search of [pick_scim_email] accepts: an
    object with a truthy ["value"], flagged ["primary": true] when only
    primaries are looked for. *)
Definition usable_email (primary_only : bool) (e : json) : bool :=
  match e with
  | JDict d =>
      (negb primary_only
       || match field d "primary" with JBool true => true | _ => false end)
      && Py.truthy (field d "value")
  | _ => false
  end.

(** [((s.get("assignee") or {}).get("login") or "").strip()] for a seat
    object with bindings [d]. *)
Definition seat_login (d : list (string * json)) : outcome string :=
  a ← PyDyn.get (JDict d) "assignee";
  l ← PyDyn.get (Py.or a (JDict [])) "login";
  PyDyn.strip (Py.or l (JStr "")).

(** The answer [resp] has a status outside 400-599 and a payload that
    normalizes to [items]. *)
Definition page_answer (keys : list string) (resp : Response)
    (items : list json) : Prop :=
  ¬ (400 ≤ status_code resp < 600)
  ∧ ∃ payload, body resp = Some payload
               ∧ normalize_list_payload payload keys = Ok items.

(** The world after one more GET. *)
Definition after_get (w : World) (url accept : string)
    (params : list (string * Z)) : World :=
  {| sent := sent w ++ [{| req_url := url; req_accept := accept;
                           req_params := params |}];
     slept := slept w; clock := clock w; logged := logged w |}.

(** A two-page listing: a full page of two as a bare array, then a short
    page wrapped under ["items"]. *)
Definition two_pages_srv : Server := λ n,
  match n with
  | O => ok_response (JList [JNum 1; JNum 2])
  | _ => ok_response (JDict [("items", JList [JNum 3])])
  end.

(** The answer [resp] of the metrics API is a success without rate-limit
    headers whose non-empty payload lists [items]. *)
Definition metrics_answer (resp : Response) (items : list json) : Prop :=
  status_code resp = 200
  ∧ ratelimit_remaining resp = None ∧ ratelimit_reset resp = None
  ∧ ∃ data, body resp = Some data ∧ Py.truthy data = true
            ∧ PyDyn.iter data = Ok items.

(** The world after one more GET of the metrics script and [n] courtesy
    sleeps of one second. *)
Definition after_pages (w : World) (reqs : list Request) (n : nat) : World :=
  {| sent := sent w ++ reqs;
     slept := slept w ++ replicate n 1;
     clock := clock w + Z.of_nat n;
     logged := logged w |}.

Definition linked_response (data : json) (next : bool) : Response :=
  {| status_code := 200; reason := "OK"; resp_url := ""; text := "";
     body := Some data; retry_after := None; ratelimit_remaining := None;
     ratelimit_reset := None; links_next := next |}.

(** A metrics listing of two pages: a short page with a next link, then a
    page without one. *)
Definition linked_pages_srv : Server := λ n,
  match n with
  | O => linked_response (JList [JNum 1]) true
  | _ => linked_response (JList [JNum 2; JNum 3]) false
  end.

(** A computation only appends rows to the CSV writer found in its state
    by [proj], and each row it appends satisfies [P]. *)
Definition appends_only {S A : Type} (proj : S → Writer)
    (P : list json → Prop) (m : Run S A) : Prop :=
  ∀ s, ∃ new, proj (m s).2 = proj s ++ new ∧ Forall P new.

(** A row of the metrics report: 19 cells, the first two naming the
    enterprise and the team. *)
Definition metrics_row (enterprise_id team_name : json) (row : list json)
  : Prop :=
  length row = 19%nat
  ∧ row !! 0%nat = Some enterprise_id ∧ row !! 1%nat = Some team_name.

(** What holds of every row of the team/seat report. *)
Definition row_ok (cfg : Config) (r : Row) : Prop :=
  row_enterprise r = ENTERPRISE_SLUG cfg
  ∧ row_login r ≠ "" ∧ PyStr.strip (row_login r) = row_login r
  ∧ row_team_slug r ≠ "" ∧ PyStr.strip (row_team_slug r) = row_team_slug r
  ∧ (row_copilot_assigned r = "yes" ∨ row_copilot_assigned r = "no")
  ∧ (row_active_status r = "active" ∨ row_active_status r = "inactive")
  ∧ (row_active_status r = "active" → row_copilot_assigned r = "yes")
  ∧ (row_copilot_assigned r = "no" →
     row_copilot_status r = JStr "" ∧ row_plan_type r = JStr ""
     ∧ row_last_activity_at r = JStr "" ∧ row_seat_created_at r = JStr ""
     ∧ row_seat_updated_at r = JStr "").

(** One directory record, one seat, one team with two members. *)
Definition small_enterprise_srv : Server := λ n,
  match n with
  | 0%nat => ok_response (scim_page_json [chander] (Some 1) (Some 1))
  | 1%nat => ok_response
               (JDict [("seats",
                        JList [seat_of "schander_newgen" "2024-01-01T00:00:00Z"])])
  | 2%nat => ok_response (JList [JDict [("name", JStr "Core");
                                        ("slug", JStr "core")]])
  | _ => ok_response
           (JList [JDict [("user", JDict [("login", JStr "schander_newgen")])];
                   JDict [("login", JStr "ghost")]])
  end.





(** *** The entry point of fetch_ent_team_copilot_metrics.py

    The state is the world together with the rows written to the output
    file.  [exit()] on an empty list of teams is the result [false]: the
    output file is never opened.  [logging.info] lines are left out. *)

Definition lift_world {A : Type} (m : Run World A) : Run (World * Writer) A :=
  λ s, let '(o, w') := m s.1 in (o, (w', s.2)).

Definition lift_writer {A : Type} (m : Run Writer A) : Run (World * Writer) A :=
  λ s, let '(o, rows') := m s.2 in (o, (s.1, rows')).

Definition metrics_header : list json :=
  map JStr
    ["Enterprise"; "Team"; "date"; "editor"; "model"; "language";
     "total_engaged_users"; "total_code_acceptances"; "total_code_suggestions";
     "total_code_lines_accepted"; "total_code_lines_suggested";
     "total_active_users"; "total_chat_dotcom_engaged_users";
     "total_pull_request_dotcom_engaged_users"; "chat_editor_name";
     "total_chats"; "is_custom_model"; "total_chat_copy_events";
     "total_chat_insertion_events"].

(** One turn of [for team in teams]. *)
Definition metrics_team (fuel : nat) (enterprise : string) (srv : Server)
    (team : json) : Run (World * Writer) unit :=
  team_name ← lift (PyDyn.get_or team "name" (JStr "N/A"));
  team_slug ← lift (PyDyn.get team "slug");
  if negb (Py.truthy team_slug) then mret ()
  else
    team_metrics ← lift_world (TeamMetrics.fetch_team_metrics fuel enterprise
                                 srv (Py.str team_slug));
    lift_writer (write_to_csv (JStr enterprise) team_name team_metrics).

Definition metrics_main (fuel : nat) (enterprise : string) (srv : Server)
  : Run (World * Writer) bool :=
  teams ← lift_world (TeamMetrics.fetch_enterprise_teams fuel enterprise srv);
  if negb (Py.truthy (JList teams)) then
    lift_world (Http.log "No teams found in enterprise.");;
    mret false
  else
    lift_writer (writerow metrics_header);;
    for_ teams (metrics_team fuel enterprise srv);;
    mret true.

(** An enterprise of one team whose metrics are one day's entry. *)
Definition one_team_srv : Server := λ n,
  match n with
  | O => linked_response
           (JList [JDict [("name", JStr "Core"); ("slug", JStr "core")]]) false
  | _ => linked_response (JList [entry_json mixed_entry]) false
  end.

(** A team listing whose second page fails. *)
Definition broken_listing_srv : Server := λ n,
  match n with
  | O => linked_response (JList [JDict [("slug", JStr "core")]]) true
  | _ => status_response 502 "Bad Gateway" "" "upstream"
  end.

(** A server that is always overloaded and asks for 120 seconds after its
    third answer. *)
Definition overloaded_srv : Server := λ n,
  {| status_code := 503; reason := "Service Unavailable"; resp_url := "u";
     text := ""; body := None;
     retry_after := if bool_decide (n = 2%nat) then Some "120" else None;
     ratelimit_remaining := None; ratelimit_reset := None;
     links_next := false |}.




(** The world with one more line logged. *)
Definition with_log (w : World) (msg : string) : World :=
  {| sent := sent w; slept := slept w; clock := clock w;
     logged := logged w ++ [msg] |}.

(** The endpoint read by [fetch_enterprise_teams] of the metrics script. *)
Definition teams_url (enterprise : string) : string :=
  API_ROOT +:+ "/enterprises/" +:+ enterprise +:+ "/teams".

(** The world in which the metrics script looks at an answer: the GET has
    been issued, the rate-limit headers are still to be handled. *)
Definition asked (w : World) (url : string) (page : Z) : World :=
  after_get w url "application/vnd.github+json" (page_params page).

Definition teams_error_line (resp : Response) : string :=
  "Error fetching teams: " +:+ pretty (status_code resp) +:+ " - "
  +:+ text resp.

Definition metrics_error_line (team_slug : string) (resp : Response) : string :=
  if status_code resp =? 404
  then "Metrics endpoint not found for team " +:+ team_slug +:+ " (404)."
  else "Error fetching metrics for team " +:+ team_slug +:+ ": "
       +:+ pretty (status_code resp) +:+ " - " +:+ text resp.

(** A teams endpoint answering an empty object, and one wrapping its single
    team under ["teams"]. *)
Definition empty_object_srv : Server := λ _, ok_response (JDict []).

Definition wrapped_teams_srv : Server := λ _,
  ok_response (JDict [("teams", JList [JDict [("slug", JStr "core")]])]).

(** The URL [requests] prepares for a GET, which is also the URL of the
    answer unless the request was redirected: the parameters appended as a
    query string (keys and integer values need no escaping here). *)
Definition query_string (params : list (string * Z)) : string :=
  Py.join "&" (map (λ kv, kv.1 +:+ "=" +:+ pretty kv.2) params).

Definition prepared_url (url : string) (params : list (string * Z)) : string :=
  match params with
  | [] => url
  | _ => url +:+ "?" +:+ query_string params
  end.

(** One directory page, then a seat endpoint whose request is redirected to
    a page that does not exist. *)
Definition redirected_404_srv : Server := λ n,
  match n with
  | 0%nat => ok_response (scim_page_json [chander] (Some 1) (Some 1))
  | _ => status_response 404 "Not Found" "https://github.example.com/sso" ""
  end.




(** A metrics endpoint whose answers carry rate-limit headers, a next link
    and an empty page. *)
Definition empty_linked_srv : Server := λ _,
  {| status_code := 200; reason := "OK"; resp_url := ""; text := "[]";
     body := Some (JList []); retry_after := None;
     ratelimit_remaining := Some "4999";
     ratelimit_reset := Some "1700003600"; links_next := true |}.

(** What the join reads for one team: the name and the slug it takes from
    the team object, and the membership records it fetches for the slug
    (none for a team without slug, which is skipped). *)
Record TeamRead := {
  read_name : string;
  read_slug : string;
  read_memberships : list json;
}.

(** [reads] is what a run of the loop over [teams] reads, team by team, from
    the world [w] on, ending in [w']. *)
Fixpoint join_reads (fuel : nat) (cfg : Config) (srv : Server)
    (teams : list json) (w : World) (reads : list TeamRead) (w' : World)
  : Prop :=
  match teams, reads with
  | [], [] => w' = w
  | t :: teams', rd :: reads' =>
      team_string t ["name"; "display_name"; "slug"] = Ok (read_name rd)
      ∧ team_string t ["slug"; "team_slug"] = Ok (read_slug rd)
      ∧ if decide (read_slug rd = "")
        then read_memberships rd = []
             ∧ join_reads fuel cfg srv teams' w reads' w'
        else ∃ w1,
               fetch_enterprise_team_memberships fuel cfg srv (read_slug rd) w
               = (Ok (read_memberships rd), w1)
               ∧ join_reads fuel cfg srv teams' w1 reads' w'
  | _, _ => False
  end.

(** The rows of one team: one per membership record that yields a login. *)
Definition team_rows (cfg : Config) (clk : Clock)
    (scim_index : gmap string ScimRec)
    (seats_by_login : gmap string (list (string * json)))
    (rd : TeamRead) : list Row :=
  map (make_row cfg clk scim_index seats_by_login (read_name rd) (read_slug rd))
      (logins_of (read_memberships rd)).

(** Three teams, the second without a slug; "core" has a known member and a
    record that names no user, "ops" a member unknown to the directory. *)
Definition three_teams : list json :=
  [JDict [("name", JStr " Core "); ("slug", JStr "core")];
   JDict [("name", JStr "Orphan")];
   JDict [("display_name", JStr "Ops"); ("team_slug", JStr "ops")]].

Definition three_teams_srv : Server := λ n,
  match n with
  | 0%nat => ok_response
               (JList [JDict [("user", JDict [("login", JStr "schander_newgen")])];
                       JDict [("role", JStr "member")]])
  | _ => ok_response (JDict [("memberships", JList [JDict [("login", JStr "ghost")]])])
  end.

(** *** Reading the shape off a decoded entry

    The sections of an entry as [write_to_csv] reads them, whatever other
    keys the objects carry: a missing section counts as empty, and [None]
    marks a section that is present with another type than expected. *)

(** The elements of an array of objects. *)
Fixpoint objects_of (l : list json) : option (list (list (string * json))) :=
  match l with
  | [] => Some []
  | JDict d :: l' => cons d <$> objects_of l'
  | _ => None
  end.

(** The array of objects under [k]. *)
Definition object_list (d : list (string * json)) (k : string)
  : option (list (list (string * json))) :=
  match Py.dict_get d k with
  | None => Some []
  | Some (JList l) => objects_of l
  | Some _ => None
  end.

(** The object under [k]. *)
Definition object_under (d : list (string * json)) (k : string)
  : option (list (string * json)) :=
  match Py.dict_get d k with
  | None => Some []
  | Some (JDict s) => Some s
  | Some _ => None
  end.

Definition model_view (d : list (string * json)) : option Model :=
  ls ← object_list d "languages";
  Some {| model_attrs := d; languages := ls |}.

Definition editor_view (d : list (string * json)) : option Editor :=
  ms ← object_list d "models";
  vs ← mapM model_view ms;
  Some {| editor_attrs := d; models := vs |}.

Definition chat_editor_view (d : list (string * json)) : option ChatEditor :=
  ms ← object_list d "models";
  Some {| chat_editor_attrs := d; chat_models := ms |}.

Definition entry_view (entry : json) : option Entry :=
  match entry with
  | JDict d =>
      completions ← object_under d "copilot_ide_code_completions";
      eds ← object_list completions "editors";
      editors ← mapM editor_view eds;
      chat ← object_under d "copilot_ide_chat";
      ceds ← object_list chat "editors";
      chat_editors ← mapM chat_editor_view ceds;
      dotcom_chat ← object_under d "copilot_dotcom_chat";
      dotcom_prs ← object_under d "copilot_dotcom_pull_requests";
      Some {| date := Py.dict_get d "date";
              active_users := Py.dict_get d "total_active_users";
              dotcom_chat := Some dotcom_chat;
              dotcom_pull_requests := Some dotcom_prs;
              editors := editors;
              chat_editors := chat_editors |}
  | _ => None
  end.

(** An entry as the API sends it: counters beside the nested sections, and
    no IDE-chat section. *)
Definition api_entry : json :=
  JDict [("date", JStr "2024-06-03");
         ("total_active_users", JNum 9);
         ("total_engaged_users", JNum 8);
         ("copilot_dotcom_pull_requests",
          JDict [("total_engaged_users", JNum 1); ("repositories", JList [])]);
         ("copilot_ide_code_completions",
          JDict [("total_engaged_users", JNum 5);
                 ("languages", JList [JDict [("name", JStr "rust")]]);
                 ("editors",
                  JList [JDict [("name", JStr "vscode");
                                ("total_engaged_users", JNum 2);
                                ("models",
                                 JList [JDict [("name", JStr "default");
                                               ("is_custom_model", JBool false);
                                               ("languages",
                                                JList [JDict [("name", JStr "rust");
                                                              ("total_code_acceptances", JNum 3)];
                                                       JDict [("name", JStr "go")]])]])];
                         JDict [("name", JStr "neovim")]])])].

(** An entry with nothing but an IDE-chat section, whose one editor has no
    name. *)
Definition chat_only_entry : json :=
  JDict [("copilot_dotcom_chat", JDict [("total_engaged_users", JNum 4)]);
         ("copilot_ide_chat",
          JDict [("editors",
                  JList [JDict [("models",
                                 JList [JDict [("total_chats", JNum 5);
                                               ("total_chat_insertion_events",
                                                JNum 2)]])]])])].

(** * Properties *)

(** ** The monad and the HTTP primitives *)

Lemma run_bind_eq {S A B : Type} (m : Run S A) (f : A → Run S B) (s : S) :
  (m ≫= f) s
  = match m s with
    | (Ok a, s') => f a s'
    | (Raise e, s') => (Raise e, s')
    | (OutOfFuel, s') => (OutOfFuel, s')
    end.
Proof. reflexivity. Qed.

Lemma raise_for_status_cases (resp : Response) (w : World) :
  (Http.raise_for_status resp w = (Ok (), w)
   ∧ ¬ (400 ≤ status_code resp < 600))
  ∨ (∃ msg, Http.raise_for_status resp w = (Raise (HTTPError msg resp), w)
            ∧ 400 ≤ status_code resp < 600).
Proof.
  unfold Http.raise_for_status.
  destruct (Z.leb_spec 400 (status_code resp)),
           (Z.ltb_spec (status_code resp) 500),
           (Z.leb_spec 500 (status_code resp)),
           (Z.ltb_spec (status_code resp) 600); simpl;
    try (left; split; [reflexivity|lia]);
    right; eexists; (split; [reflexivity|lia]).
Qed.

(** ** Strings *)

Lemma nonempty_true (s : string) : PyStr.nonempty s = true ↔ s ≠ "".
Proof. destruct s; simpl; split; intros; congruence. Qed.

Lemma nonempty_false (s : string) : PyStr.nonempty s = false ↔ s = "".
Proof. destruct s; simpl; split; intros; congruence. Qed.

Lemma contains_lower (c : ascii) (s : string) :
  PyStr.is_upper c = false → PyStr.lower_char c = c →
  PyStr.contains c s = true → PyStr.contains c (PyStr.lower s) = true.
Proof.
  intros Hu Hc. induction s as [|x s IH]; simpl; [done|].
  intros H. apply orb_true_iff in H as [H|H].
  - apply bool_decide_eq_true in H. subst x. rewrite Hc.
    rewrite bool_decide_eq_true_2; done.
  - rewrite (IH H). apply orb_true_r.
Qed.

Lemma contains_lstrip_by (p : ascii → bool) (c : ascii) (s : string) :
  p c = false →
  PyStr.contains c s = true → PyStr.contains c (PyStr.lstrip_by p s) = true.
Proof.
  intros Hp. induction s as [|x s IH]; simpl; [done|].
  intros H. destruct (p x) eqn:Hx; [|done].
  apply orb_true_iff in H as [H|H]; [|auto].
  apply bool_decide_eq_true in H. congruence.
Qed.

Lemma contains_rstrip_by (p : ascii → bool) (c : ascii) (s : string) :
  p c = false →
  PyStr.contains c s = true → PyStr.contains c (PyStr.rstrip_by p s) = true.
Proof.
  intros Hp. induction s as [|x s IH]; simpl; [done|].
  intros H. apply orb_true_iff in H as [H|H].
  - apply bool_decide_eq_true in H. subst x.
    destruct (PyStr.rstrip_by p s); simpl.
    + rewrite Hp. simpl. rewrite bool_decide_eq_true_2; done.
    + rewrite bool_decide_eq_true_2; done.
  - specialize (IH H). destruct (PyStr.rstrip_by p s) eqn:E; simpl in *; [done|].
    rewrite IH. apply orb_true_r.
Qed.

Lemma contains_at_normalised (email : string) :
  PyStr.contains "@" email = true →
  PyStr.contains "@" (PyStr.lower (PyStr.strip email)) = true.
Proof.
  intros H. apply contains_lower; [done..|].
  unfold PyStr.strip, PyStr.strip_by.
  apply contains_rstrip_by; [done|]. apply contains_lstrip_by; done.
Qed.

(** ** Login candidates *)

Lemma add_candidate_elem (suffix : string) (out : gset string) (x y : string) :
  y ∈ add_candidate suffix out x ↔
  y ∈ out ∨ (strip_variant x ≠ "" ∧
             (y = strip_variant x ∨
              (suffix ≠ "" ∧ y = strip_variant x +:+ "_" +:+ suffix))).
Proof.
  unfold add_candidate.
  destruct (PyStr.nonempty (strip_variant x)) eqn:Hv; simpl.
  - apply nonempty_true in Hv.
    destruct (PyStr.nonempty suffix) eqn:Hs.
    + apply nonempty_true in Hs.
      rewrite !elem_of_union, !elem_of_singleton. naive_solver.
    + apply nonempty_false in Hs.
      rewrite !elem_of_union, !elem_of_singleton. naive_solver.
  - apply nonempty_false in Hv. naive_solver.
Qed.

Lemma add_candidates_elem (suffix : string) (l : list string)
    (out : gset string) (y : string) :
  y ∈ foldl (add_candidate suffix) out l ↔
  y ∈ out ∨ ∃ x, x ∈ l ∧ strip_variant x ≠ "" ∧
               (y = strip_variant x ∨
                (suffix ≠ "" ∧ y = strip_variant x +:+ "_" +:+ suffix)).
Proof.
  revert out. induction l as [|x l IH]; intros out; simpl.
  - split; [auto|]. intros [H|(x & Hx & _)]; [done|]. by apply elem_of_nil in Hx.
  - rewrite IH, add_candidate_elem. clear IH. split.
    + intros [[H|H]|(z & Hz & H)]; [by left|..].
      * right. exists x. split; [left|done].
      * right. exists z. split; [by right|done].
    + intros [H|(z & Hz & H)]; [by left; left|].
      apply elem_of_cons in Hz as [->|Hz]; [left; by right|].
      right. by exists z.
Qed.

(** Membership in the candidate set, once the guards of the function are
    passed. *)
Lemma generate_login_candidates_elem (cfg : Config) (email y : string) :
  let local := PyStr.strip (PyStr.split1_head "@" (PyStr.lower (PyStr.strip email))) in
  PyStr.contains "@" email = true → local ≠ "" →
  y ∈ generate_login_candidates_from_email cfg email ↔
  ∃ x, x ∈ local_variants local ∧ strip_variant x ≠ "" ∧
       (y = strip_variant x ∨
        (derive_suffix_token cfg ≠ "" ∧
         y = strip_variant x +:+ "_" +:+ derive_suffix_token cfg)).
Proof.
  intros local Hat Hl. unfold generate_login_candidates_from_email.
  rewrite (contains_at_normalised _ Hat). simpl.
  fold local. apply nonempty_true in Hl. rewrite Hl. simpl.
  rewrite add_candidates_elem. split.
  - intros [H|(x & Hx & H)]; [by apply not_elem_of_empty in H|].
    exists x. split; [by apply elem_of_elements|done].
  - intros (x & Hx & H). right. exists x.
    split; [by apply elem_of_elements|done].
Qed.

(** C1, as stated, fails: the local part "-" is non-empty, yet every variant
    of it is emptied by the hyphen stripping and the candidate set is empty. *)
Lemma generate_login_candidates_hyphen_local :
  PyStr.contains "@" "-@co.com" = true ∧
  PyStr.split1_head "@" (PyStr.lower "-@co.com") = "-" ∧
  generate_login_candidates_from_email newgen_cfg "-@co.com" = ∅.
Proof. vm_compute. done. Qed.

(** C1 (amended).  Let L be the local part as the code takes it: the text
    before the first '@' of the trimmed, lowercased e-mail, trimmed again.
    When the e-mail contains '@' and L is non-empty, every one of the six
    forms of L, stripped of leading and trailing hyphens and then of blanks,
    is in the returned set when non-empty, together with its
    [_<suffix>] form when the derived suffix token is non-empty; the set is
    non-empty as soon as L itself survives the stripping.  For
    "s.chander@co.com" under slug "Newgen-EMU" the set holds
    "schander_newgen" and "s-chander_newgen". *)
Theorem generate_login_candidates_from_email_spec (cfg : Config) (email : string) :
  let out := generate_login_candidates_from_email cfg email in
  let L := PyStr.strip (PyStr.split1_head "@" (PyStr.lower (PyStr.strip email))) in
  let suffix := derive_suffix_token cfg in
  PyStr.contains "@" email = true → L ≠ "" →
  (∀ x, x ∈ [L; PyStr.replace "." "" L; PyStr.replace "." "-" L;
             PyStr.replace "_" "-" L; PyStr.keep is_alnum_hyphen L;
             PyStr.keep is_alnum L] →
        let v := PyStr.strip (PyStr.strip_char "-" x) in
        v ≠ "" → v ∈ out ∧ (suffix ≠ "" → v +:+ "_" +:+ suffix ∈ out))
  ∧ (PyStr.strip (PyStr.strip_char "-" L) ≠ "" → out ≠ ∅)
  ∧ "schander_newgen" ∈ generate_login_candidates_from_email newgen_cfg "s.chander@co.com"
  ∧ "s-chander_newgen" ∈ generate_login_candidates_from_email newgen_cfg "s.chander@co.com".
Proof.
  intros out L suffix Hat HL.
  assert (Hvar : ∀ x, x ∈ [L; PyStr.replace "." "" L; PyStr.replace "." "-" L;
             PyStr.replace "_" "-" L; PyStr.keep is_alnum_hyphen L;
             PyStr.keep is_alnum L] → x ∈ local_variants L).
  { intros x Hx. unfold local_variants.
    repeat (apply elem_of_cons in Hx as [->|Hx]; [set_solver|]).
    by apply elem_of_nil in Hx. }
  split; [|split; [|split]].
  - intros x Hx v Hv. split.
    + apply generate_login_candidates_elem; [done..|].
      exists x. split; [by apply Hvar|]. split; [done|by left].
    + intros Hs. apply generate_login_candidates_elem; [done..|].
      exists x. split; [by apply Hvar|]. split; [done|right; done].
  - intros Hv Hempty.
    assert (PyStr.strip (PyStr.strip_char "-" L) ∈ out) as Hin.
    { apply generate_login_candidates_elem; [done..|].
      exists L. split; [apply Hvar; left|]. split; [done|by left]. }
    rewrite Hempty in Hin. by apply not_elem_of_empty in Hin.
  - by vm_compute.
  - by vm_compute.
Qed.

Lemma generate_login_candidates_from_email_spec_witness :
  let out := generate_login_candidates_from_email newgen_cfg "G_Singh@domain.com" in
  "g-singh" ∈ out ∧ "g-singh_newgen" ∈ out ∧ out ≠ ∅.
Proof.
  pose proof (generate_login_candidates_from_email_spec newgen_cfg
                "G_Singh@domain.com" eq_refl) as H.
  destruct H as (H1 & H2 & _); [by vm_compute|].
  specialize (H1 "g-singh").
  destruct H1 as [Ha Hb];
    [apply list_elem_of_In; vm_compute; auto 10 | by vm_compute |].
  split; [exact Ha|]. split; [apply Hb; by vm_compute|].
  apply H2. by vm_compute.
Defined.

(** ** gh_get *)



Lemma taken_wait_Ok (resp : Response) (attempt t : Z) :
  taken_wait resp attempt = Ok t ↔
  retry_wait resp attempt = Ok t ∧ 0 ≤ t ≤ Http.SLEEP_MAX.
Proof.
  unfold taken_wait. destruct (retry_wait resp attempt) as [t'| |].
  - destruct (Z.ltb_spec t' 0); [split; [done|intros [[= ->] ?]; lia]|].
    destruct (Z.ltb_spec Http.SLEEP_MAX t');
      [split; [done|intros [[= ->] ?]; lia]|].
    split; [intros [= ->]; split; [done|lia] | by intros [[= ->] _]].
  - split; [done|by intros [? _]].
  - split; [done|by intros [? _]].
Qed.

(** The two steps between an answer to retry and the next attempt. *)
Lemma wait_and_sleep {A : Type} (resp : Response) (attempt : Z)
    (k : Run World A) (w : World) :
  (lift (retry_wait resp attempt) ≫= λ wait, Http.sleep wait ≫= λ _, k) w
  = match taken_wait resp attempt with
    | Ok t => k {| sent := sent w; slept := slept w ++ [t];
                   clock := clock w + t; logged := logged w |}
    | Raise e => (Raise e, w)
    | OutOfFuel => (OutOfFuel, w)
    end.
Proof.
  rewrite run_bind_eq. unfold lift, taken_wait.
  destruct (retry_wait resp attempt) as [t| |]; [|done..].
  rewrite run_bind_eq. unfold Http.sleep.
  destruct (t <? 0); [done|]. by destruct (Http.SLEEP_MAX <? t).
Qed.

Lemma int_no_fuel (v : json) : PyDyn.int v ≠ OutOfFuel.
Proof. destruct v; simpl; try done. by destruct (Py.int_of_string s). Qed.

Lemma retry_wait_no_fuel (resp : Response) (attempt : Z) :
  retry_wait resp attempt ≠ OutOfFuel.
Proof.
  unfold retry_wait. destruct (retry_after resp) as [ra|]; [|done].
  destruct (_ && _); [apply int_no_fuel|done].
Qed.

Lemma taken_wait_no_fuel (resp : Response) (attempt : Z) :
  taken_wait resp attempt ≠ OutOfFuel.
Proof.
  unfold taken_wait.
  destruct (retry_wait resp attempt) as [t| |] eqn:E;
    [|done|by apply retry_wait_no_fuel in E].
  destruct (t <? 0); [done|]. by destruct (Http.SLEEP_MAX <? t).
Qed.

Section GhGet.
Variable srv : Server.
Variables url headers : string.
Variable params : list (string * Z).

Let req : Request :=
  {| req_url := url; req_accept := headers; req_params := params |}.

(** What one run of the retry loop does, for [k + 1] attempts numbered from
    [a]: it ends after [n] GETs, either with the [n]-th answer in hand or
    with the error of the wait that follows it. *)
Lemma gh_get_loop_run (k : nat) :
  ∀ (a : Z) (last : option Response) (w : World),
  ∃ (n : nat) (waits : list Z) (o : outcome (option Response)) (w' : World),
    gh_get_loop srv url headers params (seqZ a (Z.of_nat (S k))) last w
    = (o, w')
    ∧ (1 ≤ n ≤ S k)%nat
    ∧ sent w' = sent w ++ replicate n req
    ∧ slept w' = slept w ++ waits
    ∧ logged w' = logged w
    ∧ (∀ i, (i < n - 1)%nat →
            retryable (status_code (srv (length (sent w) + i)%nat)) = true)
    ∧ (∀ i t, waits !! i = Some t →
              taken_wait (srv (length (sent w) + i)%nat) (a + Z.of_nat i) = Ok t)
    ∧ ((o = Ok (Some (srv (length (sent w) + n - 1)%nat))
        ∧ ((n < S k)%nat →
           retryable (status_code (srv (length (sent w) + n - 1)%nat)) = false)
        ∧ length waits
          = (if retryable (status_code (srv (length (sent w) + n - 1)%nat))
             then n else (n - 1)%nat))
       ∨ (∃ e, o = Raise e
               ∧ retryable (status_code (srv (length (sent w) + n - 1)%nat)) = true
               ∧ taken_wait (srv (length (sent w) + n - 1)%nat)
                   (a + Z.of_nat (n - 1)) = Raise e
               ∧ length waits = (n - 1)%nat)).
Proof.
  induction k as [|k IH]; intros a last w.
  - change (seqZ a (Z.of_nat 1)) with [a]. cbn [gh_get_loop].
    rewrite run_bind_eq. unfold Http.get at 1.
    destruct (retryable (status_code (srv (length (sent w))))) eqn:Hr.
    + rewrite wait_and_sleep. cbn [sent].
      destruct (taken_wait (srv (length (sent w))) a) as [t|e|] eqn:Ht;
        [| |by apply taken_wait_no_fuel in Ht].
      * eexists 1%nat, [t], (Ok (Some (srv (length (sent w))))), _.
        split; [reflexivity|]. cbn [sent slept logged replicate].
        replace (length (sent w) + 1 - 1)%nat with (length (sent w)) by lia.
        rewrite Hr. split; [lia|]. do 3 (split; [done|]).
        split; [intros i Hi; lia|]. split.
        { intros [|i] t' Hi; [|done]. injection Hi as <-.
          by rewrite Nat.add_0_r, Z.add_0_r. }
        left. split; [done|]. split; [lia|done].
      * eexists 1%nat, [], (Raise e), _. split; [reflexivity|].
        cbn [sent slept logged replicate].
        replace (length (sent w) + 1 - 1)%nat with (length (sent w)) by lia.
        split; [lia|]. split; [done|]. split; [by rewrite app_nil_r|].
        split; [done|]. split; [intros i Hi; lia|]. split; [done|].
        right. exists e. rewrite Z.add_0_r. by rewrite Hr.
    + eexists 1%nat, [], (Ok (Some (srv (length (sent w))))), _.
      split; [reflexivity|]. cbn [sent slept logged replicate].
      replace (length (sent w) + 1 - 1)%nat with (length (sent w)) by lia.
      rewrite Hr. split; [lia|]. split; [done|].
      split; [by rewrite app_nil_r|]. split; [done|].
      split; [intros i Hi; lia|]. split; [done|]. by left.
  - rewrite seqZ_cons by lia.
    replace (Z.pred (Z.of_nat (S (S k)))) with (Z.of_nat (S k)) by lia.
    cbn [gh_get_loop]. rewrite run_bind_eq. unfold Http.get at 1.
    destruct (retryable (status_code (srv (length (sent w))))) eqn:Hr.
    + rewrite wait_and_sleep. cbn [sent slept clock logged].
      destruct (taken_wait (srv (length (sent w))) a) as [t|e|] eqn:Ht;
        [| |by apply taken_wait_no_fuel in Ht].
      * set (w1 := {| sent := sent w ++ [req]; slept := slept w ++ [t];
                      clock := clock w + t; logged := logged w |}).
        destruct (IH (Z.succ a) (Some (srv (length (sent w)))) w1)
          as (n & waits & o & w' & Hrun & Hn & Hsent & Hsl & Hlog & Hpre
              & Hwaits & Hend).
        assert (Hlen : length (sent w1) = S (length (sent w))).
        { subst w1. simpl. rewrite length_app. simpl. lia. }
        rewrite Hlen in *.
        replace (S (length (sent w)) + n - 1)%nat
          with (length (sent w) + S n - 1)%nat in Hend by lia.
        exists (S n), (t :: waits), o, w'. split; [exact Hrun|].
        split; [lia|]. split.
        { rewrite Hsent. subst w1. simpl. by rewrite <- app_assoc. }
        split.
        { rewrite Hsl. subst w1. simpl. by rewrite <- app_assoc. }
        split; [by rewrite Hlog|]. split.
        { intros i Hi. destruct i as [|i].
          - by rewrite Nat.add_0_r.
          - replace (length (sent w) + S i)%nat
              with (S (length (sent w)) + i)%nat by lia.
            apply Hpre. lia. }
        split.
        { intros [|i] t' Hi.
          - injection Hi as <-. by rewrite Nat.add_0_r, Z.add_0_r.
          - replace (length (sent w) + S i)%nat
              with (S (length (sent w)) + i)%nat by lia.
            replace (a + Z.of_nat (S i)) with (Z.succ a + Z.of_nat i) by lia.
            by apply Hwaits. }
        destruct Hend as [(Ho & Hlast & Hlw)|(e & Ho & Hre & Hte & Hlw)].
        -- left. split; [done|]. split; [intros; apply Hlast; lia|].
           cbn [length]. rewrite Hlw.
           destruct (retryable (status_code (srv (_ + S n - 1)%nat))); lia.
        -- right. exists e. split; [done|]. split; [done|]. split.
           ++ replace (a + Z.of_nat (S n - 1))
                with (Z.succ a + Z.of_nat (n - 1)) by lia.
              done.
           ++ cbn [length]. lia.
      * eexists 1%nat, [], (Raise e), _. split; [reflexivity|].
        cbn [sent slept logged replicate].
        replace (length (sent w) + 1 - 1)%nat with (length (sent w)) by lia.
        split; [lia|]. split; [done|]. split; [by rewrite app_nil_r|].
        split; [done|]. split; [intros i Hi; lia|]. split; [done|].
        right. exists e. rewrite Z.add_0_r. by rewrite Hr.
    + eexists 1%nat, [], (Ok (Some (srv (length (sent w))))), _.
      split; [reflexivity|]. cbn [sent slept logged replicate].
      replace (length (sent w) + 1 - 1)%nat with (length (sent w)) by lia.
      rewrite Hr. split; [lia|]. split; [done|].
      split; [by rewrite app_nil_r|]. split; [done|].
      split; [intros i Hi; lia|]. split; [done|]. left.
      split; [done|]. by split.
Qed.

End GhGet.

Lemma retryable_iff (st : Z) :
  retryable st = true ↔
  st = 403 ∨ st = 429 ∨ st = 500 ∨ st = 502 ∨ st = 503 ∨ st = 504.
Proof.
  unfold retryable, retry_statuses. rewrite bool_decide_eq_true.
  rewrite !elem_of_cons, elem_of_nil. tauto.
Qed.

(** One call of [gh_get]: between one and six GETs of the same request, and
    then the last answer or the error of the wait after it. *)
Lemma gh_get_run (srv : Server) (url headers : string)
    (params : list (string * Z)) (w : World) :
  ∃ (n : nat) (waits : list Z) (o : outcome (option Response)) (w' : World),
    gh_get srv url headers params w = (o, w')
    ∧ (1 ≤ n ≤ 6)%nat
    ∧ sent w' = sent w ++ replicate n {| req_url := url; req_accept := headers;
                                         req_params := params |}
    ∧ slept w' = slept w ++ waits
    ∧ logged w' = logged w
    ∧ (∀ i, (i < n - 1)%nat →
            retryable (status_code (srv (length (sent w) + i)%nat)) = true)
    ∧ (∀ i t, waits !! i = Some t →
              taken_wait (srv (length (sent w) + i)%nat) (1 + Z.of_nat i) = Ok t)
    ∧ ((o = Ok (Some (srv (length (sent w) + n - 1)%nat))
        ∧ ((n < 6)%nat →
           retryable (status_code (srv (length (sent w) + n - 1)%nat)) = false)
        ∧ length waits
          = (if retryable (status_code (srv (length (sent w) + n - 1)%nat))
             then n else (n - 1)%nat))
       ∨ (∃ e, o = Raise e
               ∧ retryable (status_code (srv (length (sent w) + n - 1)%nat)) = true
               ∧ taken_wait (srv (length (sent w) + n - 1)%nat)
                   (1 + Z.of_nat (n - 1)) = Raise e
               ∧ length waits = (n - 1)%nat)).
Proof.
  unfold gh_get. change 6 with (Z.of_nat 6).
  apply (gh_get_loop_run srv url headers params 5 1 None w).
Qed.

(** A call of [gh_get] that does not raise ends with a response in hand. *)
Lemma gh_get_outcome (srv : Server) (url headers : string)
    (params : list (string * Z)) (w : World) :
  ∃ w', (length (sent w) < length (sent w'))%nat
        ∧ ((∃ resp, gh_get srv url headers params w = (Ok (Some resp), w')
                    ∧ resp = srv (length (sent w') - 1)%nat)
           ∨ (∃ e, gh_get srv url headers params w = (Raise e, w'))).
Proof.
  destruct (gh_get_run srv url headers params w)
    as (n & waits & o & w' & Hget & Hn & Hsent & _ & _ & _ & _ & Hend).
  assert (Hlen : length (sent w') = (length (sent w) + n)%nat).
  { by rewrite Hsent, length_app, length_replicate. }
  exists w'. split; [lia|].
  destruct Hend as [(-> & _)|(e & -> & _)].
  - left. eexists. split; [exact Hget|]. f_equal. lia.
  - right. by exists e.
Qed.

(** *** [int] on digit strings *)













(** *** The wait computed after an answer *)


Lemma retry_wait_default (r : Response) (attempt : Z) :
  retry_after r = None
  ∨ (∃ s, retry_after r = Some s ∧ PyStr.isdigit s = false) →
  retry_wait r attempt = Ok (Z.min 30 (2 * attempt)).
Proof.
  intros [Hn|(s & Hs & Hd)]; unfold retry_wait.
  - by rewrite Hn.
  - rewrite Hs, Hd. by rewrite andb_false_r.
Qed.





(** Six GETs, six sleeps, and the sixth 503 comes back to the caller. *)
Example gh_get_always_503 :
  let '(r, w) := gh_get overloaded_srv "u" HEADERS_JSON [] world0 in
  r = Ok (Some (overloaded_srv 5%nat)) ∧ length (sent w) = 6%nat
  ∧ slept w = [2; 4; 120; 8; 10; 12].
Proof. vm_compute. done. Qed.

(** ** normalize_list_payload *)

Lemma first_list_under_Some (d : list (string * json)) (keys : list string)
    (v : list json) :
  first_list_under d keys = Some v ↔
  ∃ pre k post, keys = pre ++ k :: post
                ∧ Forall (λ k', ∀ v', ¬ list_under d k' v') pre
                ∧ list_under d k v.
Proof.
  unfold list_under. induction keys as [|k0 keys IH]; simpl.
  - split; [done|]. intros (pre & k & post & H & _). by destruct pre.
  - destruct (default JNull (Py.dict_get d k0)) eqn:E;
      try (rewrite IH; split;
           [ intros (pre & k & post & -> & Hpre & Hk);
             exists (k0 :: pre), k, post; split; [done|]; split; [|done];
             constructor; [intros v'; rewrite E; done | done]
           | intros (pre & k & post & Hkeys & Hpre & Hk);
             destruct pre as [|p pre]; simplify_eq/=;
             [ congruence
             | exists pre, k, post; split; [done|]; split; [|done];
               by inversion Hpre ] ]).
    split.
    + intros [= ->]. exists [], k0, keys. by rewrite E.
    + intros (pre & k & post & Hkeys & Hpre & Hk).
      destruct pre as [|p pre]; simplify_eq/=; [congruence|].
      inversion Hpre as [|? ? Hp _]; subst. by destruct (Hp l).
Qed.

Lemma first_list_under_None (d : list (string * json)) (keys : list string) :
  first_list_under d keys = None ↔
  Forall (λ k, ∀ v, ¬ list_under d k v) keys.
Proof.
  unfold list_under. induction keys as [|k0 keys IH]; simpl.
  - split; [constructor|done].
  - destruct (default JNull (Py.dict_get d k0)) eqn:E;
      try (rewrite IH; split;
           [ intros H; constructor; [intros v; rewrite E; done | done]
           | intros H; by inversion H ]).
    split; [done|]. intros H. inversion H as [|? ? Hk _]; subst.
    by destruct (Hk l).
Qed.

(** *** The page loops of the metrics script, once the rate limit is
    handled *)

Section MetricsPage.
Variable srv : Server.
Variable enterprise : string.
Variable fuel : nat.
Variable page : Z.
Variable w : World.

Let resp : Response := srv (length (sent w)).

Lemma metrics_teams_loop_raised (teams : list json) (e : exn) (w1 : World) :
  handle_rate_limit resp (asked w (teams_url enterprise) page) = (Raise e, w1) →
  fetch_enterprise_teams_loop (S fuel) enterprise srv teams page w
  = (Raise e, w1).
Proof.
  unfold asked, after_get. intros Hrl. cbn [fetch_enterprise_teams_loop].
  cbv zeta. rewrite run_bind_eq. unfold Http.get at 1.
  rewrite run_bind_eq. fold resp. unfold teams_url in Hrl. by rewrite Hrl.
Qed.

Lemma metrics_teams_loop_handled (teams : list json) (w1 : World) :
  handle_rate_limit resp (asked w (teams_url enterprise) page) = (Ok (), w1) →
  fetch_enterprise_teams_loop (S fuel) enterprise srv teams page w
  = if negb (status_code resp =? 200)
    then (Ok teams, with_log w1 (teams_error_line resp))
    else match body resp with
         | None => (Raise JSONDecodeError, w1)
         | Some data =>
             if negb (Py.truthy data) then (Ok teams, w1)
             else match PyDyn.iter data with
                  | Ok items =>
                      if links_next resp
                      then (Http.sleep 1 ≫= λ _,
                            fetch_enterprise_teams_loop fuel enterprise srv
                              (teams ++ items) (page + 1)) w1
                      else (Ok (teams ++ items), w1)
                  | Raise e => (Raise e, w1)
                  | OutOfFuel => (OutOfFuel, w1)
                  end
         end.
Proof.
  unfold asked, after_get. intros Hrl. cbn [fetch_enterprise_teams_loop].
  cbv zeta. rewrite run_bind_eq. unfold Http.get at 1.
  rewrite run_bind_eq. fold resp. unfold teams_url in Hrl. rewrite Hrl.
  destruct (negb (status_code resp =? 200)); [done|].
  rewrite run_bind_eq. unfold Http.json_of.
  destruct (body resp) as [data|]; [|done]. cbn [mret Run_ret run_ret].
  destruct (negb (Py.truthy data)); [done|].
  rewrite run_bind_eq. unfold lift.
  destruct (PyDyn.iter data) as [items| |]; [|done..].
  by destruct (links_next resp).
Qed.

Lemma metrics_entries_loop_raised (team_slug : string)
    (all_entries : list json) (e : exn) (w1 : World) :
  handle_rate_limit resp (asked w (metrics_url enterprise team_slug) page)
  = (Raise e, w1) →
  fetch_team_metrics_loop (S fuel) enterprise srv team_slug all_entries page w
  = (Raise e, w1).
Proof.
  unfold asked, after_get. intros Hrl. cbn [fetch_team_metrics_loop].
  rewrite run_bind_eq. unfold Http.get at 1.
  rewrite run_bind_eq. fold resp. by rewrite Hrl.
Qed.

Lemma metrics_entries_loop_handled (team_slug : string)
    (all_entries : list json) (w1 : World) :
  handle_rate_limit resp (asked w (metrics_url enterprise team_slug) page)
  = (Ok (), w1) →
  fetch_team_metrics_loop (S fuel) enterprise srv team_slug all_entries page w
  = if negb (status_code resp =? 200)
    then (Ok all_entries, with_log w1 (metrics_error_line team_slug resp))
    else match body resp with
         | None => (Raise JSONDecodeError, w1)
         | Some data =>
             if negb (Py.truthy data) then (Ok all_entries, w1)
             else match PyDyn.iter data with
                  | Ok items =>
                      if links_next resp
                      then (Http.sleep 1 ≫= λ _,
                            fetch_team_metrics_loop fuel enterprise srv
                              team_slug (all_entries ++ items) (page + 1)) w1
                      else (Ok (all_entries ++ items), w1)
                  | Raise e => (Raise e, w1)
                  | OutOfFuel => (OutOfFuel, w1)
                  end
         end.
Proof.
  unfold asked, after_get. intros Hrl. cbn [fetch_team_metrics_loop].
  rewrite run_bind_eq. unfold Http.get at 1.
  rewrite run_bind_eq. fold resp. rewrite Hrl. unfold metrics_error_line.
  destruct (Z.eqb_spec (status_code resp) 404) as [H404|_].
  { rewrite H404. reflexivity. }
  destruct (negb (status_code resp =? 200)); [done|].
  rewrite run_bind_eq. unfold Http.json_of.
  destruct (body resp) as [data|]; [|done]. cbn [mret Run_ret run_ret].
  destruct (negb (Py.truthy data)); [done|].
  rewrite run_bind_eq. unfold lift.
  destruct (PyDyn.iter data) as [items| |]; [|done..].
  by destruct (links_next resp).
Qed.

End MetricsPage.

Lemma normalize_list_payload_cases (payload : json) (keys : list string) :
  (∀ l, payload = JList l → normalize_list_payload payload keys = Ok l)
  ∧ (∀ d v, payload = JDict d →
       (normalize_list_payload payload keys = Ok v ↔
        ∃ pre k post, keys = pre ++ k :: post
                      ∧ Forall (λ k', ∀ v', ¬ list_under d k' v') pre
                      ∧ list_under d k v))
  ∧ (∀ d, payload = JDict d →
       Forall (λ k, ∀ v, ¬ list_under d k v) keys →
       normalize_list_payload payload keys
       = Raise (RuntimeError "Unsupported list payload shape: <class 'dict'>"))
  ∧ (Py.is_list payload = false → Py.is_dict payload = false →
       normalize_list_payload payload keys
       = Raise (RuntimeError ("Unsupported list payload shape: "
                              +:+ Py.type_name payload)))
  ∧ (normalize_list_payload payload keys = Ok [] →
       payload = JList [] ∨
       ∃ d k, payload = JDict d ∧ k ∈ keys ∧ Py.dict_get d k = Some (JList []))
  ∧ normalize_list_payload payload keys ≠ OutOfFuel.
Proof.
  split; [|split; [|split; [|split; [|split]]]].
  - by intros l ->.
  - intros d v ->. simpl. rewrite <- first_list_under_Some.
    destruct (first_list_under d keys); split; congruence.
  - intros d -> H. simpl. apply first_list_under_None in H. by rewrite H.
  - by destruct payload.
  - destruct payload; simpl; try done.
    + intros [= ->]. by left.
    + destruct (first_list_under d keys) as [v|] eqn:E; [|done].
      intros [= ->]. right.
      apply first_list_under_Some in E as (pre & k & post & -> & _ & Hk).
      exists d, k. split; [done|]. split; [set_solver|].
      unfold list_under in Hk. by destruct (Py.dict_get d k); simplify_eq/=.
  - destruct payload; simpl; try done.
    by destruct (first_list_under d keys).
Qed.

(** The error of the normalizer is the error of the collection. *)
Lemma fetch_rest_list_paged_loop_shape (payload : json) (keys : list string)
    (fuel : nat) (srv : Server) (url headers : string) (per_page : Z)
    (extra_params : list (string * Z)) (out : list json) (page : Z)
    (w w' : World) (resp : Response) (e : exn) :
  gh_get srv url headers (paged_params extra_params per_page page) w
  = (Ok (Some resp), w') →
  ¬ (400 ≤ status_code resp < 600) → body resp = Some payload →
  normalize_list_payload payload keys = Raise e →
  fetch_rest_list_paged_loop (S fuel) srv url headers keys per_page
    extra_params out page w = (Raise e, w').
Proof.
  intros Hget Hst Hbody Hraise.
  cbn [fetch_rest_list_paged_loop]. cbv zeta. rewrite run_bind_eq, Hget.
  cbn [the_response]. rewrite run_bind_eq. cbn [mret Run_ret run_ret].
  rewrite bool_decide_eq_false_2
    by (rewrite !elem_of_cons, elem_of_nil; lia).
  rewrite run_bind_eq.
  destruct (raise_for_status_cases resp w') as [[-> _]|(msg & _ & Hbad)];
    [|done].
  rewrite run_bind_eq. unfold Http.json_of. rewrite Hbody.
  cbn [mret Run_ret run_ret]. rewrite run_bind_eq. unfold lift.
  by rewrite Hraise.
Qed.

(** C9, as stated, fails for the team listing of the metrics script, which
    reads the same endpoint without a normalizer: an empty object ends the
    listing silently with no team, and an object wrapping the teams is read
    as the list of its keys. *)
Lemma metrics_teams_not_normalized :
  (let '(r, w) := TeamMetrics.fetch_enterprise_teams 3 "acme" empty_object_srv
                    world0 in
   r = Ok [] ∧ length (sent w) = 1%nat ∧ logged w = [])
  ∧ (let '(r, w) := TeamMetrics.fetch_enterprise_teams 3 "acme"
                      wrapped_teams_srv world0 in
     r = Ok [JStr "teams"] ∧ logged w = [])
  ∧ normalize_list_payload (JDict []) ["teams"; "items"; "data"]
    = Raise (RuntimeError "Unsupported list payload shape: <class 'dict'>")
  ∧ normalize_list_payload
      (JDict [("teams", JList [JDict [("slug", JStr "core")]])])
      ["teams"; "items"; "data"]
    = Ok [JDict [("slug", JStr "core")]].
Proof. vm_compute. done. Qed.

(** C9 (amended).  In the billing-seat script [normalize_list_payload]
    returns a bare array as it is; for an object it returns the list under
    the first of [keys], in their order, that holds a list; in every other
    case it raises the RuntimeError that names the type of the payload.  An
    empty result is an empty array of the payload itself, never a replacement
    for an unrecognised shape, and the error of the normalizer is the error
    of the collection that called it.  The team listing of the metrics script
    has no normalizer: once the rate limit is handled, a 200 answer with a
    falsy payload (an empty object, null, an empty array) ends the listing
    silently with the teams gathered so far, an object is read as the list
    of its keys, an array as its items, and a number raises TypeError. *)
Theorem normalize_list_payload_spec (payload : json) (keys : list string) :
  (∀ l, payload = JList l → normalize_list_payload payload keys = Ok l)
  ∧ (∀ d v, payload = JDict d →
       (normalize_list_payload payload keys = Ok v ↔
        ∃ pre k post, keys = pre ++ k :: post
                      ∧ Forall (λ k', ∀ v', ¬ list_under d k' v') pre
                      ∧ list_under d k v))
  ∧ (∀ d, payload = JDict d →
       Forall (λ k, ∀ v, ¬ list_under d k v) keys →
       normalize_list_payload payload keys
       = Raise (RuntimeError "Unsupported list payload shape: <class 'dict'>"))
  ∧ (Py.is_list payload = false → Py.is_dict payload = false →
       normalize_list_payload payload keys
       = Raise (RuntimeError ("Unsupported list payload shape: "
                              +:+ Py.type_name payload)))
  ∧ (normalize_list_payload payload keys = Ok [] →
       payload = JList [] ∨
       ∃ d k, payload = JDict d ∧ k ∈ keys ∧ Py.dict_get d k = Some (JList []))
  ∧ normalize_list_payload payload keys ≠ OutOfFuel
  ∧ (∀ fuel srv url headers per_page extra_params out page w w' resp e,
       gh_get srv url headers (paged_params extra_params per_page page) w
       = (Ok (Some resp), w') →
       ¬ (400 ≤ status_code resp < 600) → body resp = Some payload →
       normalize_list_payload payload keys = Raise e →
       fetch_rest_list_paged_loop (S fuel) srv url headers keys per_page
         extra_params out page w = (Raise e, w'))
  ∧ (∀ fuel srv enterprise teams page w w1,
       let resp := srv (length (sent w)) in
       handle_rate_limit resp (asked w (teams_url enterprise) page)
       = (Ok (), w1) →
       status_code resp = 200 → body resp = Some payload →
       (Py.truthy payload = false →
        fetch_enterprise_teams_loop (S fuel) enterprise srv teams page w
        = (Ok teams, w1))
       ∧ (∀ d, payload = JDict d → d ≠ [] → links_next resp = false →
          fetch_enterprise_teams_loop (S fuel) enterprise srv teams page w
          = (Ok (teams ++ map (λ kv, JStr kv.1) d), w1))
       ∧ (∀ l, payload = JList l → l ≠ [] → links_next resp = false →
          fetch_enterprise_teams_loop (S fuel) enterprise srv teams page w
          = (Ok (teams ++ l), w1))
       ∧ (∀ z, payload = JNum z → z ≠ 0 →
          fetch_enterprise_teams_loop (S fuel) enterprise srv teams page w
          = (Raise TypeError, w1))).
Proof.
  destruct (normalize_list_payload_cases payload keys)
    as (H1 & H2 & H3 & H4 & H5 & H6).
  do 6 (split; [done|]). split.
  - intros. by eapply fetch_rest_list_paged_loop_shape.
  - intros fuel srv enterprise teams page w w1 resp Hrl Hst Hbody.
    pose proof (metrics_teams_loop_handled srv enterprise fuel page w teams w1
                  Hrl) as Hloop.
    fold resp in Hloop. rewrite Hst, Hbody in Hloop. cbn [Z.eqb Pos.eqb negb] in Hloop.
    split; [|split; [|split]].
    + intros Ht. by rewrite Hloop, Ht.
    + intros d -> Hd Hnext. rewrite Hloop, Hnext. by destruct d.
    + intros l -> Hl Hnext. rewrite Hloop, Hnext. by destruct l.
    + intros z -> Hz. rewrite Hloop. cbn [Py.truthy].
      by destruct (Z.eqb_spec z 0).
Qed.

(** An envelope holding the items under its second known key. *)
Lemma normalize_list_payload_spec_witness :
  normalize_list_payload
    (JDict [("teams", JNull); ("items", JList [JNum 1]); ("data", JList [])])
    ["teams"; "items"; "data"] = Ok [JNum 1]
  ∧ normalize_list_payload (JDict [("total", JNum 3)]) ["teams"; "items"; "data"]
    = Raise (RuntimeError "Unsupported list payload shape: <class 'dict'>")
  ∧ normalize_list_payload (JStr "oops") ["teams"]
    = Raise (RuntimeError "Unsupported list payload shape: <class 'str'>")
  ∧ (TeamMetrics.fetch_enterprise_teams 1 "acme" empty_object_srv world0).1
    = Ok [].
Proof.
  split; [|split; [|split]].
  - destruct (normalize_list_payload_spec
                (JDict [("teams", JNull); ("items", JList [JNum 1]);
                        ("data", JList [])])
                ["teams"; "items"; "data"]) as (_ & H & _).
    apply (H _ [JNum 1] eq_refl).
    exists ["teams"], "items", ["data"]. split; [reflexivity|].
    split; [|reflexivity]. constructor; [|constructor].
    intros v'. vm_compute. discriminate.
  - destruct (normalize_list_payload_spec (JDict [("total", JNum 3)])
                ["teams"; "items"; "data"]) as (_ & _ & H & _).
    apply (H _ eq_refl).
    repeat constructor; intros v; vm_compute; discriminate.
  - destruct (normalize_list_payload_spec (JStr "oops") ["teams"])
      as (_ & _ & _ & H & _).
    apply H; reflexivity.
  - destruct (normalize_list_payload_spec (JDict []) [])
      as (_ & _ & _ & _ & _ & _ & _ & H).
    destruct (H 0%nat empty_object_srv "acme" [] 1 world0
                (asked world0 (teams_url "acme") 1) eq_refl eq_refl eq_refl)
      as (Hempty & _).
    unfold TeamMetrics.fetch_enterprise_teams. by rewrite Hempty.
Defined.

(** ** is_active *)

(** C8.  [is_active] answers "active" exactly when its argument is a
    non-empty string that [fromisoformat] parses (after the "Z" rewrite) and
    no more than 30 days have elapsed since it; otherwise it answers
    "inactive" and nothing is raised.  Exactly 30 days gives "active", 31 days
    "inactive", a missing (null or empty) or unparsable timestamp
    "inactive". *)
Theorem is_active_spec (clk : Clock) (last_activity_at : json) :
  (is_active clk last_activity_at = "active" ↔
   ∃ s last, last_activity_at = JStr s ∧ s ≠ ""
             ∧ fromisoformat clk (PyStr.replace "Z" "+00:00" s) = Some last
             ∧ elapsed clk last ≤ 30 * one_day)
  ∧ (is_active clk last_activity_at = "active"
     ∨ is_active clk last_activity_at = "inactive")
  ∧ (∀ s last, last_activity_at = JStr s → s ≠ "" →
       fromisoformat clk (PyStr.replace "Z" "+00:00" s) = Some last →
       (elapsed clk last = 30 * one_day →
        is_active clk last_activity_at = "active")
       ∧ (elapsed clk last = 31 * one_day →
          is_active clk last_activity_at = "inactive"))
  ∧ (last_activity_at = JNull ∨ last_activity_at = JStr "" →
       is_active clk last_activity_at = "inactive")
  ∧ (∀ s, last_activity_at = JStr s →
       fromisoformat clk (PyStr.replace "Z" "+00:00" s) = None →
       is_active clk last_activity_at = "inactive")
  ∧ ((∀ s, last_activity_at ≠ JStr s) →
       is_active clk last_activity_at = "inactive").
Proof.
  assert (Hstr : ∀ s last, s ≠ "" →
            fromisoformat clk (PyStr.replace "Z" "+00:00" s) = Some last →
            is_active clk (JStr s)
            = if elapsed clk last <=? 30 * one_day then "active" else "inactive").
  { intros s last Hs Hp. unfold is_active, is_active_try. simpl.
    apply nonempty_true in Hs. rewrite Hs, Hp. simpl. reflexivity. }
  split; [|split; [|split; [|split; [|split]]]].
  - split.
    + unfold is_active.
      destruct (Py.truthy last_activity_at) eqn:Ht; simpl; [|done].
      destruct last_activity_at as [| | |s| |]; simpl; try done.
      destruct (fromisoformat clk (PyStr.replace "Z" "+00:00" s))
        as [last|] eqn:Hp; simpl; [|done].
      fold (elapsed clk last).
      destruct (Z.leb_spec (elapsed clk last) thirty_days); [|done].
      intros _. exists s, last. simpl in Ht. apply nonempty_true in Ht.
      repeat split; try done.
    + intros (s & last & -> & Hs & Hp & He). rewrite (Hstr s last Hs Hp).
      apply Z.leb_le in He. by rewrite He.
  - unfold is_active. destruct (Py.truthy last_activity_at); simpl; [|by right].
    destruct last_activity_at as [| | |s| |]; simpl; try (by right).
    destruct (fromisoformat clk _); simpl; [|by right].
    destruct (_ <=? _); [by left|by right].
  - intros s last -> Hs Hp. rewrite (Hstr s last Hs Hp). split; intros ->.
    + reflexivity.
    + reflexivity.
  - by intros [->| ->].
  - intros s -> Hp. unfold is_active, is_active_try. rewrite Hp.
    by destruct (Py.truthy (JStr s)).
  - intros Hn. unfold is_active.
    destruct (Py.truthy last_activity_at); simpl; [|done].
    destruct last_activity_at; simpl; try done. by destruct (Hn s).
Qed.

Lemma is_active_spec_witness :
  is_active (fixed_clock (30 * one_day)) (JStr "2024-01-01T00:00:00Z") = "active"
  ∧ is_active (fixed_clock (31 * one_day)) (JStr "2024-01-01T00:00:00Z") = "inactive"
  ∧ is_active (fixed_clock 0) (JStr "yesterday") = "inactive".
Proof.
  split; [|split].
  - destruct (is_active_spec (fixed_clock (30 * one_day))
                (JStr "2024-01-01T00:00:00Z")) as (_ & _ & H & _).
    apply (H _ {| wall := 0; tzinfo := Some 0 |} eq_refl);
      [discriminate | reflexivity | reflexivity].
  - destruct (is_active_spec (fixed_clock (31 * one_day))
                (JStr "2024-01-01T00:00:00Z")) as (_ & _ & H & _).
    apply (H _ {| wall := 0; tzinfo := Some 0 |} eq_refl);
      [discriminate | reflexivity | reflexivity].
  - destruct (is_active_spec (fixed_clock 0) (JStr "yesterday"))
      as (_ & _ & _ & _ & H & _).
    apply (H _ eq_refl). reflexivity.
Defined.

(** ** build_scim_index *)

Lemma index_keys_loop_lookup (r : ScimRec) (l : list string)
    (idx : gmap string ScimRec) (k : string) :
  foldl (index_key r) idx l !! k
  = match idx !! k with
    | Some v => Some v
    | None => if decide (k ≠ "" ∧ k ∈ l) then Some r else None
    end.
Proof.
  revert idx. induction l as [|x l IH]; intros idx; simpl.
  - destruct (idx !! k); [done|]. case_decide as H; [|done].
    destruct H as [_ H]. by apply elem_of_nil in H.
  - rewrite IH. unfold index_key at 1.
    destruct (PyStr.nonempty x) eqn:Hx; simpl.
    + apply nonempty_true in Hx. unfold setdefault.
      destruct (idx !! x) eqn:Hix.
      * destruct (idx !! k) eqn:Hik; [done|].
        assert (k ≠ x) by congruence.
        repeat case_decide; try done; rewrite elem_of_cons in *; naive_solver.
      * destruct (decide (k = x)) as [->|Hne].
        -- rewrite lookup_insert_eq, Hix. rewrite decide_True; [done|].
           split; [done|left].
        -- rewrite lookup_insert_ne by done. destruct (idx !! k); [done|].
           repeat case_decide; try done; rewrite elem_of_cons in *; naive_solver.
    + apply nonempty_false in Hx. subst x. destruct (idx !! k); [done|].
      repeat case_decide; try done; rewrite elem_of_cons in *; naive_solver.
Qed.

Lemma index_user_lookup (cfg : Config) (idx : gmap string ScimRec) (u : json)
    (k : string) :
  index_user cfg idx u !! k
  = match idx !! k with
    | Some v => Some v
    | None => if decide (k ≠ "" ∧ k ∈ keys_of cfg u)
              then Some (record_of u) else None
    end.
Proof.
  destruct u; simpl;
    try (destruct (idx !! k); [done|]; case_decide as H; [|done];
         destruct H as [_ H]; by apply not_elem_of_empty in H).
  rewrite index_keys_loop_lookup. destruct (idx !! k); [done|].
  repeat case_decide; try done; rewrite elem_of_elements in *; naive_solver.
Qed.

Lemma index_users_lookup (cfg : Config) (users : list json)
    (idx : gmap string ScimRec) (k : string) :
  foldl (index_user cfg) idx users !! k
  = match idx !! k with
    | Some v => Some v
    | None => if decide (k = "") then None else first_claimant cfg k users
    end.
Proof.
  revert idx. induction users as [|u users IH]; intros idx; simpl.
  - destruct (idx !! k); [done|]. by case_decide.
  - rewrite IH, index_user_lookup. destruct (idx !! k); [done|].
    repeat case_decide; try done; naive_solver.
Qed.

Lemma first_claimant_Some (cfg : Config) (k : string) (users : list json)
    (pre post : list json) (u : json) :
  users = pre ++ u :: post →
  Forall (λ u', k ∉ keys_of cfg u') pre →
  k ∈ keys_of cfg u →
  first_claimant cfg k users = Some (record_of u).
Proof.
  intros -> Hpre Hu. induction Hpre as [|u' pre Hu' _ IH]; simpl.
  - by rewrite decide_True.
  - by rewrite decide_False.
Qed.

Lemma first_claimant_None (cfg : Config) (k : string) (users : list json) :
  Forall (λ u, k ∉ keys_of cfg u) users → first_claimant cfg k users = None.
Proof.
  induction 1 as [|u users Hu _ IH]; simpl; [done|]. by rewrite decide_False.
Qed.

(** C7, as stated, fails for the empty key: it is in the key set of the
    record, and the index does not map it. *)
Lemma build_scim_index_empty_key :
  "" ∈ keys_of newgen_cfg no_local_user
  ∧ build_scim_index newgen_cfg [no_local_user] !! "" = None
  ∧ build_scim_index newgen_cfg [no_local_user] !! "@x.com"
    = Some (record_of no_local_user).
Proof. vm_compute. done. Qed.

(** C7 (amended).  The identity index is first-write-wins on non-empty keys:
    a non-empty key is mapped to the identity fields of the first record, in
    input order, whose key set contains it, and is absent when no record has
    it; a record placed after never replaces an entry; the empty key is never
    entered. *)
Theorem build_scim_index_first_write_wins (cfg : Config) (scim_users : list json)
    (k : string) :
  (∀ pre u post,
     k ≠ "" → scim_users = pre ++ u :: post →
     Forall (λ u', k ∉ keys_of cfg u') pre → k ∈ keys_of cfg u →
     build_scim_index cfg scim_users !! k = Some (record_of u))
  ∧ (Forall (λ u, k ∉ keys_of cfg u) scim_users →
     build_scim_index cfg scim_users !! k = None)
  ∧ (∀ later v, build_scim_index cfg scim_users !! k = Some v →
                build_scim_index cfg (scim_users ++ later) !! k = Some v)
  ∧ build_scim_index cfg scim_users !! "" = None.
Proof.
  unfold build_scim_index. split; [|split; [|split]].
  - intros pre u post Hk Hsplit Hpre Hu.
    rewrite index_users_lookup, lookup_empty, decide_False by done.
    by eapply first_claimant_Some.
  - intros Hnone. rewrite index_users_lookup, lookup_empty.
    case_decide; [done|]. by apply first_claimant_None.
  - intros later v Hv. rewrite foldl_app, index_users_lookup. by rewrite Hv.
  - rewrite index_users_lookup, lookup_empty. by rewrite decide_True.
Qed.

(** Two records claim "schander": the one seen first keeps it. *)
Lemma build_scim_index_first_write_wins_witness :
  build_scim_index newgen_cfg [chander; impostor] !! "schander"
  = Some {| scim_name := "S Chander"; scim_email := "s.chander@co.com";
            scim_userName := "" |}
  ∧ "schander" ∈ keys_of newgen_cfg impostor.
Proof.
  split; [|by vm_compute].
  destruct (build_scim_index_first_write_wins newgen_cfg [chander; impostor]
              "schander") as (H & _).
  apply (H [] chander [impostor]);
    [discriminate | reflexivity | constructor | by vm_compute].
Defined.

(** ** fetch_all_scim_users *)

(** A GET answered at once by a status outside the retry set costs one
    request and no sleep. *)
Lemma gh_get_pass (srv : Server) (url headers : string)
    (params : list (string * Z)) (w : World) :
  retryable (status_code (srv (length (sent w)))) = false →
  gh_get srv url headers params w
  = (Ok (Some (srv (length (sent w)))),
     {| sent := sent w ++ [{| req_url := url; req_accept := headers;
                              req_params := params |}];
        slept := slept w; clock := clock w; logged := logged w |}).
Proof.
  intros Hr. unfold gh_get. change (seqZ 1 6) with [1; 2; 3; 4; 5; 6].
  cbn [gh_get_loop]. unfold mbind at 1, Run_bind at 1, run_bind at 1, Http.get at 1.
  by rewrite Hr.
Qed.

Lemma scim_page_fields (resources : list json) (total_results : option Z)
    (items_per_page : option Z) :
  let d := scim_page_bindings resources total_results items_per_page in
  Py.dict_get d "Resources" = Some (JList resources)
  ∧ Py.dict_get d "totalResults" = JNum <$> total_results
  ∧ Py.dict_get d "itemsPerPage" = JNum <$> items_per_page.
Proof. destruct total_results, items_per_page; repeat split; reflexivity. Qed.

Lemma scim_page_wellformed (resources : list json) (total_results : option Z)
    (items_per_page : option Z) (start_index : Z) (users : list json) :
  scim_page (scim_page_json resources total_results items_per_page)
    start_index users
  = Ok (users ++ resources,
        if page_size resources items_per_page <=? 0 then None
        else if default 0 total_results
                <? start_index + page_size resources items_per_page
             then None
             else Some (start_index + page_size resources items_per_page)).
Proof.
  assert (Hlen : ∀ n : nat,
            PyDyn.int (Py.or (JNum (Z.of_nat n)) (JNum 0)) = Ok (Z.of_nat n)).
  { intros [|n]; reflexivity. }
  destruct (scim_page_fields resources total_results items_per_page)
    as (Hres & Htot & Hipp).
  unfold scim_page, scim_page_json, reported_total, effective_items_per_page.
  change (Py.or (JDict (scim_page_bindings resources total_results items_per_page))
                (JDict []))
    with (JDict (scim_page_bindings resources total_results items_per_page)).
  unfold PyDyn.get. rewrite Hres, Htot, Hipp. clear Hres Htot Hipp.
  unfold page_size.
  assert (Hor : Py.or (JList resources) (JList []) = JList resources)
    by (by destruct resources).
  simpl. rewrite Hor. simpl.
  assert (Htotal : PyDyn.int (Py.or (default JNull (JNum <$> total_results)) (JNum 0))
                   = Ok (default 0 total_results)).
  { destruct total_results as [t|]; [|done]. unfold Py.or. simpl.
    by destruct (Z.eqb_spec t 0) as [->|]. }
  rewrite Htotal. simpl.
  destruct items_per_page as [p|]; simpl.
  - destruct (Z.eqb_spec p 0) as [->|Hp]; simpl; [rewrite Hlen|]; simpl;
      by repeat case_match.
  - rewrite Hlen. simpl. by repeat case_match.
Qed.

Lemma outcome_bind_Ok {A B : Type} (a : A) (f : A → outcome B) :
  Ok a ≫= f = f a.
Proof. reflexivity. Qed.

Lemma get_or_dict (d : list (string * json)) (k : string) (dflt : json) :
  PyDyn.get_or (JDict d) k dflt = Ok (default dflt (Py.dict_get d k)).
Proof. reflexivity. Qed.

Lemma lift_Ok {S A : Type} (a : A) (s : S) : lift (Ok a) s = (Ok a, s).
Proof. reflexivity. Qed.

Lemma get_no_fuel (v : json) (k : string) : PyDyn.get v k ≠ OutOfFuel.
Proof. by destruct v. Qed.

Lemma get_or_no_fuel (v : json) (k : string) (dflt : json) :
  PyDyn.get_or v k dflt ≠ OutOfFuel.
Proof. by destruct v. Qed.

Lemma iter_no_fuel (v : json) : PyDyn.iter v ≠ OutOfFuel.
Proof. by destruct v. Qed.

Lemma len_no_fuel (v : json) : PyDyn.len v ≠ OutOfFuel.
Proof. by destruct v. Qed.

Lemma strip_no_fuel (v : json) : PyDyn.strip v ≠ OutOfFuel.
Proof. by destruct v. Qed.

(** Splits a pure bind on the outcome of its first step. *)
Ltac step_outcome H :=
  match type of H with
  | context [@mbind outcome _ _ _ _ ?o] =>
      let E := fresh "E" in
      destruct o eqn:E; cbn [mbind outcome_mbind outcome_bind] in H;
      try discriminate H
  end.

Lemma reported_total_no_fuel (payload : json) :
  reported_total payload ≠ OutOfFuel.
Proof.
  unfold reported_total. intros H. step_outcome H.
  - by apply int_no_fuel in H.
  - by apply get_no_fuel in E.
Qed.

Lemma effective_items_per_page_no_fuel (payload resources : json) :
  effective_items_per_page payload resources ≠ OutOfFuel.
Proof.
  unfold effective_items_per_page. intros H. step_outcome H.
  - step_outcome H.
    + by apply int_no_fuel in H.
    + destruct (Py.truthy a); [done|]. step_outcome E0.
      by apply len_no_fuel in E1.
  - by apply get_no_fuel in E.
Qed.

Lemma scim_page_no_fuel (payload : json) (start_index : Z) (users : list json) :
  scim_page payload start_index users ≠ OutOfFuel.
Proof.
  unfold scim_page. intros H. step_outcome H.
  - step_outcome H.
    + step_outcome H.
      * step_outcome H.
        -- by repeat case_match.
        -- by apply effective_items_per_page_no_fuel in E2.
      * by apply reported_total_no_fuel in E1.
    + by apply iter_no_fuel in E0.
  - by apply get_no_fuel in E.
Qed.

(** When a page makes the loop go on, the next index is larger than the
    current one and within the total the page reports. *)
Lemma scim_page_continue (payload : json) (start_index : Z)
    (users users' : list json) (next : Z) :
  scim_page payload start_index users = Ok (users', Some next) →
  ∃ t, reported_total (Py.or payload (JDict [])) = Ok t
       ∧ start_index < next ≤ t.
Proof.
  unfold scim_page. intros H. do 3 step_outcome H. exists a1. split; [done|].
  step_outcome H.
  destruct (Z.leb_spec a2 0); [done|].
  destruct (Z.ltb_spec a1 (start_index + a2)); [done|].
  cbn in H. injection H as _ <-. lia.
Qed.

Section ScimTermination.
Variable cfg : Config.
Variable srv : Server.
Variable T : Z.

(** No page of the server reports more than [T] results in total. *)
Hypothesis totals_bounded :
  ∀ n payload t, body (srv n) = Some payload →
                 reported_total (Py.or payload (JDict [])) = Ok t → t ≤ T.

Lemma fetch_all_scim_users_loop_terminates (fuel : nat) :
  ∀ (start_index count : Z) (users : list json) (w : World),
    (1 ≤ fuel)%nat → T - start_index + 2 ≤ Z.of_nat fuel →
    (fetch_all_scim_users_loop fuel cfg srv start_index count users w).1
    ≠ OutOfFuel.
Proof.
  induction fuel as [|fuel IH]; intros start_index count users w Hf HT; [lia|].
  cbn [fetch_all_scim_users_loop]. rewrite run_bind_eq.
  destruct (gh_get_outcome srv (scim_url cfg) HEADERS_SCIM
              [("startIndex", start_index); ("count", count)] w)
    as (w' & _ & [(resp & Hget & Hresp)|(e & Hget)]);
    rewrite Hget; [|done].
  cbn [the_response]. rewrite run_bind_eq. cbn [mret Run_ret run_ret].
  rewrite run_bind_eq.
  destruct (raise_for_status_cases resp w') as [[-> _]|(msg & -> & _)]; [|done].
  rewrite run_bind_eq. unfold Http.json_of.
  destruct (body resp) as [payload|] eqn:Hbody; [|done].
  cbn [mret Run_ret run_ret]. rewrite run_bind_eq. unfold lift.
  destruct (scim_page payload start_index users) as [[users' [next|]]| |] eqn:Hpage;
    [|done|done|].
  - apply scim_page_continue in Hpage as (t & Ht & Hlt).
    assert (t ≤ T) by (eapply totals_bounded; [|exact Ht]; by rewrite <- Hresp).
    apply IH; lia.
  - by apply scim_page_no_fuel in Hpage.
Qed.

End ScimTermination.

(** C5, as stated, fails: the first page reports [itemsPerPage = 0] and the
    collection goes on to a second page, the page size falling back on the
    number of resources received. *)
Lemma fetch_all_scim_users_zero_items_per_page :
  let '(r, w) := fetch_all_scim_users 10 newgen_cfg zero_page_size_srv world0 in
  r = Ok [chander; impostor] ∧ length (sent w) = 2%nat.
Proof. vm_compute. done. Qed.

(** Against it the collection never stops: every amount of fuel runs out. *)
Lemma fetch_all_scim_users_can_diverge (cfg : Config) (fuel : nat) :
  (fetch_all_scim_users fuel cfg growing_srv world0).1 = OutOfFuel.
Proof.
  unfold fetch_all_scim_users.
  change 1 with (Z.of_nat (length (sent world0)) + 1).
  generalize (@nil json) as users. generalize world0 as w.
  induction fuel as [|fuel IH]; intros w users; [done|].
  cbn [fetch_all_scim_users_loop]. rewrite run_bind_eq.
  rewrite gh_get_pass by done. cbn [the_response].
  rewrite run_bind_eq. cbn [mret Run_ret run_ret]. rewrite run_bind_eq.
  match goal with
  | |- context [Http.raise_for_status ?r ?w'] =>
      destruct (raise_for_status_cases r w')
        as [[-> _]|(msg & _ & Hst)]; [|simpl in Hst; lia]
  end.
  rewrite run_bind_eq. unfold Http.json_of. cbn [body growing_srv ok_response].
  cbn [mret Run_ret run_ret]. rewrite run_bind_eq. unfold lift.
  rewrite scim_page_wellformed. unfold page_size.
  change (1 =? 0) with false. cbn [default from_option id].
  change (1 <=? 0) with false.
  destruct (Z.ltb_spec (Z.of_nat (length (sent w)) + 5)
                       (Z.of_nat (length (sent w)) + 1 + 1)); [lia|].
  match goal with
  | |- (fetch_all_scim_users_loop _ _ _ _ _ ?u ?w').1 = _ =>
      specialize (IH w' u)
  end.
  simpl in IH. rewrite length_app in IH. simpl in IH.
  replace (Z.of_nat (length (sent w) + 1) + 1)
    with (Z.of_nat (length (sent w)) + 1 + 1) in IH by lia.
  exact IH.
Qed.

(** C5 (amended).  After each page the directory collection takes as page
    size the reported [itemsPerPage] or, when that is zero or absent, the
    number of resources on the page; it stops when this size is not positive
    or when [startIndex] advanced by it exceeds the [totalResults] of the
    page, and goes on from the advanced index otherwise.  A first page that
    reports [itemsPerPage = 0], or omits it, and carries no resource ends the
    collection after that single request.  Whenever the totals reported by
    the server stay below a bound T, the collection ends within T + 1 pages. *)
Theorem fetch_all_scim_users_terminates (cfg : Config) (srv : Server) :
  (∀ resources total items_per_page start_index users,
     scim_page (scim_page_json resources total items_per_page) start_index users
     = Ok (users ++ resources,
           if (page_size resources items_per_page <=? 0)
              || (default 0 total <? start_index + page_size resources items_per_page)
           then None
           else Some (start_index + page_size resources items_per_page)))
  ∧ (∀ fuel w total items_per_page,
       status_code (srv (length (sent w))) = 200 →
       body (srv (length (sent w))) = Some (scim_page_json [] total items_per_page) →
       items_per_page = None ∨ items_per_page = Some 0 →
       ∃ w', fetch_all_scim_users (S fuel) cfg srv w = (Ok [], w')
             ∧ length (sent w') = S (length (sent w)))
  ∧ (∀ T w,
       (∀ n payload t, body (srv n) = Some payload →
                       reported_total (Py.or payload (JDict [])) = Ok t → t ≤ T) →
       (fetch_all_scim_users (Z.to_nat (Z.max T 0) + 1) cfg srv w).1 ≠ OutOfFuel).
Proof.
  split; [|split].
  - intros. rewrite scim_page_wellformed. by repeat case_match.
  - intros fuel w total ipp Hst Hbody Hipp.
    unfold fetch_all_scim_users. cbn [fetch_all_scim_users_loop].
    rewrite run_bind_eq, gh_get_pass by (by rewrite Hst).
    cbn [the_response]. rewrite run_bind_eq. cbn [mret Run_ret run_ret].
    rewrite run_bind_eq.
    match goal with
    | |- context [Http.raise_for_status ?r ?w'] =>
        destruct (raise_for_status_cases r w')
          as [[-> _]|(msg & _ & Hbad)]; [|rewrite Hst in Hbad; lia]
    end.
    rewrite run_bind_eq. unfold Http.json_of. rewrite Hbody.
    cbn [mret Run_ret run_ret]. rewrite run_bind_eq. unfold lift.
    rewrite scim_page_wellformed.
    assert (page_size [] ipp = 0) as -> by (by destruct Hipp as [-> | ->]).
    simpl. eexists. split; [reflexivity|]. simpl. rewrite length_app. simpl. lia.
  - intros T w Hbound. unfold fetch_all_scim_users.
    apply (fetch_all_scim_users_loop_terminates cfg srv T Hbound); lia.
Qed.

Lemma fetch_all_scim_users_terminates_witness :
  (fetch_all_scim_users 2 newgen_cfg one_page_srv world0).1 ≠ OutOfFuel
  ∧ ∃ w', fetch_all_scim_users 1 newgen_cfg empty_page_srv world0 = (Ok [], w')
          ∧ length (sent w') = 1%nat.
Proof.
  split.
  - destruct (fetch_all_scim_users_terminates newgen_cfg one_page_srv)
      as (_ & _ & H).
    apply (H 1 world0). intros n payload t [= <-] Ht.
    vm_compute in Ht. injection Ht as <-. lia.
  - destruct (fetch_all_scim_users_terminates newgen_cfg empty_page_srv)
      as (_ & H & _).
    apply (H 0%nat world0 (Some 7) (Some 0)); [reflexivity|reflexivity|by right].
Defined.

(** ** Access errors while paging *)

(** C2, as stated, fails three times.  A 403 on a page request of
    [fetch_rest_list_paged] is retried by [gh_get], and the collection then
    succeeds; a 404 on the metrics endpoint is logged and turned into an
    empty result; and the error raised for a 404 on the seat endpoint names
    the URL of the answer, which after a redirect is not the seat endpoint. *)
Lemma paged_collection_403_retried_404_swallowed :
  (let '(r, w) := fetch_rest_list_paged 3 forbidden_once_srv "u" HEADERS_JSON
                    ["teams"; "items"; "data"] 100 [] world0 in
   r = Ok [] ∧ length (sent w) = 2%nat ∧ slept w = [2])
  ∧ (let '(r, w) := TeamMetrics.fetch_team_metrics 3 "acme" not_found_srv
                      "core" world0 in
     r = Ok [] ∧ length (sent w) = 1%nat
     ∧ logged w = ["Metrics endpoint not found for team core (404)."])
  ∧ (main 5 newgen_cfg (fixed_clock 0) redirected_404_srv world0).1
    = Raise (HTTPError
               "404 Client Error: Not Found for url: https://github.example.com/sso"
               (redirected_404_srv 1%nat)).
Proof. vm_compute. done. Qed.

Lemma fetch_rest_list_paged_loop_access (fuel : nat) (srv : Server)
    (url headers : string) (keys : list string) (per_page : Z)
    (extra_params : list (string * Z)) (out : list json) (page : Z)
    (w w' : World) (resp : Response) :
  gh_get srv url headers (paged_params extra_params per_page page) w
  = (Ok (Some resp), w') →
  status_code resp = 403 ∨ status_code resp = 404 →
  fetch_rest_list_paged_loop (S fuel) srv url headers keys per_page
    extra_params out page w
  = (Raise (access_error url resp), w').
Proof.
  intros Hget Hst. cbn [fetch_rest_list_paged_loop]. cbv zeta.
  rewrite run_bind_eq, Hget. cbn [the_response].
  rewrite run_bind_eq. cbn [mret Run_ret run_ret].
  rewrite bool_decide_eq_true_2; [done|].
  rewrite !elem_of_cons. tauto.
Qed.

Lemma fetch_seat_pages_404 (fuel : nat) (cfg : Config) (srv : Server)
    (per_page : Z) (all_seats : list json) (page : Z) (w : World) :
  status_code (srv (length (sent w))) = 404 →
  fetch_seat_pages (S fuel) cfg srv per_page all_seats page w
  = (Raise (HTTPError ("404 Client Error: " +:+ reason (srv (length (sent w)))
                       +:+ " for url: " +:+ resp_url (srv (length (sent w))))
                      (srv (length (sent w)))),
     {| sent := sent w ++ [{| req_url := seats_url cfg;
                              req_accept := HEADERS_JSON;
                              req_params := [("per_page", per_page);
                                             ("page", page)] |}];
        slept := slept w; clock := clock w; logged := logged w |}).
Proof.
  intros Hst. cbn [fetch_seat_pages].
  rewrite run_bind_eq, gh_get_pass by (by rewrite Hst).
  cbn [the_response]. rewrite run_bind_eq. cbn [mret Run_ret run_ret].
  rewrite run_bind_eq. unfold Http.raise_for_status. rewrite Hst. reflexivity.
Qed.

Lemma main_seat_failure (fuel : nat) (cfg : Config) (clk : Clock) (srv : Server)
    (w w1 w2 : World) (scim_users : list json) (e : exn) :
  fetch_all_scim_users fuel cfg srv w = (Ok scim_users, w1) →
  fetch_copilot_billing_seats_by_login fuel cfg srv w1 = (Raise e, w2) →
  main fuel cfg clk srv w = (Raise e, w2).
Proof.
  intros Hscim Hseats. unfold main. rewrite run_bind_eq, Hscim.
  by rewrite run_bind_eq, Hseats.
Qed.

(** Of the answers received during one [gh_get], only the one handed back
    can be a 404. *)
Lemma gh_get_404 (srv : Server) (url headers : string)
    (params : list (string * Z)) (w : World) :
  ∃ o w1,
    gh_get srv url headers params w = (o, w1)
    ∧ (length (sent w) < length (sent w1))%nat
    ∧ ∀ i, (length (sent w) ≤ i < length (sent w1))%nat →
           status_code (srv i) = 404 → o = Ok (Some (srv i)).
Proof.
  destruct (gh_get_run srv url headers params w)
    as (n & waits & o & w1 & Hget & Hn & Hsent & _ & _ & Hpre & _ & Hend).
  exists o, w1. split; [done|].
  assert (Hlen : length (sent w1) = (length (sent w) + n)%nat).
  { by rewrite Hsent, length_app, length_replicate. }
  split; [lia|]. intros i Hi Hst.
  destruct (decide (i = length (sent w) + n - 1)%nat) as [->|Hne].
  - destruct Hend as [(-> & _)|(e & _ & Hr & _)]; [done|].
    rewrite Hst in Hr. discriminate Hr.
  - specialize (Hpre (i - length (sent w))%nat).
    replace (length (sent w) + (i - length (sent w)))%nat with i in Hpre by lia.
    rewrite Hst in Hpre. discriminate Hpre. lia.
Qed.

(** A status of the retry set is handed back only as the answer to the sixth
    attempt, after six waits. *)
Lemma gh_get_hands_back_retryable (srv : Server) (url headers : string)
    (params : list (string * Z)) (w w' : World) (resp : Response) :
  gh_get srv url headers params w = (Ok (Some resp), w') →
  retryable (status_code resp) = true →
  length (sent w') = (length (sent w) + 6)%nat
  ∧ length (slept w') = (length (slept w) + 6)%nat
  ∧ resp = srv (length (sent w) + 5)%nat
  ∧ ∀ i, (i < 6)%nat →
         retryable (status_code (srv (length (sent w) + i)%nat)) = true.
Proof.
  intros Hget Hr.
  destruct (gh_get_run srv url headers params w)
    as (n & waits & o & w1 & Hrun & Hn & Hsent & Hsl & _ & Hpre & _ & Hend).
  rewrite Hget in Hrun. injection Hrun as <- <-.
  destruct Hend as [(Ho & Hlast & Hlen)|(e & Ho & _)]; [|done].
  injection Ho as ->. rewrite Hr in Hlen, Hlast.
  assert (n = 6%nat) as ->.
  { destruct (decide (n < 6)%nat) as [Hlt|]; [|lia]. by specialize (Hlast Hlt). }
  rewrite Hsent, Hsl, !length_app, length_replicate, Hlen.
  do 2 (split; [done|]). split; [f_equal; lia|]. intros i Hi.
  destruct (decide (i < 5)%nat) as [Hlt|]; [by apply Hpre|].
  replace i with 5%nat by lia.
  by replace (length (sent w) + 5)%nat with (length (sent w) + 6 - 1)%nat by lia.
Qed.

(** An answer of the retry set to the first attempt is followed by a wait
    and a second attempt. *)
Lemma gh_get_second_attempt (srv : Server) (url headers : string)
    (params : list (string * Z)) (w : World) (t : Z) :
  retryable (status_code (srv (length (sent w)))) = true →
  taken_wait (srv (length (sent w))) 1 = Ok t →
  retryable (status_code (srv (S (length (sent w))))) = false →
  gh_get srv url headers params w
  = (Ok (Some (srv (S (length (sent w))))),
     {| sent := sent w ++ replicate 2 {| req_url := url; req_accept := headers;
                                         req_params := params |};
        slept := slept w ++ [t]; clock := clock w + t; logged := logged w |}).
Proof.
  intros Hr Ht Hnext. unfold gh_get.
  change (seqZ 1 6) with [1; 2; 3; 4; 5; 6]. cbn [gh_get_loop].
  rewrite run_bind_eq. unfold Http.get at 1. rewrite Hr, wait_and_sleep, Ht.
  rewrite run_bind_eq. unfold Http.get at 1. cbn [sent slept clock logged].
  rewrite length_app. simpl length. rewrite Nat.add_1_r, Hnext.
  cbn [mret Run_ret run_ret replicate]. by rewrite <- app_assoc.
Qed.

Lemma raise_for_status_404 (resp : Response) (w : World) :
  status_code resp = 404 →
  Http.raise_for_status resp w = (Raise (not_found_error resp), w).
Proof. intros Hst. unfold Http.raise_for_status. by rewrite Hst. Qed.

Section Paging404.
Variable srv : Server.

Lemma fetch_rest_list_paged_loop_404 (url headers : string)
    (keys : list string) (per_page : Z) (extra_params : list (string * Z))
    (fuel : nat) :
  ∀ (out : list json) (page : Z) (w w' : World) (r : outcome (list json)),
    fetch_rest_list_paged_loop fuel srv url headers keys per_page
      extra_params out page w = (r, w') →
    ∀ i, (length (sent w) ≤ i < length (sent w'))%nat →
         status_code (srv i) = 404 →
         r = Raise (access_error url (srv i)).
Proof.
  induction fuel as [|fuel IH]; intros out page w w' r.
  { intros [= <- <-] i Hi. lia. }
  cbn [fetch_rest_list_paged_loop]. cbv zeta. rewrite run_bind_eq.
  destruct (gh_get_404 srv url headers
              (paged_params extra_params per_page page) w)
    as (o & w1 & -> & Hlt & Ho).
  destruct o as [[resp|]|e|];
    try (intros [= <- <-] i Hi Hst; by specialize (Ho i Hi Hst)).
  assert (H404 : ∀ i, (length (sent w) ≤ i < length (sent w1))%nat →
                      status_code (srv i) = 404 → srv i = resp).
  { intros i Hi Hst. specialize (Ho i Hi Hst). by injection Ho as ->. }
  cbn [the_response]. rewrite run_bind_eq. cbn [mret Run_ret run_ret].
  case_bool_decide as Hacc.
  { intros [= <- <-] i Hi Hst. by rewrite (H404 i Hi Hst). }
  assert (Hend : ∀ i, (length (sent w) ≤ i < length (sent w1))%nat →
                      status_code (srv i) = 404 → False).
  { intros i Hi Hst. apply Hacc. rewrite <- (H404 i Hi Hst), Hst.
    rewrite !elem_of_cons. tauto. }
  rewrite run_bind_eq.
  destruct (raise_for_status_cases resp w1) as [[-> _]|(msg & -> & _)];
    [|intros [= <- <-] i Hi Hst; by destruct (Hend i Hi Hst)].
  rewrite run_bind_eq. unfold Http.json_of.
  destruct (body resp) as [payload|];
    [|intros [= <- <-] i Hi Hst; by destruct (Hend i Hi Hst)].
  cbn [mret Run_ret run_ret]. rewrite run_bind_eq. unfold lift.
  destruct (normalize_list_payload payload keys) as [items| |];
    try (intros [= <- <-] i Hi Hst; by destruct (Hend i Hi Hst)).
  destruct (Z.of_nat (length items) <? per_page);
    [intros [= <- <-] i Hi Hst; by destruct (Hend i Hi Hst)|].
  intros Hrec i Hi Hst.
  destruct (decide (i < length (sent w1))%nat) as [Hin|Hout].
  - destruct (Hend i); [lia|done].
  - eapply IH; [exact Hrec| |done]. lia.
Qed.

Lemma fetch_seat_pages_loop_404 (cfg : Config) (per_page : Z) (fuel : nat) :
  ∀ (all_seats : list json) (page : Z) (w w' : World) (r : outcome (list json)),
    fetch_seat_pages fuel cfg srv per_page all_seats page w = (r, w') →
    ∀ i, (length (sent w) ≤ i < length (sent w'))%nat →
         status_code (srv i) = 404 →
         r = Raise (not_found_error (srv i)).
Proof.
  induction fuel as [|fuel IH]; intros all_seats page w w' r.
  { intros [= <- <-] i Hi. lia. }
  cbn [fetch_seat_pages]. rewrite run_bind_eq.
  destruct (gh_get_404 srv (seats_url cfg) HEADERS_JSON
              [("per_page", per_page); ("page", page)] w)
    as (o & w1 & -> & Hlt & Ho).
  destruct o as [[resp|]|e|];
    try (intros [= <- <-] i Hi Hst; by specialize (Ho i Hi Hst)).
  assert (H404 : ∀ i, (length (sent w) ≤ i < length (sent w1))%nat →
                      status_code (srv i) = 404 → srv i = resp).
  { intros i Hi Hst. specialize (Ho i Hi Hst). by injection Ho as ->. }
  cbn [the_response]. rewrite run_bind_eq. cbn [mret Run_ret run_ret].
  rewrite run_bind_eq.
  destruct (decide (status_code resp = 404)) as [Hnf|Hok].
  { rewrite raise_for_status_404 by done.
    intros [= <- <-] i Hi Hst. by rewrite (H404 i Hi Hst). }
  assert (Hend : ∀ i, (length (sent w) ≤ i < length (sent w1))%nat →
                      status_code (srv i) = 404 → False).
  { intros i Hi Hst. apply Hok. by rewrite <- (H404 i Hi Hst). }
  destruct (raise_for_status_cases resp w1) as [[-> _]|(msg & -> & _)];
    [|intros [= <- <-] i Hi Hst; by destruct (Hend i Hi Hst)].
  rewrite run_bind_eq. unfold Http.json_of.
  destruct (body resp) as [payload|];
    [|intros [= <- <-] i Hi Hst; by destruct (Hend i Hi Hst)].
  cbn [mret Run_ret run_ret]. rewrite run_bind_eq. unfold lift.
  destruct (PyDyn.get_or _ _ _) as [sv| |];
    try (intros [= <- <-] i Hi Hst; by destruct (Hend i Hi Hst)).
  rewrite run_bind_eq.
  destruct (PyDyn.iter _) as [items| |];
    try (intros [= <- <-] i Hi Hst; by destruct (Hend i Hi Hst)).
  rewrite run_bind_eq.
  destruct (PyDyn.len _) as [n| |];
    try (intros [= <- <-] i Hi Hst; by destruct (Hend i Hi Hst)).
  destruct (n <? per_page);
    [intros [= <- <-] i Hi Hst; by destruct (Hend i Hi Hst)|].
  intros Hrec i Hi Hst.
  destruct (decide (i < length (sent w1))%nat) as [Hin|Hout].
  - destruct (Hend i); [lia|done].
  - eapply IH; [exact Hrec| |done]. lia.
Qed.

Lemma fetch_copilot_billing_seats_404 (fuel : nat) (cfg : Config)
    (w w' : World) (r : outcome (gmap string (list (string * json)))) :
  fetch_copilot_billing_seats_by_login fuel cfg srv w = (r, w') →
  ∀ i, (length (sent w) ≤ i < length (sent w'))%nat →
       status_code (srv i) = 404 →
       r = Raise (not_found_error (srv i)).
Proof.
  unfold fetch_copilot_billing_seats_by_login. rewrite run_bind_eq.
  destruct (fetch_seat_pages fuel cfg srv 100 [] 1 w) as [r1 w1] eqn:Hpages.
  pose proof (fetch_seat_pages_loop_404 cfg 100 fuel [] 1 w w1 r1 Hpages) as H.
  destruct r1 as [all_seats| |].
  - unfold lift. intros [= <- <-] i Hi Hst. by specialize (H i Hi Hst).
  - intros [= <- <-] i Hi Hst. specialize (H i Hi Hst). by injection H as ->.
  - intros [= <- <-] i Hi Hst. by specialize (H i Hi Hst).
Qed.

End Paging404.

(** C2 (amended).  In [fetch_rest_list_paged] a response with status 403 or
    404 that the retrying client hands back makes the collection fail with an
    error carrying the status, the endpoint URL and the body text; a 404 is
    handed back as soon as it is received, so no run of the collection that
    receives one returns a result.  A 403 is retried first: it is handed back
    only as the answer to the sixth attempt, and one answered to the first
    attempt is followed by a wait and a second attempt whose answer, if not
    of the retry set, is the one handed back.  In the seat collection a 404
    received at any page is raised by [raise_for_status] and [main] fails
    with that error; it names the URL of the answer, which is the seat URL
    with its query string when the request was not redirected.  The
    collectors of the metrics script handle the rate limit first; when that
    step returns, a status other than 200 is logged and the entries gathered
    so far are returned, and when it raises the collector raises. *)
Theorem paged_collection_access_errors (srv : Server) :
  (∀ fuel url headers keys per_page extra_params out page w w' resp,
     gh_get srv url headers (paged_params extra_params per_page page) w
     = (Ok (Some resp), w') →
     status_code resp = 403 ∨ status_code resp = 404 →
     fetch_rest_list_paged_loop (S fuel) srv url headers keys per_page
       extra_params out page w
     = (Raise (HTTPError (pretty (status_code resp) +:+ " for " +:+ url
                          +:+ ": " +:+ text resp) resp), w'))
  ∧ (∀ fuel url headers keys per_page extra_params w w' r,
       fetch_rest_list_paged fuel srv url headers keys per_page extra_params w
       = (r, w') →
       ∀ i, (length (sent w) ≤ i < length (sent w'))%nat →
            status_code (srv i) = 404 →
            r = Raise (HTTPError ("404 for " +:+ url +:+ ": " +:+ text (srv i))
                                 (srv i)))
  ∧ (∀ url headers params w w' resp,
       gh_get srv url headers params w = (Ok (Some resp), w') →
       status_code resp = 403 →
       length (sent w') = (length (sent w) + 6)%nat
       ∧ length (slept w') = (length (slept w) + 6)%nat
       ∧ resp = srv (length (sent w) + 5)%nat
       ∧ ∀ i, (i < 6)%nat →
              retryable (status_code (srv (length (sent w) + i)%nat)) = true)
  ∧ (∀ url headers params w t,
       status_code (srv (length (sent w))) = 403 →
       taken_wait (srv (length (sent w))) 1 = Ok t →
       retryable (status_code (srv (S (length (sent w))))) = false →
       gh_get srv url headers params w
       = (Ok (Some (srv (S (length (sent w))))),
          {| sent := sent w ++ replicate 2 {| req_url := url;
                                              req_accept := headers;
                                              req_params := params |};
             slept := slept w ++ [t]; clock := clock w + t;
             logged := logged w |}))
  ∧ (∀ fuel cfg clk w w1 w2 scim_users r,
       fetch_all_scim_users fuel cfg srv w = (Ok scim_users, w1) →
       fetch_copilot_billing_seats_by_login fuel cfg srv w1 = (r, w2) →
       ∀ i, (length (sent w1) ≤ i < length (sent w2))%nat →
            status_code (srv i) = 404 →
            r = Raise (not_found_error (srv i))
            ∧ main fuel cfg clk srv w = (Raise (not_found_error (srv i)), w2))
  ∧ (∀ cfg resp page,
       resp_url resp
       = prepared_url (seats_url cfg) [("per_page", 100); ("page", page)] →
       not_found_error resp
       = HTTPError ("404 Client Error: " +:+ reason resp +:+ " for url: "
                    +:+ seats_url cfg +:+ "?per_page=100&page=" +:+ pretty page)
                   resp)
  ∧ (∀ fuel enterprise team_slug all_entries page w w1,
       let resp := srv (length (sent w)) in
       status_code resp ≠ 200 →
       (handle_rate_limit resp (asked w (metrics_url enterprise team_slug) page)
        = (Ok (), w1) →
        fetch_team_metrics_loop (S fuel) enterprise srv team_slug
          all_entries page w
        = (Ok all_entries, with_log w1 (metrics_error_line team_slug resp)))
       ∧ (∀ e,
            handle_rate_limit resp
              (asked w (metrics_url enterprise team_slug) page) = (Raise e, w1) →
            fetch_team_metrics_loop (S fuel) enterprise srv team_slug
              all_entries page w
            = (Raise e, w1)))
  ∧ (∀ fuel enterprise teams page w w1,
       let resp := srv (length (sent w)) in
       status_code resp ≠ 200 →
       (handle_rate_limit resp (asked w (teams_url enterprise) page)
        = (Ok (), w1) →
        fetch_enterprise_teams_loop (S fuel) enterprise srv teams page w
        = (Ok teams, with_log w1 (teams_error_line resp)))
       ∧ (∀ e,
            handle_rate_limit resp (asked w (teams_url enterprise) page)
            = (Raise e, w1) →
            fetch_enterprise_teams_loop (S fuel) enterprise srv teams page w
            = (Raise e, w1))).
Proof.
  split; [|split; [|split; [|split; [|split; [|split; [|split]]]]]].
  - intros. by apply fetch_rest_list_paged_loop_access.
  - intros fuel url headers keys per_page extra_params w w' r Hrun i Hi Hst.
    unfold fetch_rest_list_paged in Hrun.
    rewrite (fetch_rest_list_paged_loop_404 srv _ _ _ _ _ _ _ _ _ _ _ Hrun i Hi Hst).
    unfold access_error. by rewrite Hst.
  - intros url headers params w w' resp Hget Hst.
    eapply gh_get_hands_back_retryable; [exact Hget|]. by rewrite Hst.
  - intros url headers params w t Hst Ht Hnext.
    apply gh_get_second_attempt; [by rewrite Hst|done..].
  - intros fuel cfg clk w w1 w2 scim_users r Hscim Hseats i Hi Hst.
    pose proof (fetch_copilot_billing_seats_404 srv fuel cfg w1 w2 r Hseats
                  i Hi Hst) as ->.
    split; [done|]. by eapply main_seat_failure.
  - intros cfg resp page Hurl. unfold not_found_error. rewrite Hurl.
    unfold prepared_url, query_string. cbn [map Py.join fst snd].
    by f_equal.
  - intros fuel enterprise team_slug all_entries page w w1 resp Hst. split.
    + intros Hrl.
      rewrite (metrics_entries_loop_handled srv enterprise fuel page w
                 team_slug all_entries w1 Hrl).
      fold resp. by destruct (Z.eqb_spec (status_code resp) 200).
    + intros e Hrl. by apply metrics_entries_loop_raised.
  - intros fuel enterprise teams page w w1 resp Hst. split.
    + intros Hrl.
      rewrite (metrics_teams_loop_handled srv enterprise fuel page w teams w1
                 Hrl).
      fold resp. by destruct (Z.eqb_spec (status_code resp) 200).
    + intros e Hrl. by apply metrics_teams_loop_raised.
Qed.

Lemma paged_collection_access_errors_witness :
  (main 5 newgen_cfg (fixed_clock 0) seats_404_srv world0).1
  = Raise (HTTPError
             "404 Client Error: Not Found for url: https://api.github.com/enterprises/Newgen-EMU/copilot/billing/seats?per_page=100&page=2"
             (seats_404_srv 2%nat)).
Proof.
  destruct (paged_collection_access_errors seats_404_srv)
    as (_ & _ & _ & _ & H & Hurl & _).
  destruct (fetch_all_scim_users 5 newgen_cfg seats_404_srv world0)
    as [r1 w1] eqn:H1.
  destruct (fetch_copilot_billing_seats_by_login 5 newgen_cfg seats_404_srv w1)
    as [r2 w2] eqn:H2.
  vm_compute in H1. injection H1 as <- <-.
  destruct (H 5%nat newgen_cfg (fixed_clock 0) world0 _ w2 _ r2 eq_refl H2 2%nat)
    as [_ Hmain].
  - vm_compute in H2. injection H2 as _ <-. simpl. lia.
  - reflexivity.
  - rewrite Hmain. cbn [fst].
    by rewrite (Hurl newgen_cfg (seats_404_srv 2%nat) 2 eq_refl).
Defined.

(** ** The team/seat join *)

Section Join.
Variable cfg : Config.
Variable clk : Clock.
Variable scim_index : gmap string ScimRec.
Variable seats_by_login : gmap string (list (string * json)).

Lemma join_memberships_rows (team_name team_slug : string)
    (memberships : list json) :
  ∀ rows,
    foldl (join_membership cfg clk scim_index seats_by_login team_name team_slug)
      rows memberships
    = rows ++ map (make_row cfg clk scim_index seats_by_login team_name team_slug)
                  (logins_of memberships).
Proof.
  unfold logins_of.
  induction memberships as [|m ms IH]; intros rows; simpl.
  - by rewrite app_nil_r.
  - rewrite IH. unfold join_membership.
    destruct (PyStr.nonempty (parse_membership_login m)) eqn:Hl; simpl.
    + apply nonempty_true in Hl. rewrite filter_cons_True by done.
      simpl. by rewrite <- app_assoc.
    + apply nonempty_false in Hl. rewrite filter_cons_False; [done|].
      intros Hne. by apply Hne.
Qed.

Lemma make_row_unmatched (team_name team_slug login : string) :
  let row := make_row cfg clk scim_index seats_by_login team_name team_slug login in
  row_team_name row = team_name ∧ row_team_slug row = team_slug
  ∧ row_login row = login
  ∧ (scim_index !! PyStr.strip (PyStr.lower login) = None →
     row_name row = "" ∧ row_email row = "" ∧ row_scim_userName row = "")
  ∧ (seats_by_login !! login = None →
     row_copilot_assigned row = "no"
     ∧ row_copilot_status row = JStr "" ∧ row_plan_type row = JStr ""
     ∧ row_last_activity_at row = JStr "" ∧ row_seat_created_at row = JStr ""
     ∧ row_seat_updated_at row = JStr "" ∧ row_active_status row = "inactive").
Proof.
  simpl. do 3 (split; [done|]). split.
  - by intros ->.
  - by intros ->.
Qed.

Variable fuel : nat.
Variable srv : Server.

(** One turn of the loop over the teams completes exactly when the name and
    the slug of the team are read, and then either the slug is empty and
    nothing happens, or the memberships are fetched and give their rows. *)
Lemma join_team_completes (rows rows' : list Row) (t : json) (w w' : World) :
  join_team fuel cfg clk srv scim_index seats_by_login rows t w = (Ok rows', w')
  ↔ ∃ rd, team_string t ["name"; "display_name"; "slug"] = Ok (read_name rd)
          ∧ team_string t ["slug"; "team_slug"] = Ok (read_slug rd)
          ∧ (if decide (read_slug rd = "")
             then read_memberships rd = [] ∧ w' = w
             else fetch_enterprise_team_memberships fuel cfg srv (read_slug rd) w
                  = (Ok (read_memberships rd), w'))
          ∧ rows' = rows ++ team_rows cfg clk scim_index seats_by_login rd.
Proof.
  unfold join_team, team_rows. rewrite run_bind_eq. unfold lift at 1. split.
  - destruct (team_string t ["name"; "display_name"; "slug"]) as [team_name| |];
      try done.
    rewrite run_bind_eq. unfold lift at 1.
    destruct (team_string t ["slug"; "team_slug"]) as [team_slug| |];
      try done.
    destruct (PyStr.nonempty team_slug) eqn:Hne; cbn [negb].
    + apply nonempty_true in Hne. rewrite run_bind_eq.
      destruct (fetch_enterprise_team_memberships _ _ _ _ _) as [[ms| |] w1]
        eqn:Hfetch; try done.
      cbn [mret Run_ret run_ret]. intros [= <- <-].
      exists {| read_name := team_name; read_slug := team_slug;
                read_memberships := ms |}.
      cbn [read_name read_slug read_memberships].
      rewrite decide_False by done. do 3 (split; [done|]).
      apply join_memberships_rows.
    + apply nonempty_false in Hne. intros [= <- <-].
      exists {| read_name := team_name; read_slug := team_slug;
                read_memberships := [] |}.
      cbn [read_name read_slug read_memberships].
      rewrite decide_True by done. by rewrite app_nil_r.
  - intros ([team_name team_slug ms] & Hname & Hslug & Hfetch & ->).
    cbn [read_name read_slug read_memberships] in *.
    rewrite Hname, run_bind_eq. unfold lift at 1. rewrite Hslug.
    destruct (decide (team_slug = "")) as [->|Hne].
    + destruct Hfetch as [-> ->]. cbn. by rewrite app_nil_r.
    + apply nonempty_true in Hne. rewrite Hne. cbn [negb].
      rewrite run_bind_eq, Hfetch. cbn [mret Run_ret run_ret].
      by rewrite join_memberships_rows.
Qed.

Lemma join_teams_completes (teams : list json) :
  ∀ (rows rows' : list Row) (w w' : World),
    join_teams fuel cfg clk srv scim_index seats_by_login rows teams w
    = (Ok rows', w')
    ↔ ∃ reads, join_reads fuel cfg srv teams w reads w'
               ∧ rows' = rows
                   ++ flat_map (team_rows cfg clk scim_index seats_by_login)
                               reads.
Proof.
  induction teams as [|t teams IH]; intros rows rows' w w'.
  - cbn [join_teams mret Run_ret run_ret]. split.
    + intros [= <- <-]. exists []. by rewrite app_nil_r.
    + intros ([|rd reads] & Hreads & ->); [|done].
      simpl in Hreads. subst w'. by rewrite app_nil_r.
  - cbn [join_teams]. rewrite run_bind_eq. split.
    + destruct (join_team _ _ _ _ _ _ _ _ _) as [[rows1| |] w1] eqn:Ht;
        try done.
      intros Hrest.
      apply join_team_completes in Ht as (rd & Hname & Hslug & Hfetch & ->).
      apply IH in Hrest as (reads & Hreads & ->).
      exists (rd :: reads). split.
      * cbn [join_reads]. do 2 (split; [done|]).
        destruct (decide (read_slug rd = "")).
        -- destruct Hfetch as [Hms ->]. by split.
        -- by exists w1.
      * cbn [flat_map]. by rewrite <- app_assoc.
    + intros ([|rd reads] & Hreads & ->); [done|].
      cbn [join_reads] in Hreads. destruct Hreads as (Hname & Hslug & Hrest).
      assert (∃ w1,
                (if decide (read_slug rd = "")
                 then read_memberships rd = [] ∧ w1 = w
                 else fetch_enterprise_team_memberships fuel cfg srv
                        (read_slug rd) w = (Ok (read_memberships rd), w1))
                ∧ join_reads fuel cfg srv teams w1 reads w')
        as (w1 & Hfetch & Hreads).
      { destruct (decide (read_slug rd = "")).
        - destruct Hrest as [Hms Hrest]. by exists w.
        - destruct Hrest as (w1 & Hfetch & Hrest). by exists w1. }
      assert (Ht : join_team fuel cfg clk srv scim_index seats_by_login rows t w
                   = (Ok (rows ++ team_rows cfg clk scim_index seats_by_login rd),
                      w1)).
      { apply join_team_completes. by exists rd. }
      rewrite Ht. apply IH. exists reads. split; [done|].
      cbn [flat_map]. by rewrite <- app_assoc.
Qed.

End Join.

(** C3, as stated, fails: the membership record yields no login and no row
    is emitted for it; a team without a slug is skipped before its
    memberships are even fetched. *)
Lemma join_team_skips_membership_without_login :
  (let '(r, w) := join_team 3 newgen_cfg (fixed_clock 0) anonymous_member_srv
                    ∅ ∅ [] (JDict [("name", JStr "Core"); ("slug", JStr "core")])
                    world0 in
   r = Ok [] ∧ length (sent w) = 1%nat)
  ∧ (let '(r, w) := join_team 3 newgen_cfg (fixed_clock 0) anonymous_member_srv
                      ∅ ∅ [] (JDict [("name", JStr "Core")]) world0 in
     r = Ok [] ∧ length (sent w) = 0%nat).
Proof. vm_compute. done. Qed.

(** C3 (amended).  A run of the join over the teams completes exactly when,
    team by team, the name and the slug of the team are read as strings and
    the memberships of every team with a non-empty slug are fetched; the
    rows are then those of the teams in the order of the listing.  A team
    without slug gives no row and its memberships are not fetched; every
    other team gives exactly one row per membership record from which a
    login is extracted, in the order of the records, whether or not the
    login is matched, and none for the other records.  The report of [main]
    is the rows of the join over the teams listed, with the identity index
    built from the directory and the seats fetched.  A row carries the team
    and the login; its identity fields are blank when the lowercased login
    is not in the identity index, and when the login has no seat its seat
    fields are blank, the assigned column is "no" and the activity is
    "inactive". *)
Theorem join_one_row_per_login (fuel : nat) (cfg : Config) (clk : Clock)
    (srv : Server) :
  (∀ scim_index seats_by_login teams rows0 rows w w',
     join_teams fuel cfg clk srv scim_index seats_by_login rows0 teams w
     = (Ok rows, w')
     ↔ ∃ reads, join_reads fuel cfg srv teams w reads w'
                ∧ rows = rows0
                    ++ flat_map (team_rows cfg clk scim_index seats_by_login)
                                reads)
  ∧ (∀ rows w w',
       main fuel cfg clk srv w = (Ok rows, w')
       ↔ ∃ scim_users seats_by_login teams reads w1 w2 w3,
           fetch_all_scim_users fuel cfg srv w = (Ok scim_users, w1)
           ∧ fetch_copilot_billing_seats_by_login fuel cfg srv w1
             = (Ok seats_by_login, w2)
           ∧ BillingSeat.fetch_enterprise_teams fuel cfg srv w2 = (Ok teams, w3)
           ∧ join_reads fuel cfg srv teams w3 reads w'
           ∧ rows = flat_map (team_rows cfg clk
                                (build_scim_index cfg scim_users) seats_by_login)
                             reads)
  ∧ (∀ scim_index seats_by_login rd,
       let rows := team_rows cfg clk scim_index seats_by_login rd in
       map row_login rows
       = filter (λ l : string, l ≠ "")
                (map parse_membership_login (read_memberships rd))
       ∧ length rows
         = length (filter (λ m, parse_membership_login m ≠ "")
                          (read_memberships rd))
       ∧ Forall (λ r, row_team_name r = read_name rd
                      ∧ row_team_slug r = read_slug rd) rows
       ∧ (read_memberships rd = [] → rows = []))
  ∧ (∀ teams w reads w' i t rd,
       join_reads fuel cfg srv teams w reads w' →
       teams !! i = Some t → reads !! i = Some rd →
       team_string t ["name"; "display_name"; "slug"] = Ok (read_name rd)
       ∧ team_string t ["slug"; "team_slug"] = Ok (read_slug rd)
       ∧ (read_slug rd = "" → read_memberships rd = [])
       ∧ (read_slug rd ≠ "" →
          ∃ w1 w2, fetch_enterprise_team_memberships fuel cfg srv
                     (read_slug rd) w1 = (Ok (read_memberships rd), w2)))
  ∧ (∀ scim_index seats_by_login team_name team_slug login,
       let row := make_row cfg clk scim_index seats_by_login
                    team_name team_slug login in
       row_team_name row = team_name ∧ row_team_slug row = team_slug
       ∧ row_login row = login
       ∧ (scim_index !! PyStr.strip (PyStr.lower login) = None →
          row_name row = "" ∧ row_email row = "" ∧ row_scim_userName row = "")
       ∧ (seats_by_login !! login = None →
          row_copilot_assigned row = "no"
          ∧ row_copilot_status row = JStr "" ∧ row_plan_type row = JStr ""
          ∧ row_last_activity_at row = JStr "" ∧ row_seat_created_at row = JStr ""
          ∧ row_seat_updated_at row = JStr ""
          ∧ row_active_status row = "inactive")).
Proof.
  split; [|split; [|split; [|split]]].
  - intros. apply join_teams_completes.
  - intros rows w w'. unfold main. rewrite run_bind_eq. split.
    + destruct (fetch_all_scim_users fuel cfg srv w) as [[scim_users| |] w1]
        eqn:Hscim; try done.
      rewrite run_bind_eq.
      destruct (fetch_copilot_billing_seats_by_login fuel cfg srv w1)
        as [[seats| |] w2] eqn:Hseats; try done.
      rewrite run_bind_eq.
      destruct (BillingSeat.fetch_enterprise_teams fuel cfg srv w2)
        as [[teams| |] w3] eqn:Hteams; try done.
      intros Hjoin. apply join_teams_completes in Hjoin as (reads & Hreads & ->).
      by exists scim_users, seats, teams, reads, w1, w2, w3.
    + intros (scim_users & seats & teams & reads & w1 & w2 & w3
              & -> & Hseats & Hteams & Hreads & ->).
      rewrite run_bind_eq, Hseats, run_bind_eq, Hteams.
      apply join_teams_completes. by exists reads.
  - intros scim_index seats_by_login rd rows. subst rows. unfold team_rows.
    split; [|split; [|split]].
    + rewrite map_map. cbn [row_login make_row]. by rewrite map_id.
    + rewrite length_map. unfold logins_of.
      induction (read_memberships rd) as [|m ms IH]; [done|]. cbn [map].
      destruct (decide (parse_membership_login m = "")) as [He|Hne].
      * by rewrite !filter_cons_False by (by intros H; apply H).
      * rewrite !filter_cons_True by done. simpl. by rewrite IH.
    + apply Forall_forall. intros r Hr.
      by apply list_elem_of_In, in_map_iff in Hr as (login & <- & _).
    + by intros ->.
  - intros teams. induction teams as [|t0 teams IH];
      intros w reads w' i t rd Hreads Ht Hrd; [done|].
    destruct reads as [|rd0 reads]; [done|].
    cbn [join_reads] in Hreads. destruct Hreads as (Hname & Hslug & Hrest).
    destruct i as [|i].
    + injection Ht as <-. injection Hrd as <-. do 2 (split; [done|]).
      destruct (decide (read_slug rd0 = "")) as [He|Hne].
      * destruct Hrest as [Hms _]. split; [done|]. by intros Hne.
      * destruct Hrest as (w1 & Hfetch & _). split; [done|].
        intros _. by exists w, w1.
    + simpl in Ht, Hrd.
      destruct (decide (read_slug rd0 = "")).
      * destruct Hrest as [_ Hrest]. by eapply IH.
      * destruct Hrest as (w1 & _ & Hrest). by eapply IH.
  - intros. apply make_row_unmatched.
Qed.

(** Three teams: the one without slug is skipped, the record without login
    adds no row, and the two logins give one row each, matched or not. *)
Lemma join_one_row_per_login_witness :
  ∃ w', join_teams 3 newgen_cfg (fixed_clock 0) three_teams_srv
          (build_scim_index newgen_cfg [chander]) ∅ [] three_teams world0
        = (Ok [make_row newgen_cfg (fixed_clock 0)
                 (build_scim_index newgen_cfg [chander]) ∅
                 "Core" "core" "schander_newgen";
               make_row newgen_cfg (fixed_clock 0)
                 (build_scim_index newgen_cfg [chander]) ∅
                 "Ops" "ops" "ghost"], w')
        ∧ length (sent w') = 2%nat.
Proof.
  destruct (join_one_row_per_login 3 newgen_cfg (fixed_clock 0) three_teams_srv)
    as (H & _).
  destruct (fetch_enterprise_team_memberships 3 newgen_cfg three_teams_srv
              "core" world0) as [r1 w1] eqn:H1.
  destruct (fetch_enterprise_team_memberships 3 newgen_cfg three_teams_srv
              "ops" w1) as [r2 w2] eqn:H2.
  pose proof H1 as E1. vm_compute in E1. injection E1 as <- <-.
  pose proof H2 as E2. vm_compute in E2. injection E2 as <- <-.
  eexists. split; [|shelve]. apply H.
  exists [{| read_name := "Core"; read_slug := "core";
             read_memberships :=
               [JDict [("user", JDict [("login", JStr "schander_newgen")])];
                JDict [("role", JStr "member")]] |};
          {| read_name := "Orphan"; read_slug := "";
             read_memberships := [] |};
          {| read_name := "Ops"; read_slug := "ops";
             read_memberships := [JDict [("login", JStr "ghost")]] |}].
  split; [|reflexivity].
  cbn [join_reads three_teams read_name read_slug read_memberships].
  do 2 (split; [reflexivity|]). rewrite decide_False by done.
  eexists. split; [exact H1|].
  do 2 (split; [reflexivity|]). rewrite decide_True by done.
  split; [reflexivity|].
  do 2 (split; [reflexivity|]). rewrite decide_False by done.
  eexists. split; [exact H2|]. reflexivity.
  Unshelve. reflexivity.
Defined.

(** C4.  The identity look-up lowercases the membership login, the seat
    look-up does not: for a seat keyed "SChander_newgen" the membership login
    "schander_newgen" resolves to the same directory record and to no seat. *)
Lemma seat_lookup_is_case_sensitive :
  match cased_seats with
  | Ok seats =>
      let idx := build_scim_index newgen_cfg [chander] in
      let exact := make_row newgen_cfg (fixed_clock 0) idx seats
                     "Core" "core" "SChander_newgen" in
      let lowered := make_row newgen_cfg (fixed_clock 0) idx seats
                       "Core" "core" "schander_newgen" in
      seats !! "SChander_newgen" ≠ None
      ∧ row_email exact = "s.chander@co.com"
      ∧ row_email lowered = "s.chander@co.com"
      ∧ row_copilot_assigned exact = "yes"
      ∧ row_copilot_assigned lowered = "no"
      ∧ row_copilot_status lowered = JStr ""
  | _ => False
  end.
Proof. vm_compute. repeat split; done. Qed.

(** The identity half of the look-up is case-insensitive. *)
Lemma identity_lookup_case_insensitive (cfg : Config) (clk : Clock)
    (scim_index : gmap string ScimRec)
    (seats_by_login : gmap string (list (string * json)))
    (team_name team_slug l1 l2 : string) :
  PyStr.lower l1 = PyStr.lower l2 →
  let r1 := make_row cfg clk scim_index seats_by_login team_name team_slug l1 in
  let r2 := make_row cfg clk scim_index seats_by_login team_name team_slug l2 in
  row_name r1 = row_name r2 ∧ row_email r1 = row_email r2
  ∧ row_scim_userName r1 = row_scim_userName r2.
Proof. intros H. simpl. by rewrite H. Qed.

(** ** Flattening of the metrics entries *)

Lemma dict_get_here (k : string) (v : json) (d : list (string * json)) :
  Py.dict_get ((k, v) :: d) k = Some v.
Proof. simpl. by rewrite bool_decide_eq_true_2. Qed.

Lemma dict_get_next (k k' : string) (v : json) (d : list (string * json)) :
  k' ≠ k → Py.dict_get ((k', v) :: d) k = Py.dict_get d k.
Proof. intros H. simpl. by rewrite bool_decide_eq_false_2. Qed.

(** A loop whose every turn appends rows appends them all, in order. *)
Lemma for_appends {A B : Type} (g : B → A) (body : A → Run Writer unit)
    (f : B → list (list json)) (ys : list B) :
  (∀ y rows, y ∈ ys → body (g y) rows = (Ok (), rows ++ f y)) →
  ∀ rows, for_ (map g ys) body rows = (Ok (), rows ++ flat_map f ys).
Proof.
  induction ys as [|y ys IH]; intros Hbody rows; simpl.
  - by rewrite app_nil_r.
  - rewrite run_bind_eq, Hbody by left.
    rewrite IH by (intros; apply Hbody; by right).
    by rewrite <- app_assoc.
Qed.

Lemma flat_map_singleton {A B : Type} (f : A → B) (l : list A) :
  flat_map (λ x, [f x]) l = map f l.
Proof. induction l as [|x l IH]; simpl; [done|]. by rewrite IH. Qed.

(** Runs the leading binds of a writer computation whose steps succeed. *)
Ltac run_writer :=
  repeat (rewrite run_bind_eq; rewrite ?outcome_bind_Ok; cbn [PyDyn.iter];
          rewrite lift_Ok).

Section Flatten.
Variables enterprise_id team_name : json.
Variable en : Entry.

Lemma completion_row_cells (e : Editor) (m : Model) (l : list (string * json))
    (rows : Writer) :
  completion_row enterprise_id team_name (date_of en) (aggregates_of en)
    (attr (editor_attrs e) "name" (JStr "N/A"))
    (attr (model_attrs m) "name" (JStr "N/A")) (JDict l) rows
  = (Ok (), rows ++ [completion_cells enterprise_id team_name en e m l]).
Proof. reflexivity. Qed.

Lemma completion_model_rows (e : Editor) (m : Model) (rows : Writer) :
  completion_model enterprise_id team_name (date_of en) (aggregates_of en)
    (attr (editor_attrs e) "name" (JStr "N/A")) (model_json m) rows
  = (Ok (), rows ++ map (completion_cells enterprise_id team_name en e m)
                        (languages m)).
Proof.
  unfold completion_model, model_json, PyDyn.get_or.
  rewrite dict_get_here, !dict_get_next by done.
  cbn [default from_option id PyDyn.iter]. run_writer.
  rewrite (for_appends JDict _
             (λ l, [completion_cells enterprise_id team_name en e m l])).
  - by rewrite flat_map_singleton.
  - intros l rows' _. apply completion_row_cells.
Qed.

Lemma completion_editor_rows (e : Editor) (rows : Writer) :
  completion_editor enterprise_id team_name (date_of en) (aggregates_of en)
    (editor_json e) rows
  = (Ok (), rows ++ flat_map (λ m, map (completion_cells enterprise_id
                                          team_name en e m) (languages m))
                             (models e)).
Proof.
  unfold completion_editor, editor_json, PyDyn.get_or.
  rewrite dict_get_here, !dict_get_next by done.
  cbn [default from_option id PyDyn.iter]. run_writer.
  rewrite (for_appends model_json _
             (λ m, map (completion_cells enterprise_id team_name en e m)
                       (languages m))); [done|].
  intros m rows' _. apply completion_model_rows.
Qed.

Lemma chat_row_cells (c : ChatEditor) (m : list (string * json))
    (rows : Writer) :
  chat_row enterprise_id team_name (date_of en) (aggregates_of en)
    (attr (chat_editor_attrs c) "name" (JStr "N/A")) (JDict m) rows
  = (Ok (), rows ++ [chat_cells enterprise_id team_name en c m]).
Proof. reflexivity. Qed.

Lemma chat_editor_rows_eq (c : ChatEditor) (rows : Writer) :
  chat_editor_rows enterprise_id team_name (date_of en) (aggregates_of en)
    (chat_editor_json c) rows
  = (Ok (), rows ++ map (chat_cells enterprise_id team_name en c)
                        (chat_models c)).
Proof.
  unfold chat_editor_rows, chat_editor_json, PyDyn.get_or.
  rewrite dict_get_here, !dict_get_next by done.
  cbn [default from_option id PyDyn.iter]. run_writer.
  rewrite (for_appends JDict _
             (λ m, [chat_cells enterprise_id team_name en c m])).
  - by rewrite flat_map_singleton.
  - intros m rows' _. apply chat_row_cells.
Qed.

Lemma entry_fields :
  Py.dict_get (entry_bindings en) "date" = date en
  ∧ Py.dict_get (entry_bindings en) "total_active_users" = active_users en
  ∧ Py.dict_get (entry_bindings en) "copilot_dotcom_chat"
    = JDict <$> dotcom_chat en
  ∧ Py.dict_get (entry_bindings en) "copilot_dotcom_pull_requests"
    = JDict <$> dotcom_pull_requests en
  ∧ Py.dict_get (entry_bindings en) "copilot_ide_code_completions"
    = Some (JDict [("editors", JList (map editor_json (editors en)))])
  ∧ Py.dict_get (entry_bindings en) "copilot_ide_chat"
    = Some (JDict [("editors", JList (map chat_editor_json (chat_editors en)))]).
Proof.
  unfold entry_bindings.
  destruct (date en), (active_users en), (dotcom_chat en),
    (dotcom_pull_requests en); repeat split; reflexivity.
Qed.

Lemma entry_aggregates_eq :
  entry_aggregates (entry_json en) = Ok (aggregates_of en).
Proof.
  destruct entry_fields as (_ & Htau & Hchat & Hprs & _).
  unfold entry_aggregates, entry_json, PyDyn.get_or, aggregates_of, attr.
  rewrite Htau, Hchat, Hprs.
  by destruct (dotcom_chat en), (dotcom_pull_requests en).
Qed.

Lemma write_entry_rows (rows : Writer) :
  write_entry enterprise_id team_name (entry_json en) rows
  = (Ok (), rows ++ completion_rows enterprise_id team_name en
                 ++ chat_rows enterprise_id team_name en).
Proof.
  destruct entry_fields as (Hdate & _ & _ & _ & Hcc & Hchat).
  unfold write_entry. rewrite entry_aggregates_eq. unfold entry_json.
  repeat first
    [ rewrite run_bind_eq | rewrite get_or_dict | rewrite dict_get_here
    | rewrite Hdate | rewrite Hcc | rewrite Hchat
    | rewrite outcome_bind_Ok | rewrite lift_Ok
    | progress cbn [default from_option id PyDyn.iter] ].
  fold (date_of en).
  rewrite (for_appends editor_json _
             (λ e, flat_map (λ m, map (completion_cells enterprise_id team_name
                                         en e m) (languages m)) (models e)))
    by (intros e rows' _; apply completion_editor_rows).
  repeat first
    [ rewrite run_bind_eq | rewrite get_or_dict | rewrite dict_get_here
    | rewrite Hdate | rewrite Hcc | rewrite Hchat
    | rewrite outcome_bind_Ok | rewrite lift_Ok
    | progress cbn [default from_option id PyDyn.iter] ].
  rewrite (for_appends chat_editor_json _
             (λ c, map (chat_cells enterprise_id team_name en c) (chat_models c)))
    by (intros c rows' _; apply chat_editor_rows_eq).
  by rewrite <- app_assoc.
Qed.

End Flatten.

Lemma flat_map_length_sum {A B : Type} (f : A → list B) (l : list A) :
  length (flat_map f l) = sum_list (map (λ x, length (f x)) l).
Proof.
  induction l as [|x l IH]; simpl; [done|]. by rewrite length_app, IH.
Qed.

Lemma completion_rows_elem (enterprise_id team_name : json) (en : Entry)
    (row : list json) :
  row ∈ completion_rows enterprise_id team_name en →
  ∃ e m l, row = completion_cells enterprise_id team_name en e m l.
Proof.
  unfold completion_rows. rewrite list_elem_of_In, in_flat_map.
  intros (e & _ & H). apply in_flat_map in H as (m & _ & H).
  apply in_map_iff in H as (l & <- & _). eauto.
Qed.

Lemma chat_rows_elem (enterprise_id team_name : json) (en : Entry)
    (row : list json) :
  row ∈ chat_rows enterprise_id team_name en →
  ∃ c m, row = chat_cells enterprise_id team_name en c m.
Proof.
  unfold chat_rows. rewrite list_elem_of_In, in_flat_map.
  intros (c & _ & H). apply in_map_iff in H as (m & <- & _). eauto.
Qed.

(** *** Entries of any layout *)

Lemma objects_of_Some (l : list json) (ds : list (list (string * json))) :
  objects_of l = Some ds → l = map JDict ds.
Proof.
  revert ds. induction l as [|x l IH]; intros ds; simpl.
  - by intros [= <-].
  - destruct x; try done. destruct (objects_of l) as [ds'|]; [|done].
    intros [= <-]. simpl. by rewrite (IH ds').
Qed.

Lemma object_list_iter (d : list (string * json)) (k : string)
    (ds : list (list (string * json))) :
  object_list d k = Some ds →
  PyDyn.get_or (JDict d) k (JList []) ≫= PyDyn.iter = Ok (map JDict ds).
Proof.
  unfold object_list, PyDyn.get_or.
  destruct (Py.dict_get d k) as [v|]; simpl.
  - destruct v; try done. intros H. by rewrite (objects_of_Some _ _ H).
  - by intros [= <-].
Qed.

Lemma object_under_get (d : list (string * json)) (k : string)
    (s : list (string * json)) :
  object_under d k = Some s → PyDyn.get_or (JDict d) k (JDict []) = Ok (JDict s).
Proof.
  unfold object_under, PyDyn.get_or.
  destruct (Py.dict_get d k) as [v|]; simpl.
  - destruct v; try done. by intros [= <-].
  - by intros [= <-].
Qed.

(** A loop over objects, each of which is read as a view and appends the
    rows of its view. *)
Lemma for_appends_views {V : Type} (view : list (string * json) → option V)
    (body : json → Run Writer unit) (f : V → list (list json))
    (ds : list (list (string * json))) (vs : list V) :
  mapM view ds = Some vs →
  (∀ d v rows, view d = Some v → body (JDict d) rows = (Ok (), rows ++ f v)) →
  ∀ rows, for_ (map JDict ds) body rows = (Ok (), rows ++ flat_map f vs).
Proof.
  intros Hviews Hbody. apply mapM_Some in Hviews.
  induction Hviews as [|d v ds vs Hv _ IH]; intros rows; simpl.
  - by rewrite app_nil_r.
  - rewrite run_bind_eq, (Hbody d v rows Hv), IH. by rewrite <- app_assoc.
Qed.

Section FlattenView.
Variables enterprise_id team_name : json.
Variable en : Entry.

Lemma completion_model_view (e : Editor) (d : list (string * json)) (m : Model)
    (rows : Writer) :
  model_view d = Some m →
  completion_model enterprise_id team_name (date_of en) (aggregates_of en)
    (attr (editor_attrs e) "name" (JStr "N/A")) (JDict d) rows
  = (Ok (), rows ++ map (completion_cells enterprise_id team_name en e m)
                        (languages m)).
Proof.
  unfold model_view. destruct (object_list d "languages") as [ls|] eqn:Hls;
    [|done].
  intros [= <-]. unfold completion_model.
  rewrite (object_list_iter _ _ _ Hls). rewrite !get_or_dict. run_writer.
  cbn [languages model_attrs].
  rewrite (for_appends JDict _
             (λ l, [completion_cells enterprise_id team_name en e
                      {| model_attrs := d; languages := ls |} l])).
  - by rewrite flat_map_singleton.
  - intros l rows' _.
    exact (completion_row_cells enterprise_id team_name en e
             {| model_attrs := d; languages := ls |} l rows').
Qed.

Lemma completion_editor_view (d : list (string * json)) (e : Editor)
    (rows : Writer) :
  editor_view d = Some e →
  completion_editor enterprise_id team_name (date_of en) (aggregates_of en)
    (JDict d) rows
  = (Ok (), rows ++ flat_map (λ m, map (completion_cells enterprise_id
                                          team_name en e m) (languages m))
                             (models e)).
Proof.
  unfold editor_view. destruct (object_list d "models") as [ms|] eqn:Hms;
    [|done].
  cbn [mbind option_bind]. destruct (mapM model_view ms) as [vs|] eqn:Hvs;
    [|done].
  intros [= <-]. unfold completion_editor.
  rewrite (object_list_iter _ _ _ Hms). rewrite !get_or_dict. run_writer.
  cbn [models].
  apply (for_appends_views model_view); [done|].
  intros d' m rows' Hm.
  by apply (completion_model_view {| editor_attrs := d; models := vs |}).
Qed.

Lemma chat_editor_view_rows (d : list (string * json)) (c : ChatEditor)
    (rows : Writer) :
  chat_editor_view d = Some c →
  chat_editor_rows enterprise_id team_name (date_of en) (aggregates_of en)
    (JDict d) rows
  = (Ok (), rows ++ map (chat_cells enterprise_id team_name en c)
                        (chat_models c)).
Proof.
  unfold chat_editor_view. destruct (object_list d "models") as [ms|] eqn:Hms;
    [|done].
  intros [= <-]. unfold chat_editor_rows.
  rewrite (object_list_iter _ _ _ Hms). rewrite !get_or_dict. run_writer.
  cbn [chat_models chat_editor_attrs].
  rewrite (for_appends JDict _
             (λ m, [chat_cells enterprise_id team_name en
                      {| chat_editor_attrs := d; chat_models := ms |} m])).
  - by rewrite flat_map_singleton.
  - intros m rows' _.
    exact (chat_row_cells enterprise_id team_name en
             {| chat_editor_attrs := d; chat_models := ms |} m rows').
Qed.

End FlattenView.

(** What the view of an entry holds is what the code reads from it. *)
Lemma entry_view_reads (d : list (string * json)) (en : Entry) :
  entry_view (JDict d) = Some en →
  date_of en = attr d "date" (JStr "N/A")
  ∧ total_active_users (aggregates_of en) = attr d "total_active_users" (JNum 0)
  ∧ (∃ chat, object_under d "copilot_dotcom_chat" = Some chat
             ∧ total_chat_engaged_users (aggregates_of en)
               = attr chat "total_engaged_users" (JNum 0))
  ∧ (∃ prs, object_under d "copilot_dotcom_pull_requests" = Some prs
            ∧ total_pull_request_engaged_users (aggregates_of en)
              = attr prs "total_engaged_users" (JNum 0))
  ∧ (∃ completions eds,
       object_under d "copilot_ide_code_completions" = Some completions
       ∧ object_list completions "editors" = Some eds
       ∧ mapM editor_view eds = Some (editors en))
  ∧ (∃ chat ceds,
       object_under d "copilot_ide_chat" = Some chat
       ∧ object_list chat "editors" = Some ceds
       ∧ mapM chat_editor_view ceds = Some (chat_editors en)).
Proof.
  unfold entry_view.
  destruct (object_under d "copilot_ide_code_completions") as [cc|] eqn:Hcc;
    [|done]. cbn [mbind option_bind].
  destruct (object_list cc "editors") as [eds|] eqn:Heds; [|done].
  cbn [mbind option_bind].
  destruct (mapM editor_view eds) as [es|] eqn:Hes; [|done].
  cbn [mbind option_bind].
  destruct (object_under d "copilot_ide_chat") as [chat|] eqn:Hchat; [|done].
  cbn [mbind option_bind].
  destruct (object_list chat "editors") as [ceds|] eqn:Hceds; [|done].
  cbn [mbind option_bind].
  destruct (mapM chat_editor_view ceds) as [cs|] eqn:Hcs; [|done].
  cbn [mbind option_bind].
  destruct (object_under d "copilot_dotcom_chat") as [dchat|] eqn:Hdchat;
    [|done]. cbn [mbind option_bind].
  destruct (object_under d "copilot_dotcom_pull_requests") as [dprs|] eqn:Hdprs;
    [|done]. cbn [mbind option_bind].
  intros [= <-]. do 2 (split; [done|]).
  split; [by exists dchat|]. split; [by exists dprs|].
  split; [by exists cc, eds|]. by exists chat, ceds.
Qed.

Lemma write_entry_view (enterprise_id team_name : json) (entry : json)
    (en : Entry) (rows : Writer) :
  entry_view entry = Some en →
  write_entry enterprise_id team_name entry rows
  = (Ok (), rows ++ completion_rows enterprise_id team_name en
                 ++ chat_rows enterprise_id team_name en).
Proof.
  intros Hview. destruct entry as [| | | | |d]; try done.
  destruct (entry_view_reads d en Hview)
    as (Hdate & Htau & (dchat & Hdchat & Htce) & (dprs & Hdprs & Htpe)
        & (cc & eds & Hcc & Heds & Hes) & (chat & ceds & Hchat & Hceds & Hcs)).
  assert (Hagg : entry_aggregates (JDict d) = Ok (aggregates_of en)).
  { unfold entry_aggregates.
    rewrite (get_or_dict d "total_active_users"), outcome_bind_Ok.
    rewrite (object_under_get _ _ _ Hdchat), outcome_bind_Ok.
    rewrite (get_or_dict dchat), outcome_bind_Ok.
    rewrite (object_under_get _ _ _ Hdprs), outcome_bind_Ok.
    rewrite (get_or_dict dprs), outcome_bind_Ok.
    unfold attr in Htau, Htce, Htpe. rewrite <- Htau, <- Htce, <- Htpe.
    by destruct (aggregates_of en). }
  unfold write_entry.
  rewrite run_bind_eq, get_or_dict, lift_Ok.
  rewrite run_bind_eq, (object_under_get _ _ _ Hcc), lift_Ok.
  rewrite run_bind_eq, Hagg, lift_Ok.
  rewrite run_bind_eq, (object_list_iter _ _ _ Heds), lift_Ok.
  fold (attr d "date" (JStr "N/A")). rewrite <- Hdate.
  rewrite run_bind_eq.
  rewrite (for_appends_views editor_view _
             (λ e, flat_map (λ m, map (completion_cells enterprise_id team_name
                                         en e m) (languages m)) (models e))
             eds (editors en) Hes)
    by (intros; by apply completion_editor_view).
  rewrite run_bind_eq, (object_under_get _ _ _ Hchat), lift_Ok.
  rewrite run_bind_eq, (object_list_iter _ _ _ Hceds), lift_Ok.
  rewrite (for_appends_views chat_editor_view _
             (λ c, map (chat_cells enterprise_id team_name en c) (chat_models c))
             ceds (chat_editors en) Hcs)
    by (intros; by apply chat_editor_view_rows).
  by rewrite <- app_assoc.
Qed.

(** C6, as stated, fails on its own example: two editors, each with one
    model and two languages, flatten into four rows, not two. *)
Lemma write_to_csv_two_editors_two_languages :
  let '(r, rows) := write_to_csv (JStr "acme") (JStr "core")
                      [entry_json two_by_two] [] in
  r = Ok () ∧ length rows = 4%nat
  ∧ map (λ row, (row !! 3%nat, row !! 5%nat)) rows
    = [(Some (JStr "vscode"), Some (JStr "python"));
       (Some (JStr "vscode"), Some (JStr "go"));
       (Some (JStr "jetbrains"), Some (JStr "python"));
       (Some (JStr "jetbrains"), Some (JStr "go"))].
Proof. vm_compute. done. Qed.

(** C6 (amended).  Take metrics entries that are objects whose sections,
    where present, have the expected types: objects for the code-completion,
    IDE-chat, dotcom-chat and pull-request sections, arrays of objects for
    editors, models and languages; a missing section counts as empty and any
    other key is free.  The flattening writes, entry by entry, one row per
    (editor, model, language) triple of the code-completion metrics followed
    by one row per (chat editor, model) pair of the IDE-chat metrics.  Every
    row has 19 cells and carries the date and the three date-level counters
    of its entry unchanged; a code-completion row has its five chat cells set
    to '', 0, False, 0, 0 and a chat row has its editor, model and language
    cells blank and its five completion counters zero.  The number of
    code-completion rows is the sum of the language counts over all (editor,
    model) pairs: two editors, each with one model and two languages, give 4
    rows. *)
Theorem write_to_csv_flattens (enterprise_id team_name : json)
    (entries : list json) (views : list Entry) (rows : Writer) :
  Forall2 (λ entry en, entry_view entry = Some en) entries views →
  write_to_csv enterprise_id team_name entries rows
  = (Ok (), rows ++ flat_map (λ en, completion_rows enterprise_id team_name en
                                    ++ chat_rows enterprise_id team_name en)
                             views)
  ∧ (∀ en, length (completion_rows enterprise_id team_name en)
           = sum_list (map (λ e, sum_list (map (λ m, length (languages m))
                                               (models e)))
                           (editors en)))
  ∧ (∀ en, length (chat_rows enterprise_id team_name en)
           = sum_list (map (λ c, length (chat_models c)) (chat_editors en)))
  ∧ (∀ en row, row ∈ completion_rows enterprise_id team_name en
                     ++ chat_rows enterprise_id team_name en →
       length row = 19%nat
       ∧ row !! 2%nat = Some (date_of en)
       ∧ row !! 11%nat = Some (total_active_users (aggregates_of en))
       ∧ row !! 12%nat = Some (total_chat_engaged_users (aggregates_of en))
       ∧ row !! 13%nat = Some (total_pull_request_engaged_users (aggregates_of en)))
  ∧ (∀ en row, row ∈ completion_rows enterprise_id team_name en →
       drop 14 row = [JStr ""; JNum 0; JBool false; JNum 0; JNum 0])
  ∧ (∀ en row, row ∈ chat_rows enterprise_id team_name en →
       take 8 (drop 3 row)
       = [JStr ""; JStr ""; JStr ""; JNum 0; JNum 0; JNum 0; JNum 0; JNum 0])
  ∧ (∀ d en, entry_view (JDict d) = Some en →
       date_of en = attr d "date" (JStr "N/A")
       ∧ total_active_users (aggregates_of en)
         = attr d "total_active_users" (JNum 0)
       ∧ (∃ chat, object_under d "copilot_dotcom_chat" = Some chat
                  ∧ total_chat_engaged_users (aggregates_of en)
                    = attr chat "total_engaged_users" (JNum 0))
       ∧ (∃ prs, object_under d "copilot_dotcom_pull_requests" = Some prs
                 ∧ total_pull_request_engaged_users (aggregates_of en)
                   = attr prs "total_engaged_users" (JNum 0))
       ∧ (∃ completions eds,
            object_under d "copilot_ide_code_completions" = Some completions
            ∧ object_list completions "editors" = Some eds
            ∧ mapM editor_view eds = Some (editors en))
       ∧ (∃ chat ceds,
            object_under d "copilot_ide_chat" = Some chat
            ∧ object_list chat "editors" = Some ceds
            ∧ mapM chat_editor_view ceds = Some (chat_editors en)))
  ∧ length (completion_rows enterprise_id team_name two_by_two) = 4%nat.
Proof.
  intros Hviews.
  split; [|split; [|split; [|split; [|split; [|split; [|split]]]]]].
  - unfold write_to_csv. revert rows.
    induction Hviews as [|entry en entries views Hen _ IH]; intros rows; simpl.
    + by rewrite app_nil_r.
    + rewrite run_bind_eq, (write_entry_view _ _ _ _ _ Hen), IH.
      by rewrite <- !app_assoc.
  - intros en. unfold completion_rows. rewrite flat_map_length_sum.
    f_equal. apply map_ext. intros e. rewrite flat_map_length_sum.
    f_equal. apply map_ext. intros m. by rewrite length_map.
  - intros en. unfold chat_rows. rewrite flat_map_length_sum.
    f_equal. apply map_ext. intros c. by rewrite length_map.
  - intros en row Hrow. apply elem_of_app in Hrow as [H|H].
    + by apply completion_rows_elem in H as (e & m & l & ->).
    + by apply chat_rows_elem in H as (c & m & ->).
  - intros en row H. by apply completion_rows_elem in H as (e & m & l & ->).
  - intros en row H. by apply chat_rows_elem in H as (c & m & ->).
  - apply entry_view_reads.
  - reflexivity.
Qed.

Lemma write_to_csv_flattens_witness :
  write_to_csv (JStr "acme") (JStr "core") [api_entry; chat_only_entry] []
  = (Ok (),
     [[JStr "acme"; JStr "core"; JStr "2024-06-03"; JStr "vscode";
       JStr "default"; JStr "rust"; JNum 0; JNum 3; JNum 0; JNum 0; JNum 0;
       JNum 9; JNum 0; JNum 1; JStr ""; JNum 0; JBool false; JNum 0; JNum 0];
      [JStr "acme"; JStr "core"; JStr "2024-06-03"; JStr "vscode";
       JStr "default"; JStr "go"; JNum 0; JNum 0; JNum 0; JNum 0; JNum 0;
       JNum 9; JNum 0; JNum 1; JStr ""; JNum 0; JBool false; JNum 0; JNum 0];
      [JStr "acme"; JStr "core"; JStr "N/A"; JStr ""; JStr ""; JStr "";
       JNum 0; JNum 0; JNum 0; JNum 0; JNum 0; JNum 0; JNum 4; JNum 0;
       JStr "N/A"; JNum 5; JBool false; JNum 0; JNum 2]]).
Proof.
  destruct (entry_view api_entry) as [v1|] eqn:E1; [|by vm_compute in E1].
  destruct (entry_view chat_only_entry) as [v2|] eqn:E2;
    [|by vm_compute in E2].
  destruct (write_to_csv_flattens (JStr "acme") (JStr "core")
              [api_entry; chat_only_entry] [v1; v2] [])
    as (Hrun & _).
  { by repeat constructor. }
  rewrite Hrun. vm_compute in E1, E2.
  injection E1 as <-. injection E2 as <-. reflexivity.
Defined.

(** ** Worked examples *)

Example derive_suffix_token_default :
  derive_suffix_token newgen_cfg = "newgen".
Proof. reflexivity. Qed.

Example derive_suffix_token_override :
  derive_suffix_token {| API_BASE := ""; ENTERPRISE_SLUG := "Newgen-EMU";
                         LOGIN_SUFFIX_env := Some " ACME " |} = "acme".
Proof. reflexivity. Qed.

Example parse_membership_login_paths :
  parse_membership_login (JDict [("user", JDict [("login", JStr " octo ")]);
                                 ("login", JStr "other")]) = "octo"
  ∧ parse_membership_login (JDict [("user", JDict [("login", JNum 4)]);
                                   ("member", JDict [("login", JStr "m")])]) = "m"
  ∧ parse_membership_login (JDict [("login", JStr "   ")]) = ""
  ∧ parse_membership_login (JList []) = "".
Proof. vm_compute. done. Qed.

Example pick_scim_email_precedence :
  pick_scim_email [("emails", JList [JDict [("value", JStr "a@x.org")];
                                     JDict [("value", JStr " b@x.org ");
                                            ("primary", JBool true)]])]
  = "b@x.org"
  ∧ pick_scim_email [("emails", JList [JStr "c@x.org"]);
                     ("userName", JStr "d@x.org")] = "d@x.org"
  ∧ pick_scim_email [("userName", JStr "plain")] = "".
Proof. vm_compute. done. Qed.

(** The end-to-end scenario of the specification: one directory record, one
    team with the member "schander_newgen", one seat last active 30 days
    before the run. *)
Example main_end_to_end :
  let srv : Server := λ n,
    match n with
    | 0%nat => ok_response (scim_page_json [chander] (Some 1) (Some 1))
    | 1%nat => ok_response
                 (JDict [("seats",
                          JList [seat_of "schander_newgen" "2024-01-01T00:00:00Z"])])
    | 2%nat => ok_response (JList [JDict [("name", JStr "Core");
                                          ("slug", JStr "core")]])
    | _ => ok_response
             (JList [JDict [("user", JDict [("login", JStr "schander_newgen")])]])
    end in
  (main 5 newgen_cfg (fixed_clock (30 * one_day)) srv world0).1
  = Ok [{| row_enterprise := "Newgen-EMU"; row_team_name := "Core";
           row_team_slug := "core"; row_login := "schander_newgen";
           row_name := "S Chander"; row_email := "s.chander@co.com";
           row_scim_userName := ""; row_copilot_assigned := "yes";
           row_copilot_status := JStr "active";
           row_plan_type := JStr "business";
           row_last_activity_at := JStr "2024-01-01T00:00:00Z";
           row_active_status := "active";
           row_seat_created_at := JStr "2023-06-01T00:00:00Z";
           row_seat_updated_at := JStr "2023-12-31T00:00:00Z" |}].
Proof. vm_compute. reflexivity. Qed.

(** * Further properties of the two scripts *)

(** ** More on the string primitives *)

Lemma lower_char_not_upper (c : ascii) : PyStr.is_upper (PyStr.lower_char c) = false.
Proof. by destruct c as [[] [] [] [] [] [] [] []]. Qed.

Lemma lower_char_space (c : ascii) :
  PyStr.is_space (PyStr.lower_char c) = PyStr.is_space c.
Proof. by destruct c as [[] [] [] [] [] [] [] []]. Qed.

Lemma lower_is_lowercase (s : string) : is_lowercase (PyStr.lower s) = true.
Proof.
  induction s as [|c s IH]; simpl; [done|].
  by rewrite lower_char_not_upper, IH.
Qed.

Lemma is_lowercase_lower (s : string) :
  is_lowercase s = true → PyStr.lower s = s.
Proof.
  induction s as [|c s IH]; simpl; [done|].
  intros [Hc Hs]%andb_true_iff. rewrite (IH Hs). f_equal.
  unfold PyStr.lower_char. by destruct (PyStr.is_upper c).
Qed.

Lemma is_lowercase_app (s t : string) :
  is_lowercase (s +:+ t) = is_lowercase s && is_lowercase t.
Proof.
  induction s as [|c s IH]; simpl; [done|]. by rewrite IH, andb_assoc.
Qed.

Lemma is_lowercase_lstrip_by (p : ascii → bool) (s : string) :
  is_lowercase s = true → is_lowercase (PyStr.lstrip_by p s) = true.
Proof.
  induction s as [|c s IH]; simpl; [done|].
  intros H. destruct (p c); [|done].
  apply andb_true_iff in H as [_ H]. auto.
Qed.

Lemma is_lowercase_rstrip_by (p : ascii → bool) (s : string) :
  is_lowercase s = true → is_lowercase (PyStr.rstrip_by p s) = true.
Proof.
  induction s as [|c s IH]; simpl; [done|].
  intros [Hc Hs]%andb_true_iff. specialize (IH Hs).
  destruct (PyStr.rstrip_by p s); simpl in *.
  - destruct (p c); simpl; [done|]. by rewrite Hc.
  - by rewrite Hc, IH.
Qed.

Lemma is_lowercase_strip_by (p : ascii → bool) (s : string) :
  is_lowercase s = true → is_lowercase (PyStr.strip_by p s) = true.
Proof.
  intros H. unfold PyStr.strip_by.
  by apply is_lowercase_rstrip_by, is_lowercase_lstrip_by.
Qed.

Lemma is_lowercase_replace (old : ascii) (new s : string) :
  is_lowercase new = true → is_lowercase s = true →
  is_lowercase (PyStr.replace old new s) = true.
Proof.
  intros Hn. induction s as [|c s IH]; simpl; [done|].
  intros [Hc Hs]%andb_true_iff. case_bool_decide.
  - rewrite is_lowercase_app, Hn. auto.
  - simpl. rewrite Hc. auto.
Qed.

Lemma is_lowercase_keep (p : ascii → bool) (s : string) :
  is_lowercase s = true → is_lowercase (PyStr.keep p s) = true.
Proof.
  induction s as [|c s IH]; simpl; [done|].
  intros [Hc Hs]%andb_true_iff. destruct (p c); simpl; [rewrite Hc|]; auto.
Qed.

Lemma is_lowercase_split1_head (sep : ascii) (s : string) :
  is_lowercase s = true → is_lowercase (PyStr.split1_head sep s) = true.
Proof.
  induction s as [|c s IH]; simpl; [done|].
  intros [Hc Hs]%andb_true_iff. case_bool_decide; [done|].
  simpl. rewrite Hc. auto.
Qed.

Lemma contains_lstrip_by_inv (p : ascii → bool) (c : ascii) (s : string) :
  PyStr.contains c (PyStr.lstrip_by p s) = true → PyStr.contains c s = true.
Proof.
  induction s as [|x s IH]; simpl; [done|].
  destruct (p x); [|done]. intros H. rewrite (IH H). apply orb_true_r.
Qed.

Lemma contains_rstrip_by_inv (p : ascii → bool) (c : ascii) (s : string) :
  PyStr.contains c (PyStr.rstrip_by p s) = true → PyStr.contains c s = true.
Proof.
  induction s as [|x s IH]; simpl; [done|].
  destruct (PyStr.rstrip_by p s) eqn:E.
  - destruct (p x); simpl; [done|]. rewrite orb_false_r. by intros ->.
  - simpl in *. intros [H|H]%orb_true_iff; [by rewrite H|].
    rewrite (IH H). apply orb_true_r.
Qed.

Lemma contains_at_lower_inv (s : string) :
  PyStr.contains "@" (PyStr.lower s) = true → PyStr.contains "@" s = true.
Proof.
  induction s as [|x s IH]; simpl; [done|].
  intros [H|H]%orb_true_iff; [|rewrite (IH H); apply orb_true_r].
  apply bool_decide_eq_true in H.
  assert (x = "@"%char) as ->; [|done].
  revert H. by destruct x as [[] [] [] [] [] [] [] []].
Qed.

Lemma contains_at_normalised_inv (email : string) :
  PyStr.contains "@" (PyStr.lower (PyStr.strip email)) = true →
  PyStr.contains "@" email = true.
Proof.
  intros H. apply contains_at_lower_inv in H.
  unfold PyStr.strip, PyStr.strip_by in H.
  by apply contains_rstrip_by_inv, contains_lstrip_by_inv in H.
Qed.

(** ** More on the login candidates *)

Lemma derive_suffix_token_lowercase (cfg : Config) :
  is_lowercase (derive_suffix_token cfg) = true.
Proof.
  unfold derive_suffix_token, LOGIN_SUFFIX.
  destruct (PyStr.nonempty _); apply lower_is_lowercase.
Qed.

Lemma strip_variant_lowercase (x : string) :
  is_lowercase x = true → is_lowercase (strip_variant x) = true.
Proof.
  intros H. unfold strip_variant, PyStr.strip, PyStr.strip_char.
  by do 2 apply is_lowercase_strip_by.
Qed.

Lemma local_variants_elem (local x : string) :
  x ∈ local_variants local ↔
  x ∈ [local; PyStr.replace "." "" local; PyStr.replace "." "-" local;
       PyStr.replace "_" "-" local; PyStr.keep is_alnum_hyphen local;
       PyStr.keep is_alnum local].
Proof.
  unfold local_variants. rewrite !elem_of_union, !elem_of_singleton.
  rewrite !elem_of_cons, elem_of_nil. tauto.
Qed.

Lemma local_variants_lowercase (local x : string) :
  is_lowercase local = true → x ∈ local_variants local →
  is_lowercase x = true.
Proof.
  intros Hl. rewrite local_variants_elem, !elem_of_cons, elem_of_nil.
  intros [->|[->|[->|[->|[->|[->|[]]]]]]];
    auto using is_lowercase_replace, is_lowercase_keep.
Qed.

Lemma login_candidates_inv (cfg : Config) (email y : string) :
  y ∈ generate_login_candidates_from_email cfg email →
  let L := PyStr.strip (PyStr.split1_head "@" (PyStr.lower (PyStr.strip email))) in
  let suffix := derive_suffix_token cfg in
  PyStr.contains "@" email = true ∧ L ≠ "" ∧ y ≠ "" ∧ is_lowercase y = true
  ∧ ∃ x, x ∈ [L; PyStr.replace "." "" L; PyStr.replace "." "-" L;
              PyStr.replace "_" "-" L; PyStr.keep is_alnum_hyphen L;
              PyStr.keep is_alnum L]
         ∧ PyStr.strip (PyStr.strip_char "-" x) ≠ ""
         ∧ (y = PyStr.strip (PyStr.strip_char "-" x)
            ∨ (suffix ≠ ""
               ∧ y = PyStr.strip (PyStr.strip_char "-" x) +:+ "_" +:+ suffix)).
Proof.
  intros Hy L suffix. unfold generate_login_candidates_from_email in Hy.
  destruct (PyStr.contains "@" (PyStr.lower (PyStr.strip email))) eqn:Hat;
    simpl in Hy; [|by apply not_elem_of_empty in Hy].
  fold L in Hy. destruct (PyStr.nonempty L) eqn:HL; simpl in Hy;
    [|by apply not_elem_of_empty in Hy].
  apply nonempty_true in HL.
  apply add_candidates_elem in Hy as [Hy|(x & Hx & Hv & Hy)];
    [by apply not_elem_of_empty in Hy|].
  apply elem_of_elements in Hx.
  assert (HLl : is_lowercase L = true).
  { apply is_lowercase_strip_by, is_lowercase_split1_head, lower_is_lowercase. }
  pose proof (strip_variant_lowercase x (local_variants_lowercase L x HLl Hx)) as Hvl.
  split; [by apply contains_at_normalised_inv|]. split; [done|].
  split; [|split].
  - destruct Hy as [->|[_ ->]]; [done|].
    by destruct (strip_variant x).
  - destruct Hy as [->|[_ ->]]; [done|].
    rewrite !is_lowercase_app, Hvl. simpl.
    apply derive_suffix_token_lowercase.
  - exists x. split; [by apply local_variants_elem|]. done.
Qed.

(** X1.  Every login candidate comes from an e-mail with an '@', is
    non-empty and lowercase, and is one of the six forms of the local part,
    stripped, possibly followed by "_" and the suffix token; nothing else is
    ever generated. *)
Theorem login_candidates_sound (cfg : Config) (email y : string) :
  y ∈ generate_login_candidates_from_email cfg email →
  let L := PyStr.strip (PyStr.split1_head "@" (PyStr.lower (PyStr.strip email))) in
  let suffix := derive_suffix_token cfg in
  PyStr.contains "@" email = true ∧ L ≠ "" ∧ y ≠ "" ∧ is_lowercase y = true
  ∧ ∃ x, x ∈ [L; PyStr.replace "." "" L; PyStr.replace "." "-" L;
              PyStr.replace "_" "-" L; PyStr.keep is_alnum_hyphen L;
              PyStr.keep is_alnum L]
         ∧ PyStr.strip (PyStr.strip_char "-" x) ≠ ""
         ∧ (y = PyStr.strip (PyStr.strip_char "-" x)
            ∨ (suffix ≠ ""
               ∧ y = PyStr.strip (PyStr.strip_char "-" x) +:+ "_" +:+ suffix)).
Proof. apply login_candidates_inv. Qed.

Lemma login_candidates_sound_witness :
  PyStr.contains "@" "G-Singh@domain.com" = true
  ∧ is_lowercase "g-singh_newgen" = true.
Proof.
  destruct (login_candidates_sound newgen_cfg "G-Singh@domain.com"
              "g-singh_newgen") as (H1 & _ & _ & H2 & _); [by vm_compute|].
  by split.
Defined.

Lemma add_candidates_size (suffix : string) (l : list string) (out : gset string) :
  (size (foldl (add_candidate suffix) out l)
   ≤ size out + (if PyStr.nonempty suffix then 2 else 1) * length l)%nat.
Proof.
  revert out. induction l as [|x l IH]; intros out; simpl; [lia|].
  etransitivity; [apply IH|]. unfold add_candidate.
  assert (Hu : ∀ (y : string) (X : gset string), (size ({[y]} ∪ X) ≤ S (size X))%nat).
  { intros y X. rewrite size_union_alt, size_singleton.
    pose proof (subseteq_size (X ∖ {[y]}) X). set_solver by lia. }
  destruct (PyStr.nonempty (strip_variant x)); simpl; [|lia].
  destruct (PyStr.nonempty suffix).
  - pose proof (Hu (strip_variant x +:+ "_" +:+ suffix)
                   ({[strip_variant x]} ∪ out)).
    pose proof (Hu (strip_variant x) out). lia.
  - pose proof (Hu (strip_variant x) out). lia.
Qed.

Lemma local_variants_size (local : string) : (size (local_variants local) ≤ 6)%nat.
Proof.
  assert (Hu : ∀ (X : gset string) (y : string), (size (X ∪ {[y]}) ≤ S (size X))%nat).
  { intros X y. rewrite size_union_alt.
    pose proof (subseteq_size ({[y]} ∖ X) ({[y]} : gset string)).
    rewrite size_singleton in *. set_solver by lia. }
  unfold local_variants.
  repeat (etransitivity; [apply Hu|]; apply le_n_S).
  by rewrite size_singleton.
Qed.

(** X2.  An e-mail without '@' (or whose local part is blank) yields no
    candidate at all; otherwise there are at most 6 candidates when no suffix
    token is configured and at most 12 when one is. *)
Theorem login_candidates_bounds (cfg : Config) (email : string) :
  (PyStr.contains "@" email = false →
   generate_login_candidates_from_email cfg email = ∅)
  ∧ (PyStr.strip (PyStr.split1_head "@" (PyStr.lower (PyStr.strip email))) = "" →
     generate_login_candidates_from_email cfg email = ∅)
  ∧ (size (generate_login_candidates_from_email cfg email) ≤ 12)%nat
  ∧ (derive_suffix_token cfg = "" →
     (size (generate_login_candidates_from_email cfg email) ≤ 6)%nat).
Proof.
  assert (Hsz : (size (generate_login_candidates_from_email cfg email)
                 ≤ (if PyStr.nonempty (derive_suffix_token cfg) then 2 else 1) * 6)%nat).
  { unfold generate_login_candidates_from_email. cbv zeta.
    destruct (PyStr.contains "@" _); cbn [negb];
      [|rewrite size_empty; case_match; lia].
    destruct (PyStr.nonempty (PyStr.strip _)); cbn [negb];
      [|rewrite size_empty; case_match; lia].
    etransitivity; [apply add_candidates_size|]. rewrite size_empty.
    pose proof (local_variants_size
                  (PyStr.strip (PyStr.split1_head "@"
                                  (PyStr.lower (PyStr.strip email))))) as H.
    unfold size, set_size in H. simpl in *. case_match; lia. }
  split; [|split; [|split]].
  - intros Hat. unfold generate_login_candidates_from_email.
    destruct (PyStr.contains "@" (PyStr.lower (PyStr.strip email))) eqn:E; [|done].
    apply contains_at_normalised_inv in E. congruence.
  - intros HL. unfold generate_login_candidates_from_email.
    destruct (PyStr.contains "@" _); simpl; [|done]. by rewrite HL.
  - case_match; lia.
  - intros Hs. by rewrite Hs in Hsz.
Qed.

Lemma login_candidates_bounds_witness :
  generate_login_candidates_from_email newgen_cfg "not-an-email" = ∅
  ∧ generate_login_candidates_from_email newgen_cfg "  @x.org" = ∅.
Proof.
  destruct (login_candidates_bounds newgen_cfg "not-an-email") as (H1 & _).
  destruct (login_candidates_bounds newgen_cfg "  @x.org") as (_ & H2 & _).
  split; [by apply H1|by apply H2].
Defined.

(** ** More on the identity index *)

Lemma index_keys_inv (cfg : Config) (email scim_user_name k : string) :
  k ∈ index_keys cfg email scim_user_name →
  is_lowercase k = true
  ∧ (k = PyStr.lower email
     ∨ k = PyStr.lower (PyStr.split1_head "@" email)
     ∨ k ∈ generate_login_candidates_from_email cfg email
     ∨ k = PyStr.lower scim_user_name
     ∨ k = PyStr.lower (PyStr.split1_head "@" scim_user_name)
     ∨ k ∈ generate_login_candidates_from_email cfg scim_user_name).
Proof.
  unfold index_keys. intros Hk.
  assert (Hcases : k = PyStr.lower email
     ∨ k = PyStr.lower (PyStr.split1_head "@" email)
     ∨ k ∈ generate_login_candidates_from_email cfg email
     ∨ k = PyStr.lower scim_user_name
     ∨ k = PyStr.lower (PyStr.split1_head "@" scim_user_name)
     ∨ k ∈ generate_login_candidates_from_email cfg scim_user_name).
  { destruct (PyStr.nonempty email), (PyStr.nonempty scim_user_name),
      (PyStr.contains "@" scim_user_name); set_solver. }
  split; [|done].
  destruct Hcases as [->|[->|[H|[->|[->|H]]]]];
    auto using lower_is_lowercase.
  - by apply login_candidates_inv in H as (_ & _ & _ & H & _).
  - by apply login_candidates_inv in H as (_ & _ & _ & H & _).
Qed.

Lemma first_claimant_inv (cfg : Config) (k : string) (users : list json)
    (r : ScimRec) :
  first_claimant cfg k users = Some r →
  ∃ pre u post, users = pre ++ u :: post
                ∧ Forall (λ u', k ∉ keys_of cfg u') pre
                ∧ k ∈ keys_of cfg u ∧ r = record_of u.
Proof.
  induction users as [|u users IH]; simpl; [done|].
  case_decide as Hk.
  - intros [= <-]. by exists [], u, users.
  - intros H. destruct (IH H) as (pre & u' & post & -> & Hpre & Hu & ->).
    exists (u :: pre), u', post. split; [done|]. split; [by constructor|done].
Qed.

Lemma keys_of_inv (cfg : Config) (u : json) (k : string) :
  k ∈ keys_of cfg u → Py.is_dict u = true ∧ is_lowercase k = true.
Proof.
  destruct u; simpl; try (intros H; by apply not_elem_of_empty in H).
  intros H. split; [done|]. by apply index_keys_inv in H as [H _].
Qed.

Lemma build_scim_index_lookup (cfg : Config) (users : list json) (k : string) :
  build_scim_index cfg users !! k
  = if decide (k = "") then None else first_claimant cfg k users.
Proof. unfold build_scim_index. by rewrite index_users_lookup, lookup_empty. Qed.

(** X3.  Every entry of the identity index has a non-empty, lowercase key
    and holds the identity fields of a directory record (an object of the
    input) whose key set contains that key, no earlier record having it. *)
Theorem build_scim_index_sound (cfg : Config) (scim_users : list json)
    (k : string) (r : ScimRec) :
  build_scim_index cfg scim_users !! k = Some r →
  k ≠ "" ∧ is_lowercase k = true
  ∧ ∃ pre u post, scim_users = pre ++ u :: post
                  ∧ Forall (λ u', k ∉ keys_of cfg u') pre
                  ∧ Py.is_dict u = true ∧ k ∈ keys_of cfg u
                  ∧ r = record_of u.
Proof.
  rewrite build_scim_index_lookup. case_decide as Hk; [done|].
  intros (pre & u & post & -> & Hpre & Hu & ->)%first_claimant_inv.
  destruct (keys_of_inv cfg u k Hu) as [Hd Hl].
  split; [done|]. split; [done|]. by exists pre, u, post.
Qed.

Lemma build_scim_index_sound_witness :
  is_lowercase "s-chander_newgen" = true.
Proof.
  destruct (build_scim_index_sound newgen_cfg [chander; impostor]
              "s-chander_newgen" (record_of chander)) as (_ & H & _);
    [by vm_compute|exact H].
Defined.

(** X4.  Feeding the index builder records it has already seen changes
    nothing: for a tail made of records of the head,
    [build (head ++ tail) = build head]. *)
Theorem build_scim_index_absorbs_repeats (cfg : Config)
    (scim_users again : list json) :
  (∀ u, u ∈ again → u ∈ scim_users) →
  build_scim_index cfg (scim_users ++ again) = build_scim_index cfg scim_users.
Proof.
  intros Hsub. apply map_eq. intros k. rewrite !build_scim_index_lookup.
  case_decide; [done|].
  induction scim_users as [|u users IH] in again, Hsub |- *; simpl.
  - destruct again as [|a again]; [done|].
    specialize (Hsub a ltac:(left)). by apply elem_of_nil in Hsub.
  - case_decide as Hk; [done|].
    assert (Hstep : ∀ l, first_claimant cfg k (l ++ again)
                         = match first_claimant cfg k l with
                           | Some r => Some r
                           | None => first_claimant cfg k again
                           end).
    { intros l. induction l as [|x l IHl]; simpl; [by destruct first_claimant|].
      by case_decide. }
    rewrite Hstep. destruct (first_claimant cfg k users) eqn:E; [done|].
    assert (Hnone : ∀ l, (∀ x, x ∈ l → k ∉ keys_of cfg x) →
                         first_claimant cfg k l = None).
    { intros l Hl. apply first_claimant_None, Forall_forall. done. }
    apply Hnone. intros x Hx Hkx. specialize (Hsub x Hx).
    apply elem_of_cons in Hsub as [->|Hin]; [done|].
    assert (first_claimant cfg k users ≠ None); [|done].
    clear -Hin Hkx. induction users as [|y users IH]; [by apply elem_of_nil in Hin|].
    simpl. case_decide; [done|].
    apply elem_of_cons in Hin as [->|Hin]; [done|]. by apply IH.
Qed.

Lemma build_scim_index_absorbs_repeats_witness :
  build_scim_index newgen_cfg ([chander; impostor] ++ [impostor; chander])
  = build_scim_index newgen_cfg [chander; impostor].
Proof.
  apply build_scim_index_absorbs_repeats. intros u Hu.
  apply elem_of_cons in Hu as [->|Hu]; [by right; left|].
  apply elem_of_cons in Hu as [->|Hu]; [by left|]. by apply elem_of_nil in Hu.
Defined.

(** ** pick_scim_email *)

Lemma first_email_Some (primary_only : bool) (emails pre post : list json)
    (d : list (string * json)) :
  emails = pre ++ JDict d :: post →
  Forall (λ e, usable_email primary_only e = false) pre →
  usable_email primary_only (JDict d) = true →
  first_email primary_only emails = Some d.
Proof.
  intros -> Hpre Hd. induction Hpre as [|e pre He _ IH]; simpl.
  - unfold usable_email, field in Hd. by rewrite Hd.
  - destruct e; try done. unfold usable_email, field in He. by rewrite He.
Qed.

Lemma first_email_None (primary_only : bool) (emails : list json) :
  Forall (λ e, usable_email primary_only e = false) emails →
  first_email primary_only emails = None.
Proof.
  induction 1 as [|e emails He _ IH]; simpl; [done|].
  destruct e; try done. unfold usable_email, field in He. by rewrite He.
Qed.

Lemma usable_email_value (primary_only : bool) (d : list (string * json)) :
  usable_email primary_only (JDict d) = true →
  Py.truthy (JDict d) = true
  ∧ str_or_empty_strip (field d "value") = PyStr.strip (Py.str (field d "value")).
Proof.
  unfold usable_email. intros [_ Hv]%andb_true_iff. split.
  - destruct d; [|done]. by unfold field in Hv.
  - unfold str_or_empty_strip, Py.or. by rewrite Hv.
Qed.

(** X5.  The e-mail of a directory record is chosen by precedence: the first
    entry of ["emails"] flagged primary with a value wins wherever it stands;
    without one, the first entry with a value; without any (or without a
    non-empty list of e-mails), the user name when it contains an '@', and
    the empty string otherwise. *)
Theorem pick_scim_email_by_precedence (u : list (string * json))
    (emails : list json) :
  field u "emails" = JList emails →
  (∀ pre d post,
     emails = pre ++ JDict d :: post →
     Forall (λ e, usable_email true e = false) pre →
     usable_email true (JDict d) = true →
     pick_scim_email u = PyStr.strip (Py.str (field d "value")))
  ∧ (Forall (λ e, usable_email true e = false) emails →
     ∀ pre d post,
       emails = pre ++ JDict d :: post →
       Forall (λ e, usable_email false e = false) pre →
       usable_email false (JDict d) = true →
       pick_scim_email u = PyStr.strip (Py.str (field d "value")))
  ∧ (Forall (λ e, usable_email false e = false) emails →
     pick_scim_email u
     = let user_name := PyStr.strip (Py.str (Py.or (field u "userName") (JStr ""))) in
       if PyStr.contains "@" user_name then user_name else "").
Proof.
  intros Hemails. unfold pick_scim_email. rewrite Hemails.
  split; [|split].
  - intros pre d post Hsplit Hpre Hd.
    assert (Py.or (JList emails) (JList []) = JList emails) as ->
      by (subst emails; by destruct pre).
    destruct emails as [|e0 emails']; [by destruct pre|].
    rewrite (first_email_Some true _ pre post d Hsplit Hpre Hd).
    destruct (usable_email_value true d Hd) as [-> ->]. done.
  - intros Hnone pre d post Hsplit Hpre Hd.
    assert (Py.or (JList emails) (JList []) = JList emails) as ->
      by (subst emails; by destruct pre).
    destruct emails as [|e0 emails']; [by destruct pre|].
    rewrite (first_email_None true _ Hnone).
    rewrite (first_email_Some false _ pre post d Hsplit Hpre Hd).
    destruct (usable_email_value false d Hd) as [-> ->]. done.
  - intros Hnone. destruct emails as [|e0 emails']; [done|].
    change (Py.or (JList (e0 :: emails')) (JList [])) with (JList (e0 :: emails')).
    assert (Hp : Forall (λ e, usable_email true e = false) (e0 :: emails')).
    { eapply Forall_impl; [exact Hnone|]. intros e He. destruct e; try done.
      simpl in *. rewrite He. apply andb_false_r. }
    cbv beta iota.
    by rewrite (first_email_None true _ Hp), (first_email_None false _ Hnone).
Qed.

Lemma pick_scim_email_by_precedence_witness :
  pick_scim_email
    [("emails", JList [JDict [("value", JStr "first@x.org")];
                       JStr "noise";
                       JDict [("value", JStr " main@x.org "); ("primary", JBool true)]])]
  = "main@x.org".
Proof.
  destruct (pick_scim_email_by_precedence
              [("emails", JList [JDict [("value", JStr "first@x.org")];
                                 JStr "noise";
                                 JDict [("value", JStr " main@x.org ");
                                        ("primary", JBool true)]])]
              [JDict [("value", JStr "first@x.org")]; JStr "noise";
               JDict [("value", JStr " main@x.org "); ("primary", JBool true)]]
              eq_refl) as (H & _).
  apply (H [JDict [("value", JStr "first@x.org")]; JStr "noise"]
           [("value", JStr " main@x.org "); ("primary", JBool true)] []);
    [reflexivity | repeat constructor | reflexivity].
Defined.

(** ** Trimming *)

Lemma lstrip_by_head (p : ascii → bool) (s : string) :
  match PyStr.lstrip_by p s with
  | EmptyString => True
  | String c _ => p c = false
  end.
Proof.
  induction s as [|c s IH]; simpl; [done|]. by destruct (p c) eqn:E.
Qed.

Lemma lstrip_by_fixed (p : ascii → bool) (c : ascii) (s : string) :
  p c = false → PyStr.lstrip_by p (String c s) = String c s.
Proof. intros H. simpl. by rewrite H. Qed.

Lemma rstrip_by_idem (p : ascii → bool) (s : string) :
  PyStr.rstrip_by p (PyStr.rstrip_by p s) = PyStr.rstrip_by p s.
Proof.
  induction s as [|c s IH]; simpl; [done|].
  destruct (PyStr.rstrip_by p s) as [|a r] eqn:E.
  - destruct (p c) eqn:Hc; simpl; [done|]. by rewrite Hc.
  - simpl in *. by rewrite IH.
Qed.

Lemma rstrip_by_keeps_head (p : ascii → bool) (c : ascii) (s : string) :
  p c = false → ∃ r, PyStr.rstrip_by p (String c s) = String c r.
Proof.
  intros Hc. simpl. destruct (PyStr.rstrip_by p s); [rewrite Hc|]; eauto.
Qed.

Lemma strip_by_idem (p : ascii → bool) (s : string) :
  PyStr.strip_by p (PyStr.strip_by p s) = PyStr.strip_by p s.
Proof.
  unfold PyStr.strip_by.
  pose proof (lstrip_by_head p s) as Hh.
  destruct (PyStr.lstrip_by p s) as [|c t] eqn:E; [done|].
  destruct (rstrip_by_keeps_head p c t Hh) as [r Hr].
  rewrite Hr, lstrip_by_fixed by done. rewrite <- Hr. apply rstrip_by_idem.
Qed.

Lemma strip_idem (s : string) : PyStr.strip (PyStr.strip s) = PyStr.strip s.
Proof. apply strip_by_idem. Qed.

Lemma lstrip_lower (s : string) :
  PyStr.lstrip_by PyStr.is_space (PyStr.lower s)
  = PyStr.lower (PyStr.lstrip_by PyStr.is_space s).
Proof.
  induction s as [|c s IH]; simpl; [done|].
  rewrite lower_char_space. by destruct (PyStr.is_space c).
Qed.

Lemma rstrip_lower (s : string) :
  PyStr.rstrip_by PyStr.is_space (PyStr.lower s)
  = PyStr.lower (PyStr.rstrip_by PyStr.is_space s).
Proof.
  induction s as [|c s IH]; simpl; [done|].
  rewrite IH, lower_char_space.
  destruct (PyStr.rstrip_by PyStr.is_space s); simpl; [|done].
  by destruct (PyStr.is_space c).
Qed.

Lemma strip_lower (s : string) :
  PyStr.strip (PyStr.lower s) = PyStr.lower (PyStr.strip s).
Proof.
  unfold PyStr.strip, PyStr.strip_by. by rewrite lstrip_lower, rstrip_lower.
Qed.

(** ** parse_membership_login *)

Lemma first_login_trimmed (m : json) (paths : list (list string)) :
  PyStr.strip (first_login m paths) = first_login m paths.
Proof.
  induction paths as [|path paths IH]; simpl; [done|].
  destruct (follow_path m path) as [[]|]; try done.
  destruct (PyStr.nonempty _); [apply strip_idem|done].
Qed.

Lemma parse_membership_login_trimmed (m : json) :
  PyStr.strip (parse_membership_login m) = parse_membership_login m.
Proof.
  unfold parse_membership_login. destruct (Py.is_dict m); cbn [negb]; [|done].
  apply first_login_trimmed.
Qed.

(** X6.  The login read off a membership record is trimmed, so the key under
    which [main] looks it up in the identity index is exactly its lowercase
    form; a record that is not an object yields no login; and a non-blank
    string at [user.login] is taken whatever the other fields hold. *)
Theorem parse_membership_login_spec (m : json) :
  PyStr.strip (parse_membership_login m) = parse_membership_login m
  ∧ PyStr.strip (PyStr.lower (parse_membership_login m))
    = PyStr.lower (parse_membership_login m)
  ∧ (Py.is_dict m = false → parse_membership_login m = "")
  ∧ (∀ s, follow_path m ["user"; "login"] = Some (JStr s) →
          PyStr.strip s ≠ "" → parse_membership_login m = PyStr.strip s)
  ∧ (∀ s, (∀ t, follow_path m ["user"; "login"] = Some (JStr t) →
                PyStr.strip t = "") →
          Py.is_dict m = true →
          follow_path m ["member"; "login"] = Some (JStr s) →
          PyStr.strip s ≠ "" → parse_membership_login m = PyStr.strip s).
Proof.
  split; [apply parse_membership_login_trimmed|].
  split; [by rewrite strip_lower, parse_membership_login_trimmed|].
  split; [by unfold parse_membership_login; intros ->|].
  split.
  - intros s Hp Hs. unfold parse_membership_login.
    assert (Py.is_dict m = true) as -> by (by destruct m).
    cbn [negb first_login]. rewrite Hp.
    apply nonempty_true in Hs. by rewrite Hs.
  - intros s Huser Hd Hp Hs. unfold parse_membership_login. rewrite Hd.
    cbn [negb first_login]. rewrite Hp.
    apply nonempty_true in Hs. rewrite Hs.
    destruct (follow_path m ["user"; "login"]) as [[]|]; try done.
    by rewrite (Huser s0 eq_refl).
Qed.

Lemma parse_membership_login_spec_witness :
  parse_membership_login
    (JDict [("login", JStr "other"); ("user", JDict [("login", JStr " Octo ")])])
  = "Octo".
Proof.
  destruct (parse_membership_login_spec
              (JDict [("login", JStr "other");
                      ("user", JDict [("login", JStr " Octo ")])]))
    as (_ & _ & _ & H & _).
  apply (H " Octo "); [reflexivity|discriminate].
Defined.

(** ** The seat map *)

Lemma index_seat_dict (by_login : gmap string (list (string * json)))
    (d : list (string * json)) :
  index_seat by_login (JDict d)
  = login ← seat_login d;
    mret (if PyStr.nonempty login then <[login := d]> by_login else by_login).
Proof.
  unfold index_seat, seat_login.
  destruct (PyDyn.get (JDict d) "assignee") as [a| |]; try done. simpl.
  destruct (PyDyn.get (Py.or a (JDict [])) "login") as [l| |]; try done.
Qed.

Lemma index_seat_outcome (by_login : gmap string (list (string * json)))
    (s : json) :
  (∃ by_login', index_seat by_login s = Ok by_login')
  ∨ index_seat by_login s = Raise AttributeError.
Proof.
  destruct s; try (by right). rewrite index_seat_dict. unfold seat_login.
  simpl. destruct (Py.or _ (JDict [])); try (by right). simpl.
  destruct (Py.or _ (JStr "")); try (by right). simpl. eauto.
Qed.

Lemma index_seats_raises (seats : list json) :
  ∀ by_login,
    (∃ s, s ∈ seats ∧ Py.is_dict s = false) →
    index_seats by_login seats = Raise AttributeError.
Proof.
  induction seats as [|s seats IH]; intros by_login (x & Hx & Hd).
  - by apply elem_of_nil in Hx.
  - simpl. destruct (index_seat_outcome by_login s) as [[by' Hs]| ->]; [|done].
    rewrite Hs. simpl. apply elem_of_cons in Hx as [->|Hx]; [by destruct s|].
    apply IH. eauto.
Qed.

Lemma index_seats_inv (seats : list json) :
  ∀ by0 by_login,
    index_seats by0 seats = Ok by_login →
    Forall (λ s, Py.is_dict s = true) seats
    ∧ (∀ k d, by_login !! k = Some d →
         by0 !! k = Some d
         ∨ (k ≠ "" ∧ PyStr.strip k = k ∧ JDict d ∈ seats ∧ seat_login d = Ok k))
    ∧ (∀ k, (∀ d, JDict d ∈ seats → seat_login d ≠ Ok k) →
            by_login !! k = by0 !! k).
Proof.
  induction seats as [|s seats IH]; intros by0 by_login; simpl.
  - intros [= <-]. split; [constructor|]. split; [by left|done].
  - destruct (index_seat by0 s) as [by1| |] eqn:Hs; try done. simpl.
    intros Hrest. destruct (IH _ _ Hrest) as (Hall & Hsound & Hkeep).
    destruct s as [| | | | |d0]; try done. rewrite index_seat_dict in Hs.
    destruct (seat_login d0) as [login| |] eqn:Hlogin; try done.
    simpl in Hs. injection Hs as <-.
    split; [by constructor|]. split.
    + intros k d Hk. destruct (Hsound k d Hk) as [H1|(Hne & Htr & Hin & Hl)].
      * destruct (PyStr.nonempty login) eqn:Hnl; [|by left].
        destruct (decide (login = k)) as [->|Hne].
        -- rewrite lookup_insert_eq in H1. injection H1 as <-. right.
           split; [by apply nonempty_true|].
           split; [|split; [left|done]].
           unfold seat_login in Hlogin.
           destruct (PyDyn.get _ "assignee"); try done. simpl in Hlogin.
           destruct (PyDyn.get _ "login"); try done. simpl in Hlogin.
           destruct (Py.or _ (JStr "")); try done. simpl in Hlogin.
           injection Hlogin as <-. apply strip_idem.
        -- rewrite lookup_insert_ne in H1 by done. by left.
      * right. split; [done|]. split; [done|]. split; [by right|done].
    + intros k Hnone. rewrite Hkeep by (intros d Hd; apply Hnone; by right).
      destruct (PyStr.nonempty login); [|done].
      rewrite lookup_insert_ne; [done|]. intros ->.
      by apply (Hnone d0); [left|].
Qed.

(** X7.  The seat map is last-write-wins: after indexing, a login is mapped
    to the last seat of the input carrying it.  Its keys are non-empty and
    trimmed, and every entry is a seat of the input under its own login. *)
Theorem index_seats_last_write_wins (seats : list json)
    (by_login : gmap string (list (string * json))) :
  index_seats ∅ seats = Ok by_login →
  (∀ pre d post k,
     seats = pre ++ JDict d :: post → seat_login d = Ok k → k ≠ "" →
     (∀ d', JDict d' ∈ post → seat_login d' ≠ Ok k) →
     by_login !! k = Some d)
  ∧ (∀ k d, by_login !! k = Some d →
       k ≠ "" ∧ PyStr.strip k = k ∧ JDict d ∈ seats ∧ seat_login d = Ok k).
Proof.
  intros Hrun. split.
  - intros pre d post k -> Hd Hk Hpost.
    assert (Hsplit : ∃ by1, index_seats ∅ pre = Ok by1
                            ∧ index_seats by1 (JDict d :: post) = Ok by_login).
    { clear -Hrun. revert Hrun. generalize (∅ : gmap string (list (string * json))).
      induction pre as [|s pre IH]; intros by0; simpl; [eauto|].
      destruct (index_seat by0 s); simpl; try done. apply IH. }
    destruct Hsplit as (by1 & _ & Hrest). simpl in Hrest.
    rewrite index_seat_dict, Hd in Hrest. simpl in Hrest.
    apply nonempty_true in Hk. rewrite Hk in Hrest.
    destruct (index_seats_inv _ _ _ Hrest) as (_ & _ & Hkeep).
    by rewrite (Hkeep k Hpost), lookup_insert_eq.
  - intros k d Hk. destruct (index_seats_inv _ _ _ Hrun) as (_ & Hsound & _).
    destruct (Hsound k d Hk) as [H|H]; [by rewrite lookup_empty in H|done].
Qed.

Lemma index_seats_last_write_wins_witness :
  ∃ by_login,
    index_seats ∅ [seat_of "octo" "2024-01-01T00:00:00Z";
                   seat_of " octo " "2024-02-02T00:00:00Z"] = Ok by_login
    ∧ by_login !! "octo"
      = Some [("assignee", JDict [("login", JStr " octo ")]);
              ("status", JStr "active"); ("plan_type", JStr "business");
              ("last_activity_at", JStr "2024-02-02T00:00:00Z");
              ("created_at", JStr "2023-06-01T00:00:00Z");
              ("updated_at", JStr "2023-12-31T00:00:00Z")].
Proof.
  destruct (index_seats ∅ [seat_of "octo" "2024-01-01T00:00:00Z";
                           seat_of " octo " "2024-02-02T00:00:00Z"])
    as [by_login| |] eqn:Hrun; try (by vm_compute in Hrun).
  exists by_login. split; [done|].
  destruct (index_seats_last_write_wins _ _ Hrun) as [H _].
  apply (H [seat_of "octo" "2024-01-01T00:00:00Z"] _ [] "octo");
    [reflexivity | reflexivity | discriminate |].
  intros d' Hd'. by apply elem_of_nil in Hd'.
Defined.

(** X8.  Indexing the seats never half-succeeds on a malformed entry: a seat
    that is not an object makes the whole indexing raise AttributeError, and
    no other error can come out of it. *)
Theorem index_seats_malformed (seats : list json)
    (by0 : gmap string (list (string * json))) :
  ((∃ s, s ∈ seats ∧ Py.is_dict s = false) →
   index_seats by0 seats = Raise AttributeError)
  ∧ ((∃ by_login, index_seats by0 seats = Ok by_login)
     ∨ index_seats by0 seats = Raise AttributeError).
Proof.
  split; [apply index_seats_raises|].
  revert by0. induction seats as [|s seats IH]; intros by0; simpl; [eauto|].
  destruct (index_seat_outcome by0 s) as [[by' ->]| ->]; [apply IH|by right].
Qed.

Lemma index_seats_malformed_witness :
  index_seats ∅ [seat_of "octo" "2024-01-01T00:00:00Z"; JNull]
  = Raise AttributeError.
Proof.
  destruct (index_seats_malformed
              [seat_of "octo" "2024-01-01T00:00:00Z"; JNull] ∅) as [H _].
  apply H. exists JNull. split; [by right; left|done].
Defined.

(** ** The waits of gh_get *)

Lemma map_seq_succ {A : Type} (f : nat → A) (n : nat) :
  map f (seq 0 (S n)) = f 0%nat :: map (λ i, f (S i)) (seq 0 n).
Proof. simpl. f_equal. by rewrite <- seq_shift, map_map. Qed.

Lemma waits_by_index (f : Z → Z) (waits : list Z) :
  ∀ a, (∀ i t, waits !! i = Some t → t = f (a + Z.of_nat i)) →
       waits = map (λ i, f (a + Z.of_nat i)) (seq 0 (length waits)).
Proof.
  induction waits as [|t waits IH]; intros a Hval; [done|].
  cbn [length]. rewrite map_seq_succ. f_equal.
  - by apply (Hval 0%nat).
  - etrans; [apply (IH (a + 1))|].
    + intros i t' Hi. rewrite (Hval (S i) t' Hi). f_equal. lia.
    + apply map_ext. intros i. f_equal. lia.
Qed.

(** X9.  Whether it returns or raises, [gh_get] sleeps at most six times,
    and never for a negative time nor for longer than [time.sleep] takes;
    when the server sends no Retry-After header it returns a response and
    the waits are the first of 2, 4, 6, 8, 10, 12 seconds, so the cap of 30
    seconds is never reached and one call waits at most 42 seconds. *)
Theorem gh_get_waits (srv : Server) (url headers : string)
    (params : list (string * Z)) (w : World) :
  ∃ o w' waits,
    gh_get srv url headers params w = (o, w')
    ∧ slept w' = slept w ++ waits
    ∧ (length waits ≤ 6)%nat
    ∧ Forall (λ t, 0 ≤ t ≤ Http.SLEEP_MAX) waits
    ∧ ((∀ n, retry_after (srv n) = None) →
       (∃ resp, o = Ok (Some resp))
       ∧ waits = take (length waits) [2; 4; 6; 8; 10; 12]).
Proof.
  destruct (gh_get_run srv url headers params w)
    as (n & waits & o & w' & Hget & Hn & _ & Hsl & _ & _ & Hwaits & Hend).
  assert (Hm : (length waits ≤ 6)%nat).
  { destruct Hend as [(_ & _ & ->)|(e & _ & _ & _ & ->)]; [|lia].
    destruct (retryable _); lia. }
  exists o, w', waits. do 3 (split; [done|]). split.
  - apply Forall_lookup. intros i t Hi.
    by apply Hwaits, taken_wait_Ok in Hi as [_ ?].
  - intros Hnone. split.
    + destruct Hend as [(-> & _)|(e & _ & _ & He & _)]; [by eauto|].
      unfold taken_wait in He.
      rewrite retry_wait_default in He by (by left).
      destruct (Z.ltb_spec (Z.min 30 (2 * (1 + Z.of_nat (n - 1)))) 0); [lia|].
      destruct (Z.ltb_spec Http.SLEEP_MAX
                  (Z.min 30 (2 * (1 + Z.of_nat (n - 1)))));
        [unfold Http.SLEEP_MAX in *; lia|done].
    + rewrite (waits_by_index (λ a, Z.min 30 (2 * a)) waits 1) at 1.
      * revert Hm. generalize (length waits). clear. intros m Hm.
        do 7 (destruct m as [|m]; [reflexivity|]). lia.
      * intros i t Hi. apply Hwaits, taken_wait_Ok in Hi as [Hi _].
        rewrite retry_wait_default in Hi by (by left). by injection Hi as <-.
Qed.

(** ** Page-number collection *)

Lemma dict_lookup_set_eq {V : Type} (k : string) (v : V)
    (d : list (string * V)) :
  Py.dict_lookup (Py.dict_set k v d) k = Some v.
Proof.
  induction d as [|[k' v'] d IH]; simpl.
  - by rewrite bool_decide_eq_true_2.
  - case_bool_decide as Hk; simpl.
    + by rewrite bool_decide_eq_true_2.
    + by rewrite bool_decide_eq_false_2.
Qed.

Lemma dict_lookup_set_ne {V : Type} (k k0 : string) (v : V)
    (d : list (string * V)) :
  k0 ≠ k → Py.dict_lookup (Py.dict_set k v d) k0 = Py.dict_lookup d k0.
Proof.
  intros Hne. induction d as [|[k' v'] d IH]; simpl.
  - by rewrite bool_decide_eq_false_2.
  - case_bool_decide as Hk; simpl.
    + subst k'. by rewrite !bool_decide_eq_false_2.
    + by rewrite IH.
Qed.

(** The parameters of a page request: ["per_page"] and ["page"] are bound
    to the values of the loop whatever [extra_params] holds, and the other
    keys are those of [extra_params]. *)
Lemma paged_params_lookup (extra_params : list (string * Z))
    (per_page page : Z) :
  Py.dict_lookup (paged_params extra_params per_page page) "per_page"
  = Some per_page
  ∧ Py.dict_lookup (paged_params extra_params per_page page) "page" = Some page
  ∧ (∀ k, k ≠ "per_page" → k ≠ "page" →
          Py.dict_lookup (paged_params extra_params per_page page) k
          = Py.dict_lookup (Py.dict_of extra_params) k)
  ∧ paged_params [] per_page page = [("per_page", per_page); ("page", page)].
Proof.
  unfold paged_params. split; [|split; [|split]].
  - by rewrite dict_lookup_set_ne, dict_lookup_set_eq.
  - by rewrite dict_lookup_set_eq.
  - intros k H1 H2. by rewrite !dict_lookup_set_ne.
  - reflexivity.
Qed.

Lemma page_status_passes (st : Z) :
  ¬ (400 ≤ st < 600) →
  retryable st = false ∧ bool_decide (st ∈ [403; 404]) = false.
Proof.
  intros Hst. split.
  - destruct (retryable st) eqn:Hr; [|done].
    apply retryable_iff in Hr. lia.
  - apply bool_decide_eq_false_2. rewrite !elem_of_cons, elem_of_nil. lia.
Qed.

Lemma fetch_rest_list_paged_loop_step (fuel : nat) (srv : Server)
    (url headers : string) (keys : list string) (per_page : Z)
    (extra_params : list (string * Z)) (out : list json) (page : Z)
    (w : World) (items : list json) :
  page_answer keys (srv (length (sent w))) items →
  fetch_rest_list_paged_loop (S fuel) srv url headers keys per_page
    extra_params out page w
  = let w1 := after_get w url headers
                (paged_params extra_params per_page page) in
    if Z.of_nat (length items) <? per_page then (Ok (out ++ items), w1)
    else fetch_rest_list_paged_loop fuel srv url headers keys per_page
           extra_params (out ++ items) (page + 1) w1.
Proof.
  intros (Hst & payload & Hbody & Hnorm). cbn [fetch_rest_list_paged_loop].
  destruct (page_status_passes _ Hst) as [Hr Hacc]. cbv zeta.
  rewrite run_bind_eq, gh_get_pass by done.
  cbn [the_response]. rewrite run_bind_eq. cbn [mret Run_ret run_ret].
  rewrite Hacc, run_bind_eq.
  match goal with
  | |- context [Http.raise_for_status ?r ?w'] =>
      destruct (raise_for_status_cases r w')
        as [[-> _]|(msg & _ & Hbad)]; [|done]
  end.
  rewrite run_bind_eq. unfold Http.json_of. rewrite Hbody.
  cbn [mret Run_ret run_ret]. rewrite run_bind_eq, Hnorm, lift_Ok.
  unfold after_get. by destruct (_ <? _).
Qed.

Lemma fetch_rest_list_paged_loop_collects (srv : Server)
    (url headers : string) (keys : list string) (per_page : Z)
    (extra_params : list (string * Z)) (last : list json)
    (pages : list (list json)) :
  ∀ (fuel : nat) (out : list json) (page : Z) (w : World),
    (length pages < fuel)%nat →
    (∀ i pg, pages !! i = Some pg →
             page_answer keys (srv (length (sent w) + i)%nat) pg
             ∧ per_page ≤ Z.of_nat (length pg)) →
    page_answer keys (srv (length (sent w) + length pages)%nat) last →
    Z.of_nat (length last) < per_page →
    fetch_rest_list_paged_loop fuel srv url headers keys per_page
      extra_params out page w
    = (Ok (out ++ concat pages ++ last),
       {| sent := sent w ++
            map (λ i, {| req_url := url; req_accept := headers;
                         req_params := paged_params extra_params per_page
                                         (page + Z.of_nat i) |})
                (seq 0 (S (length pages)));
          slept := slept w; clock := clock w; logged := logged w |}).
Proof.
  induction pages as [|pg pages IH]; intros fuel out page w Hfuel Hfull Hlast Hshort.
  - destruct fuel as [|fuel]; [simpl in Hfuel; lia|].
    rewrite Nat.add_0_r in Hlast.
    rewrite (fetch_rest_list_paged_loop_step _ _ _ _ _ _ _ _ _ _ last Hlast).
    cbv zeta. apply Z.ltb_lt in Hshort. rewrite Hshort.
    simpl. by rewrite Z.add_0_r.
  - destruct fuel as [|fuel]; [simpl in Hfuel; lia|].
    destruct (Hfull 0%nat pg eq_refl) as [Hpg Hlen].
    rewrite Nat.add_0_r in Hpg.
    rewrite (fetch_rest_list_paged_loop_step _ _ _ _ _ _ _ _ _ _ pg Hpg).
    cbv zeta. destruct (Z.ltb_spec (Z.of_nat (length pg)) per_page); [lia|].
    assert (Hlen1 : length (sent (after_get w url headers
                     (paged_params extra_params per_page page)))
                    = S (length (sent w))).
    { simpl. rewrite length_app. simpl. lia. }
    rewrite (IH fuel).
    + f_equal; [by rewrite concat_cons, <- !app_assoc|].
      unfold after_get. cbn [sent slept clock logged]. f_equal.
      rewrite <- app_assoc. f_equal.
      change (length (pg :: pages)) with (S (length pages)).
      rewrite (map_seq_succ _ (S (length pages))).
      cbn [app]. rewrite Z.add_0_r. f_equal.
      apply map_ext. intros i.
      by replace (page + 1 + Z.of_nat i) with (page + Z.of_nat (S i)) by lia.
    + simpl in Hfuel. lia.
    + intros i pg' Hi. rewrite Hlen1.
      replace (S (length (sent w)) + i)%nat with (length (sent w) + S i)%nat by lia.
      by apply Hfull.
    + rewrite Hlen1.
      replace (S (length (sent w)) + length pages)%nat
        with (length (sent w) + length (pg :: pages))%nat by (simpl; lia).
      done.
    + done.
Qed.

(** X10.  Against a server that answers every page request at once, with a
    status outside 400-599 and a well-formed page, [fetch_rest_list_paged]
    asks for pages 1, 2, ... in order, goes on exactly while the page holds
    at least [per_page] items, and returns all items in the order received;
    it issues one request per page and never sleeps.  Each request carries
    the parameters of [extra_params] with ["per_page"] and ["page"] set to
    the values of the loop, replacing any value [extra_params] gives them. *)
Theorem fetch_rest_list_paged_collects (srv : Server) (url headers : string)
    (keys : list string) (per_page : Z) (extra_params : list (string * Z))
    (pages : list (list json)) (last : list json) (fuel : nat) (w : World) :
  (length pages < fuel)%nat →
  (∀ i pg, pages !! i = Some pg →
           page_answer keys (srv (length (sent w) + i)%nat) pg
           ∧ per_page ≤ Z.of_nat (length pg)) →
  page_answer keys (srv (length (sent w) + length pages)%nat) last →
  Z.of_nat (length last) < per_page →
  fetch_rest_list_paged fuel srv url headers keys per_page extra_params w
  = (Ok (concat pages ++ last),
     {| sent := sent w ++
          map (λ i, {| req_url := url; req_accept := headers;
                       req_params := paged_params extra_params per_page
                                       (1 + Z.of_nat i) |})
              (seq 0 (S (length pages)));
        slept := slept w; clock := clock w; logged := logged w |})
  ∧ (∀ page,
       Py.dict_lookup (paged_params extra_params per_page page) "per_page"
       = Some per_page
       ∧ Py.dict_lookup (paged_params extra_params per_page page) "page"
         = Some page
       ∧ (∀ k, k ≠ "per_page" → k ≠ "page" →
               Py.dict_lookup (paged_params extra_params per_page page) k
               = Py.dict_lookup (Py.dict_of extra_params) k)
       ∧ paged_params [] per_page page = [("per_page", per_page); ("page", page)]).
Proof.
  intros. split; [|intros; apply paged_params_lookup].
  unfold fetch_rest_list_paged.
  by rewrite (fetch_rest_list_paged_loop_collects srv url headers keys per_page
                extra_params last pages).
Qed.

Lemma fetch_rest_list_paged_collects_witness :
  fetch_rest_list_paged 2 two_pages_srv "u" HEADERS_JSON
    ["teams"; "items"; "data"] 2 [("page", 5); ("state", 1)] world0
  = (Ok [JNum 1; JNum 2; JNum 3],
     {| sent := [{| req_url := "u"; req_accept := HEADERS_JSON;
                    req_params := [("page", 1); ("state", 1); ("per_page", 2)] |};
                 {| req_url := "u"; req_accept := HEADERS_JSON;
                    req_params := [("page", 2); ("state", 1); ("per_page", 2)] |}];
        slept := []; clock := 0; logged := [] |}).
Proof.
  destruct (fetch_rest_list_paged_collects two_pages_srv "u" HEADERS_JSON
              ["teams"; "items"; "data"] 2 [("page", 5); ("state", 1)]
              [[JNum 1; JNum 2]] [JNum 3] 2 world0) as [Hrun _];
    [simpl; lia | | | simpl; lia | by rewrite Hrun].
  - intros [|i] pg Hpg; [|by destruct i].
    injection Hpg as <-. split; [|simpl; lia].
    split; [simpl; lia|]. eexists. split; reflexivity.
  - split; [simpl; lia|]. eexists. split; reflexivity.
Defined.

(** ** Seat pages *)

(** X11.  A seat page whose payload is empty or null, or is an object whose
    ["seats"] is missing, null or empty, is taken as the end of the listing:
    nothing is raised and the seats gathered so far are returned after that
    single request. *)
Theorem fetch_seat_pages_missing_seats (fuel : nat) (cfg : Config)
    (srv : Server) (per_page : Z) (all_seats : list json) (page : Z)
    (w : World) (payload : json) :
  status_code (srv (length (sent w))) = 200 →
  body (srv (length (sent w))) = Some payload →
  Py.truthy payload = false
  ∨ (∃ d, payload = JDict d
          ∧ Py.truthy (default (JList []) (Py.dict_get d "seats")) = false) →
  0 < per_page →
  fetch_seat_pages (S fuel) cfg srv per_page all_seats page w
  = (Ok all_seats,
     after_get w (seats_url cfg) HEADERS_JSON
       [("per_page", per_page); ("page", page)]).
Proof.
  intros Hst Hbody Hpayload Hpp. cbn [fetch_seat_pages].
  rewrite run_bind_eq, gh_get_pass by (by rewrite Hst).
  cbn [the_response]. rewrite run_bind_eq. cbn [mret Run_ret run_ret].
  rewrite run_bind_eq.
  match goal with
  | |- context [Http.raise_for_status ?r ?w'] =>
      destruct (raise_for_status_cases r w')
        as [[-> _]|(msg & _ & Hbad)]; [|rewrite Hst in Hbad; lia]
  end.
  rewrite run_bind_eq. unfold Http.json_of. rewrite Hbody.
  cbn [mret Run_ret run_ret]. rewrite run_bind_eq.
  assert (Hseats : ∃ sv, PyDyn.get_or (Py.or payload (JDict [])) "seats" (JList [])
                         = Ok sv ∧ Py.truthy sv = false).
  { destruct Hpayload as [Hf|(d & -> & Hf)].
    - unfold Py.or. rewrite Hf. by exists (JList []).
    - exists (default (JList []) (Py.dict_get d "seats")). split; [|done].
      unfold Py.or. by destruct d. }
  destruct Hseats as (sv & -> & Hsv). rewrite lift_Ok.
  unfold Py.or at 1 2. rewrite Hsv.
  rewrite run_bind_eq. cbn [PyDyn.iter]. rewrite lift_Ok.
  rewrite run_bind_eq. cbn [PyDyn.len length]. rewrite lift_Ok.
  destruct (Z.ltb_spec (Z.of_nat 0) per_page); [|simpl in *; lia].
  by rewrite app_nil_r.
Qed.

Lemma fetch_seat_pages_missing_seats_witness :
  (fetch_seat_pages 1 newgen_cfg
     (λ _, ok_response (JDict [("total_seats", JNum 5)])) 100
     [seat_of "octo" "2024-01-01T00:00:00Z"] 3 world0).1
  = Ok [seat_of "octo" "2024-01-01T00:00:00Z"].
Proof.
  rewrite (fetch_seat_pages_missing_seats 0 newgen_cfg
             (λ _, ok_response (JDict [("total_seats", JNum 5)])) 100
             [seat_of "octo" "2024-01-01T00:00:00Z"] 3 world0
             (JDict [("total_seats", JNum 5)]));
    [reflexivity | reflexivity | reflexivity | | lia].
  right. eexists. split; reflexivity.
Defined.

(** ** The metrics script: rate limit and link-header paging *)



Lemma handle_rate_limit_no_headers (resp : Response) (w : World) :
  ratelimit_remaining resp = None → ratelimit_reset resp = None →
  handle_rate_limit resp w = (Ok (), w).
Proof. intros H1 H2. unfold handle_rate_limit. by rewrite H1, H2. Qed.

Lemma fetch_team_metrics_loop_step (fuel : nat) (enterprise : string)
    (srv : Server) (team_slug : string) (all_entries : list json) (page : Z)
    (w : World) (items : list json) :
  metrics_answer (srv (length (sent w))) items →
  fetch_team_metrics_loop (S fuel) enterprise srv team_slug all_entries page w
  = let req := {| req_url := metrics_url enterprise team_slug;
                  req_accept := "application/vnd.github+json";
                  req_params := page_params page |} in
    if links_next (srv (length (sent w))) then
      fetch_team_metrics_loop fuel enterprise srv team_slug
        (all_entries ++ items) (page + 1) (after_pages w [req] 1)
    else (Ok (all_entries ++ items), after_pages w [req] 0).
Proof.
  intros (Hst & Hrem & Hreset & data & Hbody & Htruthy & Hiter).
  cbn [fetch_team_metrics_loop]. rewrite run_bind_eq. unfold Http.get at 1.
  rewrite run_bind_eq, handle_rate_limit_no_headers by done.
  rewrite Hst. cbn [Z.eqb Pos.eqb negb]. rewrite run_bind_eq.
  unfold Http.json_of. rewrite Hbody. cbn [mret Run_ret run_ret].
  rewrite Htruthy. cbn [negb]. rewrite run_bind_eq, Hiter, lift_Ok.
  cbv zeta. destruct (links_next _).
  - rewrite run_bind_eq. unfold Http.sleep, modify, after_pages. simpl.
    by rewrite Z.add_comm.
  - unfold after_pages. simpl. by rewrite app_nil_r, Z.add_0_r.
Qed.

Lemma fetch_team_metrics_loop_follows (enterprise : string) (srv : Server)
    (team_slug : string) (last : list json) (pages : list (list json)) :
  ∀ (fuel : nat) (all_entries : list json) (page : Z) (w : World),
    (length pages < fuel)%nat →
    (∀ i pg, pages !! i = Some pg →
             metrics_answer (srv (length (sent w) + i)%nat) pg
             ∧ links_next (srv (length (sent w) + i)%nat) = true) →
    metrics_answer (srv (length (sent w) + length pages)%nat) last →
    links_next (srv (length (sent w) + length pages)%nat) = false →
    fetch_team_metrics_loop fuel enterprise srv team_slug all_entries page w
    = (Ok (all_entries ++ concat pages ++ last),
       after_pages w
         (map (λ i, {| req_url := metrics_url enterprise team_slug;
                       req_accept := "application/vnd.github+json";
                       req_params := page_params (page + Z.of_nat i) |})
              (seq 0 (S (length pages))))
         (length pages)).
Proof.
  induction pages as [|pg pages IH];
    intros fuel all_entries page w Hfuel Hfull Hlast Hnext.
  - destruct fuel as [|fuel]; [simpl in Hfuel; lia|].
    rewrite Nat.add_0_r in Hlast, Hnext.
    rewrite (fetch_team_metrics_loop_step _ _ _ _ _ _ _ last Hlast).
    cbv zeta. rewrite Hnext. simpl. by rewrite Z.add_0_r.
  - destruct fuel as [|fuel]; [simpl in Hfuel; lia|].
    destruct (Hfull 0%nat pg eq_refl) as [Hpg Hnx].
    rewrite Nat.add_0_r in Hpg, Hnx.
    rewrite (fetch_team_metrics_loop_step _ _ _ _ _ _ _ pg Hpg).
    cbv zeta. rewrite Hnx.
    assert (Hlen1 : ∀ r, length (sent (after_pages w [r] 1)) = S (length (sent w))).
    { intros r. simpl. rewrite length_app. simpl. lia. }
    rewrite (IH fuel).
    + f_equal; [by rewrite concat_cons, <- !app_assoc|].
      unfold after_pages. cbn [sent slept clock logged]. f_equal.
      * rewrite <- app_assoc. f_equal.
        change (length (pg :: pages)) with (S (length pages)).
        rewrite (map_seq_succ _ (S (length pages))).
        cbn [app]. rewrite Z.add_0_r. f_equal.
        apply map_ext. intros i.
        by replace (page + 1 + Z.of_nat i) with (page + Z.of_nat (S i)) by lia.
      * by rewrite <- app_assoc.
      * simpl length. lia.
    + simpl in Hfuel. lia.
    + intros i pg' Hi. rewrite Hlen1.
      replace (S (length (sent w)) + i)%nat with (length (sent w) + S i)%nat by lia.
      by apply Hfull.
    + rewrite Hlen1.
      by replace (S (length (sent w)) + length pages)%nat
        with (length (sent w) + length (pg :: pages))%nat by (simpl; lia).
    + rewrite Hlen1.
      by replace (S (length (sent w)) + length pages)%nat
        with (length (sent w) + length (pg :: pages))%nat by (simpl; lia).
Qed.

(** X13.  [fetch_team_metrics] follows the "next" links: against a server
    answering well-formed, non-empty pages it asks for pages 1, 2, ... as
    long as the answer carries a next link, whatever the size of the page,
    sleeps one second between two pages, and returns the entries of all the
    pages in order. *)
Theorem fetch_team_metrics_follows_links (enterprise : string) (srv : Server)
    (team_slug : string) (pages : list (list json)) (last : list json)
    (fuel : nat) (w : World) :
  (length pages < fuel)%nat →
  (∀ i pg, pages !! i = Some pg →
           metrics_answer (srv (length (sent w) + i)%nat) pg
           ∧ links_next (srv (length (sent w) + i)%nat) = true) →
  metrics_answer (srv (length (sent w) + length pages)%nat) last →
  links_next (srv (length (sent w) + length pages)%nat) = false →
  fetch_team_metrics fuel enterprise srv team_slug w
  = (Ok (concat pages ++ last),
     {| sent := sent w ++
          map (λ i, {| req_url := metrics_url enterprise team_slug;
                       req_accept := "application/vnd.github+json";
                       req_params := [("per_page", 100);
                                      ("page", 1 + Z.of_nat i)] |})
              (seq 0 (S (length pages)));
        slept := slept w ++ replicate (length pages) 1;
        clock := clock w + Z.of_nat (length pages);
        logged := logged w |}).
Proof.
  intros. unfold fetch_team_metrics.
  by rewrite (fetch_team_metrics_loop_follows enterprise srv team_slug last pages).
Qed.

Lemma fetch_team_metrics_follows_links_witness :
  let '(r, w) := fetch_team_metrics 2 "acme" linked_pages_srv "core" world0 in
  r = Ok [JNum 1; JNum 2; JNum 3] ∧ slept w = [1].
Proof.
  rewrite (fetch_team_metrics_follows_links "acme" linked_pages_srv "core"
             [[JNum 1]] [JNum 2; JNum 3] 2 world0); [done | simpl; lia | | | done].
  - intros [|i] pg Hpg; [|by destruct i]. injection Hpg as <-.
    split; [|done]. repeat split. by eexists.
  - repeat split. by eexists.
Defined.

(** X14.  In [fetch_team_metrics], once the rate limit of a 200 answer is
    handled, an empty page (an empty array or object, or null) ends the
    collection silently even when it carries a next link, and a body that is
    not JSON raises instead of ending it. *)
Theorem fetch_team_metrics_empty_page (fuel : nat) (enterprise : string)
    (srv : Server) (team_slug : string) (all_entries : list json) (page : Z)
    (w w1 : World) :
  status_code (srv (length (sent w))) = 200 →
  handle_rate_limit (srv (length (sent w)))
    (asked w (metrics_url enterprise team_slug) page) = (Ok (), w1) →
  (∀ data, body (srv (length (sent w))) = Some data →
           Py.truthy data = false →
           fetch_team_metrics_loop (S fuel) enterprise srv team_slug
             all_entries page w
           = (Ok all_entries, w1))
  ∧ (body (srv (length (sent w))) = None →
     fetch_team_metrics_loop (S fuel) enterprise srv team_slug
       all_entries page w
     = (Raise JSONDecodeError, w1)).
Proof.
  intros Hst Hrl.
  pose proof (metrics_entries_loop_handled srv enterprise fuel page w
                team_slug all_entries w1 Hrl) as Hloop.
  rewrite Hst in Hloop. cbn [Z.eqb Pos.eqb negb] in Hloop. split.
  - intros data Hbody Hfalsy. by rewrite Hloop, Hbody, Hfalsy.
  - intros Hbody. by rewrite Hloop, Hbody.
Qed.

Lemma fetch_team_metrics_empty_page_witness :
  fetch_team_metrics_loop 1 "acme" empty_linked_srv "core" [JNum 7] 4 world0
  = (Ok [JNum 7], asked world0 (metrics_url "acme" "core") 4).
Proof.
  destruct (fetch_team_metrics_empty_page 0 "acme" empty_linked_srv "core"
              [JNum 7] 4 world0 (asked world0 (metrics_url "acme" "core") 4)
              eq_refl eq_refl) as [H _].
  exact (H (JList []) eq_refl eq_refl).
Defined.

(** ** What write_to_csv writes, whatever the entries *)

Section AppendsOnly.
Context {S : Type}.
Variable proj : S → Writer.
Variable P : list json → Prop.

Lemma appends_only_lift {A : Type} (o : outcome A) :
  appends_only proj P (lift o : Run S A).
Proof. intros s. exists []. by rewrite app_nil_r. Qed.

Lemma appends_only_ret {A : Type} (a : A) :
  appends_only proj P (mret a : Run S A).
Proof. intros s. exists []. by rewrite app_nil_r. Qed.

Lemma appends_only_bind {A B : Type} (m : Run S A) (f : A → Run S B) :
  appends_only proj P m → (∀ a, appends_only proj P (f a)) →
  appends_only proj P (m ≫= f).
Proof.
  intros Hm Hf s. rewrite run_bind_eq.
  destruct (Hm s) as (new & Hnew & HP).
  destruct (m s) as [[a| |] s1] eqn:E; simpl in Hnew.
  - destruct (Hf a s1) as (new' & Hnew' & HP').
    exists (new ++ new'). rewrite Hnew', Hnew, <- app_assoc. split; [done|].
    by apply Forall_app.
  - by exists new.
  - by exists new.
Qed.

Lemma appends_only_for {A : Type} (xs : list A) (body : A → Run S unit) :
  (∀ x, appends_only proj P (body x)) → appends_only proj P (for_ xs body).
Proof.
  intros Hbody. induction xs as [|x xs IH]; simpl.
  - apply appends_only_ret.
  - apply appends_only_bind; [apply Hbody|]. intros _. apply IH.
Qed.

End AppendsOnly.

Lemma appends_only_writerow (P : list json → Prop) (cells : list json) :
  P cells → appends_only id P (writerow cells).
Proof. intros H rows. exists [cells]. split; [done|]. by constructor. Qed.

(** Discharges [appends_only] along the binds of a flattening function. *)
Ltac appends_only_steps :=
  repeat first
    [ apply appends_only_lift
    | apply appends_only_for; intros ?
    | apply appends_only_writerow
    | apply appends_only_bind; [|intros ?] ].

Lemma write_entry_appends (enterprise_id team_name entry : json) :
  appends_only id (metrics_row enterprise_id team_name)
    (write_entry enterprise_id team_name entry).
Proof.
  unfold write_entry, completion_editor, completion_model, completion_row,
    chat_editor_rows, chat_row.
  appends_only_steps; by repeat split.
Qed.

Lemma write_to_csv_rows_shape (enterprise_id team_name : json)
    (entries : list json) (rows : Writer) :
  ∃ new, (write_to_csv enterprise_id team_name entries rows).2 = rows ++ new
         ∧ Forall (metrics_row enterprise_id team_name) new.
Proof.
  assert (H : appends_only id (metrics_row enterprise_id team_name)
                (write_to_csv enterprise_id team_name entries)).
  { apply appends_only_for. intros entry. apply write_entry_appends. }
  apply H.
Qed.

(** X15.  Whatever the entries are, well-formed or not, and whether the
    flattening ends or raises, [write_to_csv] only appends to what is already
    written, and every row it appends has exactly 19 cells, the first two
    being the enterprise and the team it was called with. *)
Theorem write_to_csv_appends_rows (enterprise_id team_name : json)
    (entries : list json) (rows : Writer) :
  ∃ new, (write_to_csv enterprise_id team_name entries rows).2 = rows ++ new
         ∧ Forall (λ row, length row = 19%nat
                          ∧ row !! 0%nat = Some enterprise_id
                          ∧ row !! 1%nat = Some team_name) new.
Proof.
  apply write_to_csv_rows_shape.
Qed.

Lemma for_app {S A : Type} (xs ys : list A) (body : A → Run S unit) (s : S) :
  for_ (xs ++ ys) body s = (for_ xs body ≫= λ _, for_ ys body) s.
Proof.
  revert s. induction xs as [|x xs IH]; intros s; simpl; [done|].
  rewrite !run_bind_eq. destruct (body x s) as [[[]| |] s1]; [|done..].
  by rewrite IH.
Qed.

Lemma write_entry_not_object (enterprise_id team_name entry : json)
    (rows : Writer) :
  Py.is_dict entry = false →
  write_entry enterprise_id team_name entry rows = (Raise AttributeError, rows).
Proof. by destruct entry. Qed.

(** X16.  The flattening stops at the first entry that is not an object:
    it raises AttributeError there, the rows of the entries before it stay
    written, and no later entry is looked at. *)
Theorem write_to_csv_stops_at_malformed (enterprise_id team_name : json)
    (good : list Entry) (bad : json) (rest : list json) (rows : Writer) :
  Py.is_dict bad = false →
  write_to_csv enterprise_id team_name (map entry_json good ++ bad :: rest) rows
  = (Raise AttributeError,
     rows ++ flat_map (λ en, completion_rows enterprise_id team_name en
                             ++ chat_rows enterprise_id team_name en) good).
Proof.
  intros Hbad. unfold write_to_csv. rewrite for_app, run_bind_eq.
  rewrite (for_appends entry_json _
             (λ en, completion_rows enterprise_id team_name en
                    ++ chat_rows enterprise_id team_name en))
    by (intros en rows' _; apply write_entry_rows).
  simpl. by rewrite run_bind_eq, write_entry_not_object.
Qed.

Lemma write_to_csv_stops_at_malformed_witness :
  let '(r, rows) := write_to_csv (JStr "acme") (JStr "core")
                      [entry_json mixed_entry; JStr "oops";
                       entry_json two_by_two] [] in
  r = Raise AttributeError ∧ length rows = 2%nat.
Proof.
  change [entry_json mixed_entry; JStr "oops"; entry_json two_by_two]
    with (map entry_json [mixed_entry] ++ JStr "oops" :: [entry_json two_by_two]).
  by rewrite (write_to_csv_stops_at_malformed (JStr "acme") (JStr "core")
                [mixed_entry] (JStr "oops") [entry_json two_by_two] [] eq_refl).
Defined.

(** X17.  The default [{}] of [entry.get("copilot_dotcom_chat", {})] covers
    a missing key only: when the key (or "copilot_dotcom_pull_requests") is
    present with a value that is not an object, null included, the entry
    raises AttributeError before any of its rows is written. *)
Theorem write_entry_null_section (enterprise_id team_name : json)
    (d : list (string * json)) (v : json) (rows : Writer) :
  Py.is_dict v = false →
  Py.dict_get d "copilot_dotcom_chat" = Some v
  ∨ ((Py.dict_get d "copilot_dotcom_chat" = None
      ∨ ∃ c, Py.dict_get d "copilot_dotcom_chat" = Some (JDict c))
     ∧ Py.dict_get d "copilot_dotcom_pull_requests" = Some v) →
  write_entry enterprise_id team_name (JDict d) rows
  = (Raise AttributeError, rows).
Proof.
  intros Hv Hd. unfold write_entry.
  rewrite run_bind_eq, get_or_dict, lift_Ok.
  rewrite run_bind_eq, get_or_dict, lift_Ok.
  rewrite run_bind_eq.
  assert (entry_aggregates (JDict d) = Raise AttributeError) as ->; [|done].
  unfold entry_aggregates. rewrite !get_or_dict, outcome_bind_Ok.
  destruct Hd as [Hc|[Hc Hp]].
  - rewrite Hc. cbn [default from_option id]. rewrite outcome_bind_Ok.
    by destruct v.
  - rewrite Hp. cbn [default from_option id].
    destruct Hc as [->|(c & ->)]; cbn [default from_option id];
      rewrite outcome_bind_Ok, get_or_dict, !outcome_bind_Ok; by destruct v.
Qed.

Lemma write_entry_null_section_witness :
  write_entry (JStr "acme") (JStr "core")
    (JDict [("date", JStr "2024-06-01"); ("copilot_dotcom_chat", JNull);
            ("copilot_ide_chat", JDict [])]) []
  = (Raise AttributeError, []).
Proof.
  apply (write_entry_null_section _ _ _ JNull); [reflexivity|].
  left. reflexivity.
Defined.

(** ** What main reports, whatever the data *)

Lemma is_active_cases (clk : Clock) (v : json) :
  is_active clk v = "active" ∨ is_active clk v = "inactive".
Proof.
  unfold is_active, is_active_try. destruct (Py.truthy v); simpl; [|by right].
  destruct v; try (by right). destruct (fromisoformat clk _); [|by right].
  destruct (_ <=? _); [by left|by right].
Qed.

Lemma make_row_ok (cfg : Config) (clk : Clock)
    (scim_index : gmap string ScimRec)
    (seats_by_login : gmap string (list (string * json)))
    (team_name team_slug login : string) :
  login ≠ "" → PyStr.strip login = login →
  team_slug ≠ "" → PyStr.strip team_slug = team_slug →
  row_ok cfg (make_row cfg clk scim_index seats_by_login team_name team_slug login).
Proof.
  intros Hl Hls Ht Hts. unfold row_ok, make_row. simpl.
  do 5 (split; [done|]).
  destruct (seats_by_login !! login) as [d|]; simpl.
  - destruct d as [|b d]; simpl.
    + split; [by right|]. split; [by right|]. done.
    + split; [by left|]. split; [apply is_active_cases|]. done.
  - split; [by right|]. split; [by right|]. done.
Qed.

Lemma team_string_trimmed (t : json) (ks : list string) (s : string) :
  team_string t ks = Ok s → PyStr.strip s = s.
Proof.
  unfold team_string. destruct (first_truthy_field t ks) as [v| |]; try done.
  simpl. destruct v; try done. intros [= <-]. apply strip_idem.
Qed.

Lemma join_team_rows (fuel : nat) (cfg : Config) (clk : Clock) (srv : Server)
    (scim_index : gmap string ScimRec)
    (seats_by_login : gmap string (list (string * json)))
    (rows rows' : list Row) (t : json) (w w' : World) :
  join_team fuel cfg clk srv scim_index seats_by_login rows t w = (Ok rows', w') →
  ∃ new, rows' = rows ++ new ∧ Forall (row_ok cfg) new.
Proof.
  unfold join_team. rewrite run_bind_eq. unfold lift at 1.
  destruct (team_string t ["name"; "display_name"; "slug"]) as [team_name| |];
    try done.
  rewrite run_bind_eq. unfold lift at 1.
  destruct (team_string t ["slug"; "team_slug"]) as [team_slug| |] eqn:Hslug;
    try done.
  destruct (PyStr.nonempty team_slug) eqn:Hne; cbn [negb].
  - rewrite run_bind_eq.
    destruct (fetch_enterprise_team_memberships _ _ _ _ _) as [[ms| |] w1];
      try done.
    cbn [mret Run_ret run_ret]. intros [= <- <-].
    rewrite join_memberships_rows. eexists. split; [done|].
    apply Forall_forall. intros r Hr.
    apply list_elem_of_In, in_map_iff in Hr as (login & <- & Hin).
    apply list_elem_of_In in Hin. unfold logins_of in Hin.
    apply list_elem_of_filter in Hin as [Hlne Hin].
    apply list_elem_of_In, in_map_iff in Hin as (m & <- & _).
    apply make_row_ok; [done| |by apply nonempty_true|].
    + apply parse_membership_login_trimmed.
    + by apply team_string_trimmed in Hslug.
  - intros [= <- <-]. exists []. by rewrite app_nil_r.
Qed.

Lemma join_teams_rows (fuel : nat) (cfg : Config) (clk : Clock) (srv : Server)
    (scim_index : gmap string ScimRec)
    (seats_by_login : gmap string (list (string * json)))
    (teams : list json) :
  ∀ (rows rows' : list Row) (w w' : World),
    join_teams fuel cfg clk srv scim_index seats_by_login rows teams w
    = (Ok rows', w') →
    ∃ new, rows' = rows ++ new ∧ Forall (row_ok cfg) new.
Proof.
  induction teams as [|t teams IH]; intros rows rows' w w'; simpl.
  - intros [= <- <-]. exists []. by rewrite app_nil_r.
  - rewrite run_bind_eq.
    destruct (join_team _ _ _ _ _ _ _ _ _) as [[rows1| |] w1] eqn:Ht; try done.
    intros Hrest. apply join_team_rows in Ht as (new1 & -> & H1).
    apply IH in Hrest as (new2 & -> & H2).
    exists (new1 ++ new2). rewrite <- app_assoc. split; [done|].
    by apply Forall_app.
Qed.

(** X18.  Every row of a report that [main] completes names the enterprise,
    a non-empty trimmed team slug and a non-empty trimmed login; its assigned
    column is "yes" or "no" and its activity "active" or "inactive"; no row is
    active without an assigned seat, and a row without seat has all its seat
    fields blank. *)
Theorem main_rows_ok (fuel : nat) (cfg : Config) (clk : Clock) (srv : Server)
    (w w' : World) (rows : list Row) :
  main fuel cfg clk srv w = (Ok rows, w') →
  Forall (λ r,
    row_enterprise r = ENTERPRISE_SLUG cfg
    ∧ row_login r ≠ "" ∧ PyStr.strip (row_login r) = row_login r
    ∧ row_team_slug r ≠ "" ∧ PyStr.strip (row_team_slug r) = row_team_slug r
    ∧ (row_copilot_assigned r = "yes" ∨ row_copilot_assigned r = "no")
    ∧ (row_active_status r = "active" ∨ row_active_status r = "inactive")
    ∧ (row_active_status r = "active" → row_copilot_assigned r = "yes")
    ∧ (row_copilot_assigned r = "no" →
       row_copilot_status r = JStr "" ∧ row_plan_type r = JStr ""
       ∧ row_last_activity_at r = JStr "" ∧ row_seat_created_at r = JStr ""
       ∧ row_seat_updated_at r = JStr "")) rows.
Proof.
  unfold main. rewrite run_bind_eq.
  destruct (fetch_all_scim_users fuel cfg srv w) as [[users| |] w1]; try done.
  rewrite run_bind_eq.
  destruct (fetch_copilot_billing_seats_by_login fuel cfg srv w1)
    as [[seats| |] w2]; try done.
  rewrite run_bind_eq.
  destruct (BillingSeat.fetch_enterprise_teams fuel cfg srv w2)
    as [[teams| |] w3]; try done.
  intros (new & -> & Hnew)%join_teams_rows. exact Hnew.
Qed.

Lemma main_rows_ok_witness :
  ∃ rows, (main 5 newgen_cfg (fixed_clock 0) small_enterprise_srv world0).1
          = Ok rows
          ∧ length rows = 2%nat
          ∧ Forall (λ r, row_active_status r = "active" →
                         row_copilot_assigned r = "yes") rows.
Proof.
  destruct (main 5 newgen_cfg (fixed_clock 0) small_enterprise_srv world0)
    as [r w'] eqn:Hrun.
  pose proof Hrun as Hval. vm_compute in Hval. injection Hval as <- _.
  eexists. split; [reflexivity|]. split; [reflexivity|].
  eapply Forall_impl; [exact (main_rows_ok _ _ _ _ _ _ _ Hrun)|].
  intros row Hrow. apply Hrow.
Defined.

(** X19.  The identity columns of a row are those of the first directory
    record, in input order, whose key set contains the lowercased, trimmed
    login; they are blank when no record has that key. *)
Theorem make_row_identity (cfg : Config) (clk : Clock)
    (scim_users : list json)
    (seats_by_login : gmap string (list (string * json)))
    (team_name team_slug login : string) :
  let key := PyStr.strip (PyStr.lower login) in
  let row := make_row cfg clk (build_scim_index cfg scim_users) seats_by_login
               team_name team_slug login in
  (∀ pre u post,
     key ≠ "" → scim_users = pre ++ u :: post →
     Forall (λ u', key ∉ keys_of cfg u') pre → key ∈ keys_of cfg u →
     row_name row = scim_name (record_of u)
     ∧ row_email row = scim_email (record_of u)
     ∧ row_scim_userName row = scim_userName (record_of u))
  ∧ (Forall (λ u, key ∉ keys_of cfg u) scim_users →
     row_name row = "" ∧ row_email row = "" ∧ row_scim_userName row = "").
Proof.
  intros key row. subst row. unfold make_row. simpl. fold key.
  rewrite build_scim_index_lookup. split.
  - intros pre u post Hk Hsplit Hpre Hu. rewrite decide_False by done.
    by rewrite (first_claimant_Some cfg key scim_users pre post u).
  - intros Hnone. case_decide; [done|]. by rewrite first_claimant_None.
Qed.

Lemma make_row_identity_witness :
  row_email (make_row newgen_cfg (fixed_clock 0)
               (build_scim_index newgen_cfg [impostor; chander]) ∅
               "Core" "core" " S-Chander_NewGen")
  = "s.chander@co.com".
Proof.
  destruct (make_row_identity newgen_cfg (fixed_clock 0) [impostor; chander] ∅
              "Core" "core" " S-Chander_NewGen") as [H _].
  destruct (H [impostor] chander []) as (_ & -> & _);
    [by vm_compute | reflexivity | | by vm_compute | reflexivity].
  constructor; [by vm_compute|constructor].
Defined.

(** ** Index/count collection *)





(** ** The entry point of the metrics script *)

Lemma appends_only_lift_world {A : Type} (P : list json → Prop)
    (m : Run World A) :
  appends_only snd P (lift_world m).
Proof.
  intros [w rows]. unfold lift_world. simpl. destruct (m w).
  exists []. by rewrite app_nil_r.
Qed.

Lemma appends_only_lift_writer {A : Type} (P : list json → Prop)
    (m : Run Writer A) :
  appends_only id P m → appends_only snd P (lift_writer m).
Proof.
  intros Hm [w rows]. unfold lift_writer. simpl.
  destruct (Hm rows) as (new & Hnew & HP). destruct (m rows). eauto.
Qed.

Lemma metrics_team_appends (fuel : nat) (enterprise : string) (srv : Server)
    (team : json) :
  appends_only snd
    (λ row, length row = 19%nat ∧ row !! 0%nat = Some (JStr enterprise))
    (metrics_team fuel enterprise srv team).
Proof.
  unfold metrics_team.
  apply appends_only_bind; [apply appends_only_lift|]. intros team_name.
  apply appends_only_bind; [apply appends_only_lift|]. intros team_slug.
  destruct (Py.truthy team_slug); cbn [negb]; [|apply appends_only_ret].
  apply appends_only_bind; [apply appends_only_lift_world|]. intros entries.
  apply appends_only_lift_writer. intros rows.
  destruct (write_to_csv_rows_shape (JStr enterprise) team_name entries rows)
    as (new & Hnew & HP).
  exists new. split; [done|]. eapply Forall_impl; [exact HP|].
  by intros row (? & ? & _).
Qed.

(** X21.  Whatever the server answers, the output of the metrics script is
    either empty or starts with the header row, and every row after the
    header has 19 cells, as the header has, the first naming the enterprise.
    When the script ends for want of teams it has written nothing and has
    logged one warning. *)
Theorem metrics_main_output (fuel : nat) (enterprise : string) (srv : Server)
    (w w' : World) (rows : Writer) (o : outcome bool) :
  metrics_main fuel enterprise srv (w, []) = (o, (w', rows)) →
  (rows = []
   ∨ ∃ data, rows = metrics_header :: data
             ∧ Forall (λ row, length row = 19%nat
                              ∧ row !! 0%nat = Some (JStr enterprise)) data)
  ∧ length metrics_header = 19%nat
  ∧ (o = Ok false →
     rows = [] ∧ ∃ logs, logged w' = logs ++ ["No teams found in enterprise."])
  ∧ (o = Ok true → rows ≠ []).
Proof.
  unfold metrics_main. rewrite run_bind_eq. unfold lift_world at 1. simpl.
  destruct (TeamMetrics.fetch_enterprise_teams fuel enterprise srv w)
    as [[teams| |] w1]; [|intros [= <- <- <-]; by repeat split; try left..].
  destruct teams as [|t teams]; cbn [Py.truthy negb].
  - rewrite run_bind_eq. unfold lift_world, Http.log, modify. simpl.
    intros [= <- <- <-]. split; [by left|]. split; [done|].
    split; [|done]. intros _. split; [done|]. by eexists.
  - pose proof (appends_only_for snd _ (t :: teams) _
                  (metrics_team_appends fuel enterprise srv)
                  (w1, [metrics_header])) as (data & Hdata & HP).
    remember (for_ (t :: teams) (metrics_team fuel enterprise srv)) as body.
    rewrite run_bind_eq. unfold lift_writer at 1, writerow, modify. simpl.
    rewrite run_bind_eq.
    destruct (body _) as [[[]| |] [w2 rows2]];
      simpl in Hdata; subst rows2; intros [= <- <- <-];
      (split; [right; by exists data|]); (split; [done|]); by split.
Qed.

Lemma metrics_main_output_witness :
  ∃ w' data,
    metrics_main 2 "acme" one_team_srv (world0, [])
    = (Ok true, (w', metrics_header :: data))
    ∧ length data = 2%nat
    ∧ Forall (λ row, length row = 19%nat ∧ row !! 0%nat = Some (JStr "acme"))
        data.
Proof.
  destruct (metrics_main 2 "acme" one_team_srv (world0, []))
    as [o [w' rows]] eqn:Hrun.
  destruct (metrics_main_output _ _ _ _ _ _ _ Hrun)
    as ([->|(data & -> & HP)] & _); [by vm_compute in Hrun|].
  exists w', data. vm_compute in Hrun. injection Hrun as <- _ <-.
  split; [done|]. by split.
Defined.

(** ** The team listing of the metrics script *)

Lemma metrics_teams_loop_step (fuel : nat) (enterprise : string)
    (srv : Server) (teams : list json) (page : Z) (w : World)
    (items : list json) :
  metrics_answer (srv (length (sent w))) items →
  fetch_enterprise_teams_loop (S fuel) enterprise srv teams page w
  = let req := {| req_url := API_ROOT +:+ "/enterprises/" +:+ enterprise
                             +:+ "/teams";
                  req_accept := "application/vnd.github+json";
                  req_params := page_params page |} in
    if links_next (srv (length (sent w))) then
      fetch_enterprise_teams_loop fuel enterprise srv (teams ++ items)
        (page + 1) (after_pages w [req] 1)
    else (Ok (teams ++ items), after_pages w [req] 0).
Proof.
  intros (Hst & Hrem & Hreset & data & Hbody & Htruthy & Hiter).
  cbn [fetch_enterprise_teams_loop]. cbv zeta.
  rewrite run_bind_eq. unfold Http.get at 1.
  rewrite run_bind_eq, handle_rate_limit_no_headers by done.
  rewrite Hst. cbn [Z.eqb Pos.eqb negb]. rewrite run_bind_eq.
  unfold Http.json_of. rewrite Hbody. cbn [mret Run_ret run_ret].
  rewrite Htruthy. cbn [negb]. rewrite run_bind_eq, Hiter, lift_Ok.
  destruct (links_next _).
  - rewrite run_bind_eq. unfold Http.sleep, modify, after_pages. simpl.
    by rewrite Z.add_comm.
  - unfold after_pages. simpl. by rewrite app_nil_r, Z.add_0_r.
Qed.

Lemma metrics_teams_loop_error (fuel : nat) (enterprise : string)
    (srv : Server) (teams : list json) (page : Z) (w : World) :
  let failed := srv (length (sent w)) in
  status_code failed ≠ 200 →
  ratelimit_remaining failed = None → ratelimit_reset failed = None →
  fetch_enterprise_teams_loop (S fuel) enterprise srv teams page w
  = (Ok teams,
     {| sent := sent w ++ [{| req_url := API_ROOT +:+ "/enterprises/"
                                         +:+ enterprise +:+ "/teams";
                              req_accept := "application/vnd.github+json";
                              req_params := page_params page |}];
        slept := slept w; clock := clock w;
        logged := logged w ++ ["Error fetching teams: "
                               +:+ pretty (status_code failed) +:+ " - "
                               +:+ text failed] |}).
Proof.
  intros failed Hst Hrem Hreset. subst failed.
  cbn [fetch_enterprise_teams_loop]. cbv zeta.
  rewrite run_bind_eq. unfold Http.get at 1.
  rewrite run_bind_eq, handle_rate_limit_no_headers by done.
  destruct (status_code _ =? 200) eqn:E; [by apply Z.eqb_eq in E|].
  cbn [negb]. rewrite run_bind_eq. unfold Http.log, modify. by simpl.
Qed.

Lemma metrics_teams_loop_truncates (enterprise : string) (srv : Server)
    (pages : list (list json)) :
  ∀ (fuel : nat) (teams : list json) (page : Z) (w : World),
    (length pages < fuel)%nat →
    (∀ i pg, pages !! i = Some pg →
             metrics_answer (srv (length (sent w) + i)%nat) pg
             ∧ links_next (srv (length (sent w) + i)%nat) = true) →
    let failed := srv (length (sent w) + length pages)%nat in
    status_code failed ≠ 200 →
    ratelimit_remaining failed = None → ratelimit_reset failed = None →
    ∃ w', fetch_enterprise_teams_loop fuel enterprise srv teams page w
          = (Ok (teams ++ concat pages), w')
          ∧ logged w' = logged w ++ ["Error fetching teams: "
                                     +:+ pretty (status_code failed) +:+ " - "
                                     +:+ text failed]
          ∧ length (sent w') = (length (sent w) + S (length pages))%nat
          ∧ slept w' = slept w ++ replicate (length pages) 1.
Proof.
  induction pages as [|pg pages IH];
    intros fuel teams page w Hfuel Hfull failed Hst Hrem Hreset; subst failed.
  - destruct fuel as [|fuel]; [simpl in Hfuel; lia|].
    simpl length in *. rewrite Nat.add_0_r in *.
    cbn [concat replicate]. rewrite !app_nil_r.
    eexists. split; [by apply metrics_teams_loop_error|].
    cbn [sent slept logged]. rewrite length_app.
    split; [done|]. split; [simpl; lia|done].
  - destruct fuel as [|fuel]; [simpl in Hfuel; lia|].
    destruct (Hfull 0%nat pg eq_refl) as [Hpg Hnx].
    rewrite Nat.add_0_r in Hpg, Hnx.
    rewrite (metrics_teams_loop_step _ _ _ _ _ _ pg Hpg).
    cbv zeta. rewrite Hnx.
    set (w1 := after_pages w _ 1).
    assert (Hlen1 : length (sent w1) = S (length (sent w))).
    { subst w1. simpl. rewrite length_app. simpl. lia. }
    assert (Hidx : (length (sent w1) + length pages
                    = length (sent w) + length (pg :: pages))%nat).
    { rewrite Hlen1. simpl. lia. }
    destruct (IH fuel (teams ++ pg) (page + 1) w1) as (w' & Hrun & Hlog & Hsent & Hslept).
    + simpl in Hfuel. lia.
    + intros i pg' Hi. rewrite Hlen1.
      replace (S (length (sent w)) + i)%nat with (length (sent w) + S i)%nat by lia.
      by apply Hfull.
    + by rewrite Hidx.
    + by rewrite Hidx.
    + by rewrite Hidx.
    + exists w'. rewrite Hrun, Hlog, Hsent, Hslept, Hidx, Hlen1.
      split; [by rewrite concat_cons, <- !app_assoc|]. split; [done|].
      split; [simpl; lia|]. subst w1. simpl. by rewrite <- app_assoc.
Qed.

(** X22.  The team listing of the metrics script never raises on an HTTP
    error: when a page request is answered with a status other than 200
    (and no rate-limit headers), [fetch_enterprise_teams] logs one error and
    returns the teams of the pages read before it, so that a failure in the
    middle of the listing yields a shortened list and one on the first page
    yields the empty list. *)
Theorem metrics_teams_truncated_by_error (enterprise : string) (srv : Server)
    (pages : list (list json)) (fuel : nat) (w : World) :
  (length pages < fuel)%nat →
  (∀ i pg, pages !! i = Some pg →
           metrics_answer (srv (length (sent w) + i)%nat) pg
           ∧ links_next (srv (length (sent w) + i)%nat) = true) →
  let failed := srv (length (sent w) + length pages)%nat in
  status_code failed ≠ 200 →
  ratelimit_remaining failed = None → ratelimit_reset failed = None →
  ∃ w', TeamMetrics.fetch_enterprise_teams fuel enterprise srv w
        = (Ok (concat pages), w')
        ∧ logged w' = logged w ++ ["Error fetching teams: "
                                   +:+ pretty (status_code failed) +:+ " - "
                                   +:+ text failed]
        ∧ length (sent w') = (length (sent w) + S (length pages))%nat
        ∧ slept w' = slept w ++ replicate (length pages) 1.
Proof.
  intros Hfuel Hfull failed Hst Hrem Hreset.
  unfold TeamMetrics.fetch_enterprise_teams.
  by apply (metrics_teams_loop_truncates enterprise srv pages fuel [] 1 w).
Qed.

Lemma metrics_teams_truncated_by_error_witness :
  ∃ w', TeamMetrics.fetch_enterprise_teams 2 "acme" broken_listing_srv world0
        = (Ok [JDict [("slug", JStr "core")]], w')
        ∧ logged w' = ["Error fetching teams: 502 - upstream"]
        ∧ length (sent w') = 2%nat
        ∧ slept w' = [1].
Proof.
  apply (metrics_teams_truncated_by_error "acme" broken_listing_srv
           [[JDict [("slug", JStr "core")]]] 2 world0); [simpl; lia| |done..].
  intros [|i] pg Hpg; [|by destruct i]. injection Hpg as <-.
  split; [|done]. repeat split. by eexists.
Defined.

(** ** pick_scim_name *)

Lemma trimmed_head (s : string) :
  PyStr.strip s = s →
  match s with EmptyString => True | String c _ => PyStr.is_space c = false end.
Proof.
  intros Hs. unfold PyStr.strip, PyStr.strip_by in Hs.
  pose proof (lstrip_by_head PyStr.is_space s) as Hh.
  destruct (PyStr.lstrip_by PyStr.is_space s) as [|c t]; [by rewrite <- Hs|].
  destruct (rstrip_by_keeps_head PyStr.is_space c t Hh) as [r Hr].
  by rewrite <- Hs, Hr.
Qed.

Lemma trimmed_tail (s : string) :
  PyStr.strip s = s → PyStr.rstrip_by PyStr.is_space s = s.
Proof.
  intros Hs. rewrite <- Hs at 1. unfold PyStr.strip, PyStr.strip_by.
  rewrite rstrip_by_idem. exact Hs.
Qed.

Lemma rstrip_by_app (p : ascii → bool) (a b : string) :
  b ≠ "" → PyStr.rstrip_by p b = b → PyStr.rstrip_by p (a +:+ b) = a +:+ b.
Proof.
  intros Hne Hb. induction a as [|c a IH]; [exact Hb|].
  change (String c a +:+ b) with (String c (a +:+ b)).
  cbn [PyStr.rstrip_by]. rewrite IH. destruct (a +:+ b) eqn:E; [|done].
  by destruct a, b.
Qed.

Lemma strip_sandwich (a m b : string) :
  a ≠ "" → b ≠ "" → PyStr.strip a = a → PyStr.strip b = b →
  PyStr.strip (a +:+ m +:+ b) = a +:+ m +:+ b.
Proof.
  intros Ha Hb Hta Htb. unfold PyStr.strip, PyStr.strip_by.
  pose proof (trimmed_head a Hta) as Hh.
  destruct a as [|c a]; [done|].
  change (String c a +:+ m +:+ b) with (String c (a +:+ m +:+ b)).
  rewrite lstrip_by_fixed by done.
  change (String c (a +:+ m +:+ b)) with (String c a +:+ (m +:+ b)).
  apply rstrip_by_app; [by destruct m, b|].
  apply rstrip_by_app; [done|by apply trimmed_tail].
Qed.

Lemma str_or_empty_strip_trimmed (v : json) :
  PyStr.strip (str_or_empty_strip v) = str_or_empty_strip v.
Proof. apply strip_idem. Qed.

Lemma nonempty_or_empty (s : string) :
  (if PyStr.nonempty s then s else "") = s.
Proof. by destruct s. Qed.

Lemma full_name_parts (given family : string) :
  Py.join " " (filter (λ p, PyStr.nonempty p = true) [given; family])
  = if PyStr.nonempty given
    then if PyStr.nonempty family then given +:+ " " +:+ family else given
    else family.
Proof. by destruct given, family. Qed.

Lemma full_name_trimmed (given family : string) :
  PyStr.strip given = given → PyStr.strip family = family →
  PyStr.strip
    (Py.join " " (filter (λ p, PyStr.nonempty p = true) [given; family]))
  = if PyStr.nonempty given
    then if PyStr.nonempty family then given +:+ " " +:+ family else given
    else family.
Proof.
  intros Hg Hf. rewrite full_name_parts.
  destruct given as [|c g]; [done|]. destruct family as [|d f]; [done|].
  cbn [PyStr.nonempty]. by apply strip_sandwich.
Qed.

(** X23.  The display name of a SCIM user is chosen in this order: a
    non-blank [displayName]; else, when [name] is an object (or is missing
    or falsy), its non-blank [formatted]; else the non-blank ones of
    [givenName] and [familyName] joined by one blank; else the empty text.
    A truthy [name] that is not an object gives the empty text.  The result
    never has blanks at either end. *)
Theorem pick_scim_name_spec (u : list (string * json)) :
  let dn := str_or_empty_strip (field u "displayName") in
  PyStr.strip (pick_scim_name u) = pick_scim_name u
  ∧ (dn ≠ "" → pick_scim_name u = dn)
  ∧ (dn = "" →
     ∀ name_obj, Py.or (field u "name") (JDict []) = JDict name_obj →
       let formatted := str_or_empty_strip (field name_obj "formatted") in
       let given := str_or_empty_strip (field name_obj "givenName") in
       let family := str_or_empty_strip (field name_obj "familyName") in
       pick_scim_name u
       = if PyStr.nonempty formatted then formatted
         else if PyStr.nonempty given
              then if PyStr.nonempty family then given +:+ " " +:+ family
                   else given
              else family)
  ∧ (dn = "" → Py.truthy (field u "name") = true →
     Py.is_dict (field u "name") = false → pick_scim_name u = "").
Proof.
  intros dn. subst dn. unfold pick_scim_name. cbv zeta.
  assert (Hfull : ∀ name_obj,
    (let formatted := str_or_empty_strip (field name_obj "formatted") in
     if PyStr.nonempty formatted then formatted
     else
       let given := str_or_empty_strip (field name_obj "givenName") in
       let family := str_or_empty_strip (field name_obj "familyName") in
       let full := PyStr.strip
                     (Py.join " " (filter (λ p, PyStr.nonempty p = true)
                                          [given; family])) in
       if PyStr.nonempty full then full else "")
    = if PyStr.nonempty (str_or_empty_strip (field name_obj "formatted"))
      then str_or_empty_strip (field name_obj "formatted")
      else if PyStr.nonempty (str_or_empty_strip (field name_obj "givenName"))
           then if PyStr.nonempty
                     (str_or_empty_strip (field name_obj "familyName"))
                then str_or_empty_strip (field name_obj "givenName") +:+ " "
                     +:+ str_or_empty_strip (field name_obj "familyName")
                else str_or_empty_strip (field name_obj "givenName")
           else str_or_empty_strip (field name_obj "familyName")).
  { intros name_obj. cbv zeta. destruct (PyStr.nonempty _); [done|].
    rewrite nonempty_or_empty.
    apply full_name_trimmed; apply str_or_empty_strip_trimmed. }
  cbv zeta in Hfull.
  destruct (str_or_empty_strip (field u "displayName")) as [|c dn] eqn:Hdn.
  - cbn [PyStr.nonempty]. split; [|split; [done|split]].
    + destruct (Py.or _ _) as [| | | | |name_obj]; try done.
      rewrite Hfull.
      pose proof (str_or_empty_strip_trimmed (field name_obj "formatted")).
      pose proof (str_or_empty_strip_trimmed (field name_obj "givenName")).
      pose proof (str_or_empty_strip_trimmed (field name_obj "familyName")).
      destruct (str_or_empty_strip (field name_obj "formatted")); [|done].
      cbn [PyStr.nonempty].
      destruct (str_or_empty_strip (field name_obj "givenName")) as [|a g];
        [done|].
      destruct (str_or_empty_strip (field name_obj "familyName")) as [|b f];
        [done|].
      cbn [PyStr.nonempty]. by apply strip_sandwich.
    + intros _ name_obj ->. apply Hfull.
    + intros _ Ht Hd. unfold Py.or. rewrite Ht.
      by destruct (field u "name").
  - cbn [PyStr.nonempty]. split; [|split; [done|by split]].
    rewrite <- Hdn. apply str_or_empty_strip_trimmed.
Qed.

Lemma pick_scim_name_spec_witness :
  pick_scim_name
    [("displayName", JStr "  ");
     ("name", JDict [("givenName", JStr " Ada ");
                     ("familyName", JStr "Lovelace")])]
  = "Ada Lovelace".
Proof.
  destruct (pick_scim_name_spec
              [("displayName", JStr "  ");
               ("name", JDict [("givenName", JStr " Ada ");
                               ("familyName", JStr "Lovelace")])])
    as (_ & _ & H & _).
  by rewrite (H eq_refl _ eq_refl).
Defined.
